(** * Mineserv frontend (src/frontend/app.js): state, rendering, polling, console
    session and API client, as a shallow embedding.

  The JavaScript program is modelled with explicit state passing.  A [world]
  holds the [state] object of the program, the module-level [ws] variable,
  the browser resources the program owns (the DOM below [#app], the live
  interval timers, the WebSockets, the [localStorage] entry) and a log of the
  externally visible effects in the order they happen.  An [async] function is
  split at its [await]: the part before it issues the request, the part after
  it (suffix [_k]) is run when the response is delivered. *)

From Stdlib Require Import List String Ascii ZArith Bool Arith Lia.
From Stdlib Require Import DecimalString.
Import ListNotations.
Set Warnings "-register-all".
Local Open Scope string_scope.

(** ** JavaScript values *)

Module JS.

(** A number: a finite double, given as [m * 2^e], or one of the three
    values that are not finite.  Every finite double is such a product
    with [|m| < 2^53] and [-1074 <= e]; a pair that is no double stands for
    no value of the language.  The sign of zero is not kept: nothing
    modelled tells [-0] from [0]. *)
Inductive number : Type :=
| Finite (m e : Z)
| NaN
| Infinity (negative : bool).

(** An integer as a number. *)
Definition int (z : Z) : number := Finite z 0.

(** The string conversions of numbers (Number::toString and
    Number.prototype.toFixed of ECMA-262), in exact integer arithmetic. *)
Module Double.
Local Open Scope Z_scope.

Definition decimal (z : Z) : string :=
  NilZero.string_of_int (Z.to_int z).

(** [10^n <= a / d], for [0 < d]. *)
Definition reaches (a d n : Z) : bool :=
  if 0 <=? n then 10 ^ n * d <=? a else d <=? a * 10 ^ (- n).

(** The [n] with [10^(n-1) <= a / d < 10^n], searched from an estimate. *)
Fixpoint magnitude (fuel : nat) (a d n : Z) : Z :=
  match fuel with
  | O => n
  | S fuel' =>
      if reaches a d n then magnitude fuel' a d (n + 1)
      else if reaches a d (n - 1) then n
      else magnitude fuel' a d (n - 1)
  end.

(** The digits of a positive double [m * 2^e]: the shortest decimal
    [s * 10^(n-k)], [s] of [k] digits, that converts back to the same
    double, and the closest one if there are several (Number::toString,
    step 5).  A decimal converts back to the double iff it lies between the
    midpoints to the two neighbouring doubles, the midpoints themselves
    counting when the significand is even. *)
Section Digits.
Variables m e : Z.

(** The exponent of the unit in the last place. *)
Definition ulp_exp : Z := Z.max (Z.log2 m + e - 52) (-1074).

(** The number and the two half gaps, all scaled by [2^scale]. *)
Definition scale : Z := Z.max 0 (Z.max (2 - ulp_exp) (- e)).
Definition scaled : Z := m * 2 ^ (e + scale).
Definition half_up : Z := 2 ^ (ulp_exp - 1 + scale).
Definition half_down : Z :=
  if (m =? 2 ^ Z.log2 m) && (-1074 <? ulp_exp)
  then 2 ^ (ulp_exp - 2 + scale) else half_up.
Definition even_significand : bool :=
  Z.even (scaled / 2 ^ (ulp_exp + scale)).

Definition mag : Z :=
  magnitude 8 scaled (2 ^ scale) ((Z.log2 m + e) * 30103 / 100000).

(** Does [s * 10^(mag-k)] convert back to [m * 2^e]? *)
Definition round_trips (k s : Z) : bool :=
  let p1 := 10 ^ Z.max 0 (mag - k) in
  let p2 := 10 ^ Z.max 0 (k - mag) in
  let v := s * 2 ^ scale * p1 in
  let lo := (scaled - half_down) * p2 in
  let hi := (scaled + half_up) * p2 in
  if even_significand then (lo <=? v) && (v <=? hi)
  else (lo <? v) && (v <? hi).

(** The [k]-digit decimal that converts back, if there is one: the one
    next below or next above the number, the closer of the two, the even
    one when both are as close. *)
Definition candidate (k : Z) : option Z :=
  let p1 := 10 ^ Z.max 0 (mag - k) in
  let p2 := 10 ^ Z.max 0 (k - mag) in
  let s := (scaled * p2) / (2 ^ scale * p1) in
  match round_trips k s, round_trips k (s + 1) with
  | true, false => Some s
  | false, true => Some (s + 1)
  | false, false => None
  | true, true =>
      let twice := 2 * scaled * p2 in
      let mid := (2 * s + 1) * 2 ^ scale * p1 in
      if twice <? mid then Some s
      else if mid <? twice then Some (s + 1)
      else if Z.even s then Some s else Some (s + 1)
  end.

Fixpoint shortest (fuel : nat) (k : Z) : Z * Z :=
  match fuel with
  | O => (k, (scaled * 10 ^ Z.max 0 (k - mag))
             / (2 ^ scale * 10 ^ Z.max 0 (mag - k)))
  | S fuel' =>
      match candidate k with
      | Some s => (k, s)
      | None => shortest fuel' (k + 1)
      end
  end.

(** [(ds, n)]: the number prints as the decimal [0.ds * 10^n]. *)
Definition digits : string * Z :=
  let (k, s) := shortest 17 1 in
  if s =? 10 ^ k then (decimal (s / 10), mag + 1)
  else (decimal s, mag).
End Digits.

Fixpoint zeros (n : nat) : string :=
  match n with
  | O => ""
  | S n' => String "0" (zeros n')
  end.

(** Number::toString, steps 6 to 11, for a positive number. *)
Definition layout (ds : string) (n : Z) : string :=
  let k := Z.of_nat (String.length ds) in
  if (k <=? n) && (n <=? 21) then ds ++ zeros (Z.to_nat (n - k))
  else if (0 <? n) && (n <=? 21) then
    substring 0 (Z.to_nat n) ds ++ "."
    ++ substring (Z.to_nat n) (Z.to_nat (k - n)) ds
  else if (-6 <? n) && (n <=? 0) then "0." ++ zeros (Z.to_nat (- n)) ++ ds
  else
    let ex := n - 1 in
    let tail := (if 0 <=? ex then "e+" else "e-") ++ decimal (Z.abs ex) in
    if k =? 1 then ds ++ tail
    else substring 0 1 ds ++ "." ++ substring 1 (Z.to_nat (k - 1)) ds ++ tail.

(** [String(x)] *)
Definition to_string (x : number) : string :=
  match x with
  | NaN => "NaN"
  | Infinity false => "Infinity"
  | Infinity true => "-Infinity"
  | Finite m e =>
      if m =? 0 then "0"
      else
        let (ds, n) := digits (Z.abs m) e in
        (if m <? 0 then "-" else "") ++ layout ds n
  end.

(** [x.toFixed(1)]: from [10^21] on the string conversion; below, the
    integer closest to ten times the number, the larger one of two, with
    the point before its last digit. *)
Definition toFixed1 (x : number) : string :=
  match x with
  | Finite m e =>
      let a := Z.abs m in
      if (if 0 <=? e then 10 ^ 21 <=? a * 2 ^ e
          else 10 ^ 21 * 2 ^ (- e) <=? a)
      then to_string x
      else
        let n := if 0 <=? e then a * 2 ^ e * 10
                 else (a * 20 + 2 ^ (- e)) / 2 ^ (1 - e) in
        (if m <? 0 then "-" else "")
        ++ decimal (n / 10) ++ "." ++ decimal (n mod 10)
  | _ => to_string x
  end.

End Double.

Arguments Double.to_string x : simpl never.
Arguments Double.toFixed1 x : simpl never.

(** The values that reach the program: JSON payloads, [null] and
    [undefined]. *)
Inductive value : Type :=
| Undefined
| Null
| Bool (b : bool)
| Num (x : number)
| Str (s : string)
| Arr (items : list value)
| Obj (fields : list (string * value)).

(** [if (v)], [v || w], [!v] *)
Definition truthy (v : value) : bool :=
  match v with
  | Undefined | Null => false
  | Bool b => b
  | Num (Finite m _) => negb (m =? 0)%Z
  | Num NaN => false
  | Num (Infinity _) => true
  | Str s => negb (s =? "")
  | Arr _ | Obj _ => true
  end.

(** String conversion, as done by a template literal [`${v}`]. *)
Fixpoint to_string (v : value) : string :=
  match v with
  | Undefined => "undefined"
  | Null => "null"
  | Bool true => "true"
  | Bool false => "false"
  | Num x => Double.to_string x
  | Str s => s
  | Arr items =>
      (fix join (l : list value) : string :=
         match l with
         | [] => ""
         | x :: r =>
             let sx := match x with
                       | Undefined | Null => ""
                       | _ => to_string x
                       end in
             match r with
             | [] => sx
             | _ :: _ => sx ++ "," ++ join r
             end
         end) items
  | Obj _ => "[object Object]"
  end.

Fixpoint lookup (k : string) (fs : list (string * value)) : value :=
  match fs with
  | [] => Undefined
  | (k', v) :: r => if k' =? k then v else lookup k r
  end.

(** Property read [v.k]: a TypeError ([None]) on [null] and [undefined],
    [undefined] for a missing property.  Built-in properties of strings,
    numbers and arrays are not modelled. *)
Definition prop (v : value) (k : string) : option value :=
  match v with
  | Undefined | Null => None
  | Obj fs => Some (lookup k fs)
  | _ => Some Undefined
  end.

(** [v === 'lit'] *)
Definition is_str (v : value) (lit : string) : bool :=
  match v with
  | Str s => s =? lit
  | _ => false
  end.

(** Conversion done by the [textContent] setter, a nullable DOMString:
    [null] and [undefined] clear the element. *)
Definition text_of (v : value) : string :=
  match v with
  | Undefined | Null => ""
  | _ => to_string v
  end.

(** [v.toFixed(1)]: a TypeError unless [v] is a number. *)
Definition toFixed1 (v : value) : option string :=
  match v with
  | Num x => Some (Double.toFixed1 x)
  | _ => None
  end.

End JS.

(** ** The DOM below [#app] *)

Module Dom.

(** A parsed HTML fragment: what assigning a string to [innerHTML]
    describes.  Only the tag, the [id] and the class list of an element are
    kept (no code under study reads another attribute), and whitespace-only
    text between the tags of a template is dropped.  A value interpolated
    into a template is parsed with it, see [parse_html] below. *)
Inductive html : Type :=
| HText (s : string)
| HElem (tag eid : string) (cls : list string) (kids : list html).

(** A live node.  Every element carries the identity [nid] it was created
    with; two elements are the same node iff their [nid]s agree. *)
Inductive node : Type :=
| Text (s : string)
| Elem (nid : nat) (tag eid : string) (cls : list string) (kids : list node).

(** A text between tags; an empty string leaves no text node. *)
Definition txt (s : string) : list html :=
  if s =? "" then [] else [HText s].

(** *** Markup in interpolated text

    A string interpolated into a template is parsed with the rest of the
    template.  [parse_html] gives what the parser makes of such a string
    where it fills the space between two tags, for the strings accepted by
    [Markup.closed]: text without [<], [&], NUL and CR, and [div] and [span]
    elements, properly nested, each with at most a [class] and an [id]
    attribute in quotes.  Markup outside this fragment (other tags and
    attributes, character references, tags left open) is not modelled: such
    a string is kept as text, which is not what a browser makes of it. *)

(** A character the tokenizer hands on as it is. *)
Definition text_char (c : ascii) : bool :=
  negb (existsb (Ascii.eqb c) ["<"; "&"; "000"; "013"]%char).

(** Text that holds no markup. *)
Fixpoint plain (s : string) : bool :=
  match s with
  | EmptyString => true
  | String c r => text_char c && plain r
  end.

(** Text that can stand inside a double-quoted attribute value without
    ending it. *)
Fixpoint unquoted (s : string) : bool :=
  match s with
  | EmptyString => true
  | String c r => negb (Ascii.eqb c "034") && unquoted r
  end.

Module Markup.

(** The longest prefix of [s] accepted by [ok], and the rest. *)
Fixpoint span_of (ok : ascii -> bool) (s : string) : string * string :=
  match s with
  | EmptyString => ("", "")
  | String c r =>
      if ok c then let (t, rest) := span_of ok r in (String c t, rest)
      else ("", s)
  end.

(** [s] without the prefix [pre]. *)
Fixpoint after (pre s : string) : option string :=
  match pre, s with
  | EmptyString, _ => Some s
  | String a pre', String b s' =>
      if Ascii.eqb a b then after pre' s' else None
  | _, EmptyString => None
  end.

(** The tokens of a [class] attribute whose only white space is the
    space. *)
Fixpoint class_tokens (s : string) : list string :=
  match s with
  | EmptyString => []
  | String c r =>
      if Ascii.eqb c " " then class_tokens r
      else match class_tokens r, r with
           | h :: t, String c' _ =>
               if Ascii.eqb c' " " then String c "" :: h :: t
               else String c h :: t
           | l, _ => String c "" :: l
           end
  end.

(** A character of an attribute value: no tab, line feed or form feed, so
    that [class_tokens] splits the way the class list does. *)
Definition value_char (q c : ascii) : bool :=
  text_char c
  && negb (existsb (Ascii.eqb c) [q; ">"; "009"; "010"; "012"]%char).

(** A quoted attribute value and what follows the closing quote. *)
Definition quoted (s : string) : option (string * string) :=
  match s with
  | String q r =>
      if Ascii.eqb q "'" || Ascii.eqb q "034" then
        let (v, rest) := span_of (value_char q) r in
        match rest with
        | String q' rest' => if Ascii.eqb q' q then Some (v, rest') else None
        | EmptyString => None
        end
      else None
  | EmptyString => None
  end.

(** The attributes of a start tag up to its [>]: an [id] and a [class],
    each at most once. *)
Fixpoint attributes (fuel : nat) (eid cls : option string) (s : string)
  : option (string * list string * string) :=
  match fuel with
  | O => None
  | S fuel' =>
      match s with
      | String c r =>
          if Ascii.eqb c ">" then
            Some (match eid with Some i => i | None => "" end,
                  match cls with Some v => class_tokens v | None => [] end, r)
          else if Ascii.eqb c " " then
            match after "class=" r, after "id=" r, cls, eid with
            | Some r', _, None, _ =>
                match quoted r' with
                | Some (v, rest) => attributes fuel' eid (Some v) rest
                | None => None
                end
            | None, Some r', _, None =>
                match quoted r' with
                | Some (v, rest) => attributes fuel' (Some v) cls rest
                | None => None
                end
            | _, _, _, _ => None
            end
          else None
      | EmptyString => None
      end
  end.

(** A start tag, after its [<]. *)
Definition start_tag (s : string)
  : option (string * string * list string * string) :=
  let open (tag : string) :=
    match after tag s with
    | Some r =>
        match attributes (String.length r) None None r with
        | Some (eid, cls, rest) => Some (tag, eid, cls, rest)
        | None => None
        end
    | None => None
    end in
  match open "div" with
  | Some x => Some x
  | None => open "span"
  end.

(** A run of nodes, up to the end of the string or to an end tag. *)
Fixpoint nodes (fuel : nat) (s : string) : option (list html * string) :=
  match fuel with
  | O => None
  | S fuel' =>
      match s with
      | EmptyString => Some ([], "")
      | String c r =>
          if Ascii.eqb c "<" then
            match r with
            | String "/" _ => Some ([], s)
            | _ =>
                match start_tag r with
                | Some (tag, eid, cls, r1) =>
                    match nodes fuel' r1 with
                    | Some (kids, r2) =>
                        match after ("</" ++ tag ++ ">") r2 with
                        | Some r3 =>
                            match nodes fuel' r3 with
                            | Some (more, r4) =>
                                Some (HElem tag eid cls kids :: more, r4)
                            | None => None
                            end
                        | None => None
                        end
                    | None => None
                    end
                | None => None
                end
            end
          else
            let (t, rest) := span_of text_char s in
            if t =? "" then None
            else match nodes fuel' rest with
                 | Some (more, r') => Some (HText t :: more, r')
                 | None => None
                 end
      end
  end.

(** The nodes of a string of the modelled fragment. *)
Definition closed (s : string) : option (list html) :=
  match nodes (S (String.length s)) s with
  | Some (ns, EmptyString) => Some ns
  | _ => None
  end.

End Markup.

Definition parse_html (s : string) : list html :=
  match Markup.closed s with
  | Some ns => ns
  | None => txt s
  end.

(** The text of a fragment, its tags dropped. *)
Fixpoint inner_text (h : html) : string :=
  match h with
  | HText s => s
  | HElem _ _ _ ks => String.concat "" (map inner_text ks)
  end.

(** What is visible of a node: everything but node identities. *)
Fixpoint erase (n : node) : html :=
  match n with
  | Text s => HText s
  | Elem _ t e c ks => HElem t e c (map erase ks)
  end.

(** Creating the nodes of a fragment, in document order, from the next
    unused identity. *)
Fixpoint create (h : html) (next : nat) : node * nat :=
  match h with
  | HText s => (Text s, next)
  | HElem t e c ks =>
      let fix create_all (l : list html) (m : nat) : list node * nat :=
        match l with
        | [] => ([], m)
        | x :: r =>
            let (x', m1) := create x m in
            let (r', m2) := create_all r m1 in
            (x' :: r', m2)
        end in
      let (ks', next') := create_all ks (S next) in
      (Elem next t e c ks', next')
  end.

Fixpoint create_all (l : list html) (m : nat) : list node * nat :=
  match l with
  | [] => ([], m)
  | x :: r =>
      let (x', m1) := create x m in
      let (r', m2) := create_all r m1 in
      (x' :: r', m2)
  end.

(** A node reference, valid inside one synchronous block: the child
    indices leading from the root to the node. *)
Definition path := list nat.

Fixpoint get_at (p : path) (n : node) : option node :=
  match p with
  | [] => Some n
  | k :: p' =>
      match n with
      | Text _ => None
      | Elem _ _ _ _ ks =>
          match nth_error ks k with
          | Some c => get_at p' c
          | None => None
          end
      end
  end.

Fixpoint update_nth {A} (k : nat) (f : A -> A) (l : list A) : list A :=
  match l, k with
  | [], _ => []
  | x :: r, O => f x :: r
  | x :: r, S k' => x :: update_nth k' f r
  end.

Fixpoint update_at (p : path) (f : node -> node) (n : node) : node :=
  match p with
  | [] => f n
  | k :: p' =>
      match n with
      | Text _ => n
      | Elem i t e c ks => Elem i t e c (update_nth k (update_at p' f) ks)
      end
  end.

Definition set_kids (ks : list node) (n : node) : node :=
  match n with
  | Text _ => n
  | Elem i t e c _ => Elem i t e c ks
  end.

Definition set_cls (c : list string) (n : node) : node :=
  match n with
  | Text _ => n
  | Elem i t e _ ks => Elem i t e c ks
  end.

Definition kids_of (n : node) : list node :=
  match n with
  | Text _ => []
  | Elem _ _ _ _ ks => ks
  end.

Definition nid_of (n : node) : option nat :=
  match n with
  | Text _ => None
  | Elem i _ _ _ _ => Some i
  end.

(** [el.textContent] read: the concatenated text of the descendants. *)
Fixpoint text_content (n : node) : string :=
  match n with
  | Text s => s
  | Elem _ _ _ _ ks => String.concat "" (map text_content ks)
  end.

Definition has_classes (want have : list string) : bool :=
  forallb (fun c => existsb (String.eqb c) have) want.

(** First element in document order, [n] included, whose [id] is [i]. *)
Fixpoint find_id (i : string) (n : node) : option path :=
  match n with
  | Text _ => None
  | Elem _ _ e _ ks =>
      if e =? i then Some []
      else
        (fix scan (l : list node) (k : nat) : option path :=
           match l with
           | [] => None
           | x :: r =>
               match find_id i x with
               | Some p => Some (k :: p)
               | None => scan r (S k)
               end
           end) ks 0
  end.

(** [el.querySelector('.c1.c2')]: first proper descendant of [n] in
    document order that carries all the classes [want]. *)
Fixpoint query (want : list string) (n : node) : option path :=
  match n with
  | Text _ => None
  | Elem _ _ _ _ ks =>
      (fix scan (l : list node) (k : nat) : option path :=
         match l with
         | [] => None
         | x :: r =>
             match x with
             | Text _ => scan r (S k)
             | Elem _ _ _ c _ =>
                 if has_classes want c then Some [k]
                 else match query want x with
                      | Some p => Some (k :: p)
                      | None => scan r (S k)
                      end
             end
         end) ks 0
  end.

(** [document.querySelector('#i .c')]: first element in document order
    carrying the classes [want] below an element whose [id] is [i];
    [inside] tells whether such an ancestor has been passed. *)
Fixpoint query_below (i : string) (want : list string) (inside : bool)
         (n : node) : option path :=
  match n with
  | Text _ => None
  | Elem _ _ e _ ks =>
      let inside' := inside || (e =? i) in
      (fix scan (l : list node) (k : nat) : option path :=
         match l with
         | [] => None
         | x :: r =>
             match x with
             | Text _ => scan r (S k)
             | Elem _ _ _ c _ =>
                 if inside' && has_classes want c then Some [k]
                 else match query_below i want inside' x with
                      | Some p => Some (k :: p)
                      | None => scan r (S k)
                      end
             end
         end) ks 0
  end.

(** [p] lies strictly below [q]. *)
Fixpoint below (q p : path) : bool :=
  match q, p with
  | [], _ :: _ => true
  | a :: q', b :: p' => (a =? b)%nat && below q' p'
  | _, _ => false
  end.

(** The identities of the element children of a node, in order. *)
Definition child_nids (n : node) : list nat :=
  flat_map (fun c => match nid_of c with Some i => [i] | None => [] end)
           (kids_of n).

End Dom.

(** ** The program state and the browser resources it owns *)

Module App.
Import JS Dom.

(** The [state] object (lines 5-14). *)
Record state : Type := mkState {
  token : value;
  currentView : string;
  currentTab : string;
  servers : value;
  currentServer : value;
  currentFilePath : string;
  pollInterval : option nat;
  serverData : value
}.

(** The callbacks handed to [setInterval] by [render]. *)
Inductive task : Type :=
| TickDashboard      (* loadDashboardData *)
| TickServer.        (* () => loadServerData(false) *)

(** A console WebSocket: [live] from [new WebSocket] until [close()]; a
    connection dropped by the server is not modelled. *)
Record socket : Type := mkSocket {
  sock_id : nat;
  sock_url : string;
  live : bool
}.

(** An [async] function suspended at its [await]. *)
Inductive call : Type :=
| AwaitServerData (fullRender : bool)
| AwaitDashboard
| AwaitStart
| AwaitStop
| AwaitRestart
| AwaitDelete
| AwaitLogin
| AwaitTabData.      (* the loaders of the files, worlds, plugins, settings tabs *)

(** Externally visible effects, logged in the order they happen. *)
Inductive effect : Type :=
| SetInterval (handle : nat) (t : task) (ms : nat)
| ClearInterval (handle : nat)
| SocketOpen (sid : nat) (url : string)
| SocketClose (sid : nat)
| StorageRemove (key : string)
| StorageSet (key val : string)
| Fetch (url method : string) (headers : list (string * string))
| Rendered (view : string)
| Alert (msg : string)
| ConsoleError (msg : string).

Record world : Type := mkWorld {
  st : state;
  ws : option nat;                 (* [let ws = null] (line 298) *)
  stored_token : option string;    (* localStorage entry 'token' *)
  body : list node;                (* children of the #app element *)
  fresh : nat;                     (* next unused node identity *)
  timers : list (nat * task);      (* live interval timers *)
  next_timer : nat;
  sockets : list socket;
  next_socket : nat;
  pending : list call;
  log : list effect
}.

(** What a [throw] or a rejected promise carries: an [Error] object with its
    message, or a bare string ([Promise.reject('Upload failed')]). *)
Inductive exn : Type :=
| Error (message : string)
| Raw (s : string).

(** [e.message] *)
Definition message_of (e : exn) : value :=
  match e with
  | Error m => Str m
  | Raw _ => Undefined
  end.

Inductive outcome (A : Type) : Type :=
| Ok (a : A)
| Throw (e : exn).
Arguments Ok {A} a.
Arguments Throw {A} e.

(** A synchronous run of JavaScript: it transforms the world and either
    completes or throws. *)
Definition js (A : Type) : Type := world -> world * outcome A.

Definition ret {A} (a : A) : js A := fun w => (w, Ok a).
Definition throw {A} (e : exn) : js A := fun w => (w, Throw e).

Definition bind {A B} (m : js A) (k : A -> js B) : js B :=
  fun w => match m w with
           | (w', Ok a) => k a w'
           | (w', Throw e) => (w', Throw e)
           end.

(** [try { m } catch (e) { h e }] *)
Definition try_catch {A} (m : js A) (h : exn -> js A) : js A :=
  fun w => match m w with
           | (w', Ok a) => (w', Ok a)
           | (w', Throw e) => h e w'
           end.

(** Calling an [async] function: an exception inside rejects the returned
    promise, which no caller of the program handles. *)
Definition detached (m : js unit) : js unit :=
  try_catch m (fun _ => ret tt).

Declare Scope js_scope.
Delimit Scope js_scope with js.
Notation "x <- m ;; k" := (bind m (fun x => k))
  (at level 61, m at next level, right associativity) : js_scope.
Notation "m ;;; k" := (bind m (fun _ => k))
  (at level 61, right associativity) : js_scope.
Local Open Scope js_scope.

Definition run {A} (m : js A) (w : world) : world := fst (m w).
Definition result {A} (m : js A) (w : world) : outcome A := snd (m w).

Definition get_state : js state := fun w => (w, Ok (st w)).

Definition set_st (s : state) (w : world) : world :=
  mkWorld s (ws w) (stored_token w) (body w) (fresh w) (timers w)
          (next_timer w) (sockets w) (next_socket w) (pending w) (log w).
Definition set_ws (x : option nat) (w : world) : world :=
  mkWorld (st w) x (stored_token w) (body w) (fresh w) (timers w)
          (next_timer w) (sockets w) (next_socket w) (pending w) (log w).
Definition set_stored (x : option string) (w : world) : world :=
  mkWorld (st w) (ws w) x (body w) (fresh w) (timers w)
          (next_timer w) (sockets w) (next_socket w) (pending w) (log w).
Definition set_dom (b : list node) (f : nat) (w : world) : world :=
  mkWorld (st w) (ws w) (stored_token w) b f (timers w)
          (next_timer w) (sockets w) (next_socket w) (pending w) (log w).
Definition set_timers (t : list (nat * task)) (n : nat) (w : world) : world :=
  mkWorld (st w) (ws w) (stored_token w) (body w) (fresh w) t
          n (sockets w) (next_socket w) (pending w) (log w).
Definition set_sockets (s : list socket) (n : nat) (w : world) : world :=
  mkWorld (st w) (ws w) (stored_token w) (body w) (fresh w) (timers w)
          (next_timer w) s n (pending w) (log w).
Definition set_pending (p : list call) (w : world) : world :=
  mkWorld (st w) (ws w) (stored_token w) (body w) (fresh w) (timers w)
          (next_timer w) (sockets w) (next_socket w) p (log w).
Definition emit (e : effect) (w : world) : world :=
  mkWorld (st w) (ws w) (stored_token w) (body w) (fresh w) (timers w)
          (next_timer w) (sockets w) (next_socket w) (pending w) (log w ++ [e]).

Definition act (f : world -> world) : js unit := fun w => (f w, Ok tt).

(** Field writes [state.x = v]. *)
Definition set_token (v : value) : js unit :=
  act (fun w => let s := st w in
     set_st (mkState v (currentView s) (currentTab s) (servers s)
               (currentServer s) (currentFilePath s) (pollInterval s)
               (serverData s)) w).
Definition set_currentView (v : string) : js unit :=
  act (fun w => let s := st w in
     set_st (mkState (token s) v (currentTab s) (servers s)
               (currentServer s) (currentFilePath s) (pollInterval s)
               (serverData s)) w).
Definition set_currentTab (v : string) : js unit :=
  act (fun w => let s := st w in
     set_st (mkState (token s) (currentView s) v (servers s)
               (currentServer s) (currentFilePath s) (pollInterval s)
               (serverData s)) w).
Definition set_currentServer (v : value) : js unit :=
  act (fun w => let s := st w in
     set_st (mkState (token s) (currentView s) (currentTab s) (servers s)
               v (currentFilePath s) (pollInterval s) (serverData s)) w).
Definition set_pollInterval (v : option nat) : js unit :=
  act (fun w => let s := st w in
     set_st (mkState (token s) (currentView s) (currentTab s) (servers s)
               (currentServer s) (currentFilePath s) v (serverData s)) w).
Definition set_serverData (v : value) : js unit :=
  act (fun w => let s := st w in
     set_st (mkState (token s) (currentView s) (currentTab s) (servers s)
               (currentServer s) (currentFilePath s) (pollInterval s) v) w).

(** *** Browser primitives *)

(** [setInterval(task, ms)]: a handle not used before. *)
Definition setInterval (t : task) (ms : nat) : js nat :=
  fun w => let h := next_timer w in
           (emit (SetInterval h t ms)
              (set_timers (timers w ++ [(h, t)]) (S h) w), Ok h).

(** [clearInterval(h)] *)
Definition clearInterval (h : nat) : js unit :=
  act (fun w => emit (ClearInterval h)
     (set_timers (filter (fun x => negb (fst x =? h)%nat) (timers w))
        (next_timer w) w)).

Definition storage_remove_token : js unit :=
  act (fun w => emit (StorageRemove "token") (set_stored None w)).

(** [localStorage.setItem('token', v)] stores the string conversion. *)
Definition storage_set_token (v : value) : js unit :=
  act (fun w => emit (StorageSet "token" (to_string v))
                  (set_stored (Some (to_string v)) w)).

Definition app_id : nat := 0.
Definition root (w : world) : node := Elem app_id "div" "app" [] (body w).

Definition getElementById (i : string) : js (option path) :=
  fun w => (w, Ok (find_id i (root w))).

Definition type_error {A} (what : string) : js A :=
  throw (Error ("TypeError: " ++ what)).

(** A write through a reference that may be [null]. *)
Definition deref (r : option path) : js path :=
  match r with
  | Some p => ret p
  | None => type_error "Cannot set properties of null"
  end.

Definition put_root (n : node) (f : nat) (w : world) : world :=
  set_dom (kids_of n) f w.

(** [el.innerHTML = frag]: the children of [el] are replaced by freshly
    created nodes. *)
Definition set_innerHTML (p : path) (frag : list html) : js unit :=
  act (fun w => let made := create_all frag (fresh w) in
                put_root (update_at p (set_kids (fst made)) (root w))
                         (snd made) w).

(** [el.textContent = v] *)
Definition set_textContent (p : path) (v : value) : js unit :=
  act (fun w =>
     let ks := if text_of v =? "" then [] else [Text (text_of v)] in
     put_root (update_at p (set_kids ks) (root w)) (fresh w) w).

(** [el.className = 'c1 c2'], the class string given by its tokens. *)
Definition set_className (p : path) (c : list string) : js unit :=
  act (fun w => put_root (update_at p (set_cls c) (root w)) (fresh w) w).

Definition alert (v : value) : js unit :=
  act (emit (Alert (to_string v))).

Definition console_error (e : exn) : js unit :=
  act (emit (ConsoleError (match e with Error m => m | Raw s => s end))).

Definition suspend (c : call) : js unit :=
  act (fun w => set_pending (pending w ++ [c]) w).

(** *** Sockets *)

(** [new WebSocket(url)] *)
Definition new_WebSocket (url : string) : js nat :=
  fun w => let s := next_socket w in
           (emit (SocketOpen s url)
              (set_sockets (sockets w ++ [mkSocket s url true]) (S s) w), Ok s).

Definition closed (s : nat) (k : socket) : socket :=
  if (sock_id k =? s)%nat then mkSocket (sock_id k) (sock_url k) false else k.

(** [sock.close()] *)
Definition socket_close (s : nat) : js unit :=
  act (fun w => emit (SocketClose s)
     (set_sockets (map (closed s) (sockets w)) (next_socket w) w)).

Definition live_sockets (w : world) : list socket :=
  filter live (sockets w).

(** ** The API client (lines 17-75) *)

Definition API_BASE : string := "/api".

(** What [fetch] resolves to.  [text] and [json] are the results of
    [response.text()] and [response.json()], [None] when they reject. *)
Record response : Type := mkResponse {
  status : Z;
  statusText : string;
  text : option string;
  json : option value
}.

(** [response.ok] *)
Definition ok (r : response) : bool :=
  ((200 <=? status r) && (status r <=? 299))%Z.

(** The outcome of a [fetch]: it rejects when the server is not reached. *)
Inductive net : Type :=
| Unreachable (msg : string)
| Responds (r : response).

(** Lines 19-20.  No caller passes [options.headers]. *)
Definition request_headers (tok : value) : list (string * string) :=
  let headers := [("Content-Type", "application/json")] in
  if truthy tok
  then headers ++ [("Authorization", "Bearer " ++ to_string tok)]
  else headers.

(** Line 58. *)
Definition upload_headers (tok : value) : list (string * string) :=
  [("Authorization", "Bearer " ++ to_string tok)].

(** [api.request], up to its [await fetch(...)] (lines 19-22). *)
Definition request (endpoint method : string) : js unit :=
  s <- get_state ;;
  act (emit (Fetch (API_BASE ++ endpoint) method (request_headers (token s)))).

(** [api.uploadWorld], up to the [fetch] (lines 55-58). *)
Definition uploadWorld (id : value) : js unit :=
  s <- get_state ;;
  act (emit (Fetch (API_BASE ++ "/servers/" ++ to_string id ++ "/worlds/upload")
               "POST" (upload_headers (token s)))).

(** The [.then] of [api.uploadWorld] (lines 59-62). *)
Definition uploadWorld_k (n : net) : js value :=
  match n with
  | Unreachable msg => throw (Error msg)
  | Responds r =>
      if negb (ok r) then throw (Raw "Upload failed")
      else if ((status r =? 204) || (status r =? 201))%Z then ret Null
      else ret (match json r with Some v => v | None => Null end)
  end.

(** A computation that reads its arguments only: [None] stands for the
    TypeError of a property read on [null] or [undefined], or of a call of
    something that is not a function. *)
Definition lift {A} (o : option A) : js A :=
  match o with
  | Some a => ret a
  | None => type_error "cannot read properties"
  end.

(** [v.k], throwing on [null] and [undefined]. *)
Definition read (v : value) (k : string) : js value := lift (prop v k).

(** ** Templates *)

Definition el (tag : string) (cls : list string) (kids : list html) : html :=
  HElem tag "" cls kids.
Definition el_id (tag eid : string) (cls : list string) (kids : list html)
  : html := HElem tag eid cls kids.

Definition nav_item (active : bool) (label : string) : html :=
  el "div" (if active then ["nav-item"; "active"] else ["nav-item"])
     [HText label].

(** [renderSidebar] (lines 121-148) *)
Definition renderSidebar (s : state) : html :=
  let isServer := currentView s =? "server" in
  el "aside" ["sidebar"]
    ([el "div" [] [HText "MINESERV"];
      el "div" ["nav-section"]
        [el "div" ["nav-label"] [HText "Main"];
         nav_item (currentView s =? "dashboard") "Dashboard"]]
     ++ (if isServer then
           [el "div" ["nav-section"]
              [el "div" ["nav-label"] [HText "Server"];
               nav_item (currentTab s =? "console") "Console";
               nav_item (currentTab s =? "files") "Files";
               nav_item (currentTab s =? "plugins") "Plugins";
               nav_item (currentTab s =? "worlds") "Worlds";
               nav_item (currentTab s =? "settings") "Settings"]]
         else [])
     ++ [el "div" [] [nav_item false "Logout"]]).

Definition stat_card (label eid dash : string) : html :=
  el "div" ["card"; "flex-column"]
    [el "div" ["text-muted"] [HText label];
     el_id "div" eid [] [HText dash]].

(** [renderDashboard] (lines 150-176) *)
Definition renderDashboard : list html :=
  [el "div" ["flex"; "justify-between"; "items-center"; "mb-2"]
     [el "h1" [] [HText "Dashboard"];
      el "button" ["btn"; "btn-primary"; "btn-sm"] [HText "+ Create Server"]];
   el "div" ["flex"; "gap-2"; "mb-2"]
     [stat_card "Servers" "stat-total" "-";
      stat_card "Running" "stat-running" "-";
      stat_card "System CPU" "stat-cpu" "-%"];
   el_id "div" "servers-list" ["flex"; "flex-column"; "gap-1"]
     [el "div" ["text-muted"] [HText "Loading instances..."]]].

(** [renderServerView] (lines 178-183) *)
Definition renderServerView : list html :=
  [el_id "div" "server-header" [] [];
   el_id "div" "tab-content" [] []].

(** [renderLogin] (lines 689-702) *)
Definition renderLogin : list html :=
  [el "div" []
     [el "div" ["card"]
        [el "h1" ["text-center"] [HText "MINESERV"];
         el_id "form" "login-form" []
           [el_id "input" "password" ["input"; "mb-1"] [];
            el_id "div" "login-error" [] [HText "Login failed."];
            el "button" ["btn"; "btn-primary"] [HText "LOGIN"]]]]].

(** The authenticated layout (lines 102-110). *)
Definition layout (s : state) : list html :=
  [el "div" ["layout-wrapper"]
     [renderSidebar s;
      el "main" ["main-content"]
        (if currentView s =? "dashboard" then renderDashboard
         else renderServerView)];
   el_id "div" "modal-container" [] []].

(** [renderConsole] (lines 287-296) *)
Definition renderConsole : list html :=
  [el "div" ["console-wrapper"]
     [el_id "div" "console-out" ["console"] [];
      el "form" ["console-input-area"]
        [el_id "input" "console-in" ["input"] []]]].

(** [renderFiles] (lines 323-333) *)
Definition renderFiles : list html :=
  [el "div" ["card"]
     [el "div" ["flex"; "justify-between"; "mb-1"]
        [el_id "div" "dir-path" ["text-muted"] [HText "/"];
         el "button" ["btn"; "btn-secondary"; "btn-sm"] [HText "Up"]];
      el_id "div" "file-list" [] []]].

(** [renderWorlds] (lines 392-400) *)
Definition renderWorlds : list html :=
  [el "div" ["flex"; "justify-between"; "items-center"; "mb-1"]
     [el "h2" [] [HText "Worlds"];
      el "button" ["btn"; "btn-primary"; "btn-sm"] [HText "Upload ZIP World"]];
   el_id "div" "worlds-list" [] []].

(** [renderPlugins] (lines 497-511) *)
Definition renderPlugins : list html :=
  [el "div" ["card"]
     [el "h2" ["mb-1"] [HText "Plugins"];
      el "div" ["flex"; "gap-1"; "mb-2"]
        [el_id "input" "plugin-search" ["input"] [];
         el "button" ["btn"; "btn-primary"; "btn-sm"] [HText "Search"]];
      el_id "div" "installed-plugins-list"
        ["flex"; "flex-column"; "gap-1"; "mb-2"]
        [el "div" ["text-muted"] [HText "Loading installed plugins..."]];
      el_id "div" "search-results-list" ["flex"; "flex-column"; "gap-1"] []]].

(** [renderSettings] (lines 549-561) *)
Definition renderSettings : list html :=
  [el "div" ["card"]
     [el "h2" ["mb-1"] [HText "Server Settings"];
      el_id "div" "settings-area" []
        [el "div" ["text-muted"] [HText "Loading server.properties..."]];
      el "div" ["flex"; "justify-end"; "mt-2"]
        [el "button" ["btn"; "btn-primary"] [HText "Save Configuration"]]]].

(** The separator of the info line, as it stands in the source. *)
Definition sep : string := " ‚Ä¢ ".

Notation "x <~ m ;; k" :=
  (match m with Some x => k | None => None end)
  (at level 61, m at next level, right associativity, only parsing).

(** [`badge ${server.state === 'running' ? 'badge-success' : 'badge-error'}`] *)
Definition badge_classes (server : value) : option (list string) :=
  state <~ prop server "state" ;;
  Some ["badge";
        if is_str state "running" then "badge-success" else "badge-error"].

(** [`${server.server_type} . ${server.minecraft_version} . Port ${server.port}`] *)
Definition info_line (server : value) : option string :=
  ty <~ prop server "server_type" ;;
  ver <~ prop server "minecraft_version" ;;
  port <~ prop server "port" ;;
  Some (to_string ty ++ sep ++ to_string ver ++ sep
        ++ "Port " ++ to_string port).

(** The buttons of the header (lines 204-211 and 221-226). *)
Definition header_buttons (server : value) : option (list html) :=
  state <~ prop server "state" ;;
  Some [if is_str state "running"
        then el "button" ["btn"; "btn-danger"; "btn-sm"] [HText "Stop"]
        else el "button" ["btn"; "btn-success"; "btn-sm"] [HText "Start"];
        el "button" ["btn"; "btn-secondary"; "btn-sm"] [HText "Restart"];
        el "button" ["btn"; "btn-danger"; "btn-sm"] [HText "Delete Server"]].

(** The header markup of the first render (lines 214-229): the name, the
    state and the info line are interpolated into the markup. *)
Definition header_markup (server : value) : option (list html) :=
  name <~ prop server "name" ;;
  cls <~ badge_classes server ;;
  state <~ prop server "state" ;;
  info <~ info_line server ;;
  buttons <~ header_buttons server ;;
  Some [el "div" ["flex"; "justify-between"; "items-center"; "mb-2"]
          [el "div" []
             [el "h1" []
                (parse_html (to_string name ++ " ")
                 ++ [el "span" cls (parse_html (to_string state))]);
              el "div" ["text-muted"] (parse_html info)];
           el "div" ["flex"; "gap-1"] buttons]].

(** One row of the dashboard list (lines 599-605).  The [id] stands in the
    [onclick] attribute of the row: a double quote in it ends the attribute
    early, and what the rest of the [id] then adds to the tag is not
    modelled. *)
Definition server_row (s : value) : option html :=
  _id <~ prop s "id" ;;
  name <~ prop s "name" ;;
  info <~ info_line s ;;
  cls <~ badge_classes s ;;
  state <~ prop s "state" ;;
  Some (el "div" ["card"; "flex"; "justify-between"; "items-center"]
          [el "div" []
             [el "div" [] (parse_html (to_string name));
              el "div" ["text-muted"] (parse_html info)];
           el "span" cls (parse_html (to_string state))]).

Fixpoint map_opt {A B} (f : A -> option B) (l : list A) : option (list B) :=
  match l with
  | [] => Some []
  | x :: r => y <~ f x ;; ys <~ map_opt f r ;; Some (y :: ys)
  end.

(** [servers.map(row).join('') || '<div ...>No servers found.</div>'] *)
Definition server_rows (servers : value) : option (list html) :=
  match servers with
  | Arr [] => Some [el "div" ["card"; "text-muted"] [HText "No servers found."]]
  | Arr items => map_opt server_row items
  | _ => None
  end.

(** ** Rendering and data loading *)

(** [loadDashboardData], up to [await Promise.all(...)] (line 590). *)
Definition loadDashboardData : js unit :=
  request "/servers" "GET" ;;;
  request "/stats" "GET" ;;;
  suspend AwaitDashboard.

(** [loadServerData(fullRender)], up to [await api.getServer(...)]
    (lines 186-188). *)
Definition loadServerData (fullRender : bool) : js unit :=
  s <- get_state ;;
  if negb (truthy (currentServer s)) then ret tt
  else
    request ("/servers/" ++ to_string (currentServer s)) "GET" ;;;
    suspend (AwaitServerData fullRender).

(** [render] (lines 94-119).  [attachLoginHandlers] installs the submit
    handler of the login form, which is the event [SubmitLogin] below. *)
Definition render : js unit :=
  s <- get_state ;;
  if negb (truthy (token s)) then
    set_innerHTML [] renderLogin ;;;
    act (emit (Rendered "login"))
  else
    set_innerHTML [] (layout s) ;;;
    act (emit (Rendered (if currentView s =? "dashboard"
                         then "dashboard" else "server"))) ;;;
    if currentView s =? "dashboard" then
      detached loadDashboardData ;;;
      h <- setInterval TickDashboard 3000 ;;
      set_pollInterval (Some h)
    else if truthy (currentServer s) then
      detached (loadServerData true) ;;;
      h <- setInterval TickServer 2000 ;;
      set_pollInterval (Some h)
    else ret tt.

(** [api.request] after its [await fetch(...)] (lines 24-34).  The body is
    read in the same turn: [await response.text()] (line 30) is not a
    separate suspension. *)
Definition request_k (n : net) : js value :=
  match n with
  | Unreachable msg => throw (Error msg)
  | Responds r =>
      if negb (ok r) then
        (if (status r =? 401)%Z then
           set_token Null ;;;
           storage_remove_token ;;;
           render
         else ret tt) ;;;
        let errorText := match text r with
                         | Some t => t
                         | None => statusText r
                         end in
        throw (Error (if errorText =? "" then statusText r else errorText))
      else if (status r =? 204)%Z then ret Null
      else ret (match json r with Some v => v | None => Null end)
  end.

(** [navigateTo] (lines 78-86); a missing [serverId] is [null].  Timer
    handles are positive, so [if (state.pollInterval)] tests for [null]. *)
Definition navigateTo (view : string) (serverId : value) : js unit :=
  let serverId := match serverId with Undefined => Null | v => v end in
  set_currentView view ;;;
  (if truthy serverId then set_currentServer serverId else ret tt) ;;;
  s <- get_state ;;
  match pollInterval s with
  | Some h => clearInterval h
  | None => ret tt
  end ;;;
  set_pollInterval None ;;;
  render.

(** [setTab] (lines 88-91) *)
Definition setTab (tab : string) : js unit :=
  set_currentTab tab ;;;
  render.

(** [logout] (line 723) *)
Definition logout : js unit :=
  storage_remove_token ;;;
  set_token Null ;;;
  s <- get_state ;;
  match pollInterval s with
  | Some h => clearInterval h
  | None => ret tt
  end ;;;
  render.

(** The address [setupConsole] connects to, without protocol and host. *)
Definition console_url (id : value) : string :=
  "/api/servers/" ++ to_string id ++ "/console".

(** [setupConsole] (lines 299-311).  The [onmessage] handler appends to
    [#console-out]; message delivery is not modelled. *)
Definition setupConsole (id : value) : js unit :=
  (fun w => match ws w with
            | Some s => socket_close s w
            | None => (w, Ok tt)
            end) ;;;
  s <- new_WebSocket (console_url id) ;;
  act (set_ws (Some s)) ;;;
  _out <- getElementById "console-out" ;;
  ret tt.

(** The loaders of the other tabs, up to their [await]: the elements they
    look up, the label they write and the requests they issue.  What they
    put into [#tab-content] afterwards is not modelled. *)
Definition loadFiles_root : js unit :=
  list <- getElementById "file-list" ;;
  dirLabel <- getElementById "dir-path" ;;
  match list, dirLabel with
  | Some _, Some d =>
      set_textContent d (Str "/") ;;;
      s <- get_state ;;
      request ("/servers/" ++ to_string (currentServer s) ++ "/files?path=")
              "GET" ;;;
      suspend AwaitTabData
  | _, _ => ret tt
  end.

Definition loadWorlds : js unit :=
  list <- getElementById "worlds-list" ;;
  match list with
  | Some _ =>
      s <- get_state ;;
      request ("/servers/" ++ to_string (currentServer s) ++ "/worlds") "GET" ;;;
      request ("/servers/" ++ to_string (currentServer s) ++ "/config") "GET" ;;;
      suspend AwaitTabData ;;;
      suspend AwaitTabData
  | None => ret tt
  end.

Definition loadPlugins : js unit :=
  list <- getElementById "installed-plugins-list" ;;
  match list with
  | Some _ =>
      s <- get_state ;;
      request ("/servers/" ++ to_string (currentServer s) ++ "/plugins") "GET" ;;;
      suspend AwaitTabData
  | None => ret tt
  end.

Definition loadSettings : js unit :=
  area <- getElementById "settings-area" ;;
  match area with
  | Some _ =>
      s <- get_state ;;
      request ("/servers/" ++ to_string (currentServer s) ++ "/config") "GET" ;;;
      suspend AwaitTabData
  | None => ret tt
  end.

(** The header update of [loadServerData] (lines 191-231).  The three
    elements are looked up first and written afterwards; a write through a
    reference whose node an earlier write has removed from the tree is not
    visible. *)
Definition update_header (server : value) : js unit :=
  header <- getElementById "server-header" ;;
  match header with
  | None => ret tt
  | Some ph =>
      fun w =>
        let h := match get_at ph (root w) with
                 | Some n => n
                 | None => Text ""
                 end in
        match query ["badge"] h, query ["flex"; "gap-1"] h,
              query ["text-muted"] h with
        | Some statusBadge, Some buttonGroup, Some infoText =>
            (cls <- lift (badge_classes server) ;;
             set_className (ph ++ statusBadge)%list cls ;;;
             state <- read server "state" ;;
             set_textContent (ph ++ statusBadge)%list state ;;;
             info <- lift (info_line server) ;;
             (if below statusBadge infoText then ret tt
              else set_textContent (ph ++ infoText)%list (Str info)) ;;;
             buttons <- lift (header_buttons server) ;;
             if below statusBadge buttonGroup || below infoText buttonGroup
             then ret tt
             else set_innerHTML (ph ++ buttonGroup)%list buttons) w
        | _, _, _ =>
            (markup <- lift (header_markup server) ;;
             set_innerHTML ph markup) w
        end
  end.

(** The tab body of a full render (lines 233-251). *)
Definition mount_tab (server : value) : js unit :=
  content <- getElementById "tab-content" ;;
  s <- get_state ;;
  if currentTab s =? "console" then
    c <- deref content ;;
    set_innerHTML c renderConsole ;;;
    id <- read server "id" ;;
    setupConsole id
  else if currentTab s =? "files" then
    c <- deref content ;;
    set_innerHTML c renderFiles ;;;
    detached loadFiles_root
  else if currentTab s =? "worlds" then
    c <- deref content ;;
    set_innerHTML c renderWorlds ;;;
    detached loadWorlds
  else if currentTab s =? "plugins" then
    c <- deref content ;;
    set_innerHTML c renderPlugins ;;;
    detached loadPlugins
  else if currentTab s =? "settings" then
    c <- deref content ;;
    set_innerHTML c renderSettings ;;;
    detached loadSettings
  else ret tt.

(** [loadServerData] after its [await] (lines 188-255). *)
Definition loadServerData_k (fullRender : bool) (n : net) : js unit :=
  detached
    (try_catch
       (server <- request_k n ;;
        set_serverData server ;;;
        update_header server ;;;
        if fullRender then mount_tab server else ret tt)
       (fun e =>
          console_error e ;;;
          if fullRender then
            content <- getElementById "tab-content" ;;
            c <- deref content ;;
            set_innerHTML c
              [el "div" ["card"]
                 (parse_html ("Error loading server: "
                              ++ to_string (message_of e)))]
          else ret tt)).

(** Running [m] to its end and handing back how it ended. *)
Definition settle {A} (m : js A) : js (outcome A) :=
  fun w => let (w', o) := m w in (w', Ok o).

(** [loadDashboardData] after [await Promise.all(...)] (lines 590-607).
    Both requests run to their end, in the order given; the first rejection
    is the one thrown. *)
Definition loadDashboardData_k (n_servers n_stats : net) : js unit :=
  detached
    (try_catch
       (o1 <- settle (request_k n_servers) ;;
        o2 <- settle (request_k n_stats) ;;
        match o1, o2 with
        | Throw e, _ => throw e
        | _, Throw e => throw e
        | Ok servers, Ok stats =>
            statTotal <- getElementById "stat-total" ;;
            match statTotal with
            | None => ret tt
            | Some p =>
                total <- read stats "total_servers" ;;
                set_textContent p total ;;;
                p_running <- getElementById "stat-running" ;;
                running <- read stats "running_servers" ;;
                p_running <- deref p_running ;;
                set_textContent p_running running ;;;
                p_cpu <- getElementById "stat-cpu" ;;
                cpu <- read stats "total_cpu_percent" ;;
                cpu <- lift (toFixed1 cpu) ;;
                p_cpu <- deref p_cpu ;;
                set_textContent p_cpu (Str (cpu ++ "%")) ;;;
                p_list <- getElementById "servers-list" ;;
                rows <- lift (server_rows servers) ;;
                p_list <- deref p_list ;;
                set_innerHTML p_list rows
            end
        end)
       (fun _ => ret tt)).

(** ** Handlers (lines 259-284) *)

Definition server_action (what : string) (c : call) : js unit :=
  s <- get_state ;;
  request ("/servers/" ++ to_string (currentServer s) ++ what) "POST" ;;;
  suspend c.

Definition handleStart : js unit := server_action "/start" AwaitStart.
Definition handleStop : js unit := server_action "/stop" AwaitStop.
Definition handleRestart : js unit := server_action "/restart" AwaitRestart.

(** The optimistic badge of [handleStart] and [handleStop]. *)
Definition optimistic_badge (label : string) (cls : list string) : js unit :=
  badge <- (fun w => (w, Ok (query_below "server-header" ["badge"] false
                               (root w)))) ;;
  match badge with
  | Some b =>
      set_textContent b (Str label) ;;;
      set_className b cls
  | None => ret tt
  end.

Definition handleStart_k (n : net) : js unit :=
  try_catch
    (_r <- request_k n ;;
     optimistic_badge "starting" ["badge"; "badge-success"] ;;;
     detached (loadServerData false))
    (fun e => alert (message_of e)).

Definition handleStop_k (n : net) : js unit :=
  try_catch
    (_r <- request_k n ;;
     optimistic_badge "stopping" ["badge"; "badge-error"] ;;;
     detached (loadServerData false))
    (fun e => alert (message_of e)).

Definition handleRestart_k (n : net) : js unit :=
  try_catch
    (_r <- request_k n ;;
     detached (loadServerData false))
    (fun e => alert (message_of e)).

(** [handleDeleteServer]; [confirmed] is the answer to [confirm(...)]. *)
Definition handleDeleteServer (confirmed : bool) : js unit :=
  if confirmed then
    s <- get_state ;;
    request ("/servers/" ++ to_string (currentServer s)) "DELETE" ;;;
    suspend AwaitDelete
  else ret tt.

Definition handleDeleteServer_k (n : net) : js unit :=
  try_catch
    (_r <- request_k n ;;
     navigateTo "dashboard" Undefined)
    (fun e => alert (message_of e)).

(** The submit handler of the login form (lines 706-720). *)
Definition submitLogin : js unit :=
  f <- getElementById "login-form" ;;
  match f with
  | Some _ => request "/auth/login" "POST" ;;; suspend AwaitLogin
  | None => ret tt
  end.

Definition includes (needle hay : string) : bool :=
  match String.index 0 needle hay with
  | Some _ => true
  | None => false
  end.

Definition submitLogin_k (n : net) : js unit :=
  try_catch
    (res <- request_k n ;;
     tok <- read res "token" ;;
     set_token tok ;;;
     storage_set_token tok ;;;
     render)
    (fun e =>
       err <- getElementById "login-error" ;;
       match err, e with
       | Some p, Error m =>
           set_textContent p
             (Str (if includes "fetch" m then "API Connection Failed"
                   else "Invalid Password"))
       | Some _, Raw _ => type_error "cannot read properties"
       | None, _ => ret tt
       end).

(** ** The event loop *)

(** What the environment can do between two synchronous runs: call one of
    the global entry points, fire a live timer, or deliver the response to a
    suspended call ([n'] is the second response of [Promise.all], used by
    [AwaitDashboard] only). *)
Inductive event : Type :=
| NavigateTo (view : string) (serverId : value)
| SetTab (tab : string)
| Logout
| HandleStart
| HandleStop
| HandleRestart
| HandleDeleteServer (confirmed : bool)
| SubmitLogin
| TimerFires (handle : nat)
| Delivered (k : nat) (n n' : net).

Fixpoint take_nth {A} (k : nat) (l : list A) : option (A * list A) :=
  match l, k with
  | [], _ => None
  | x :: r, O => Some (x, r)
  | x :: r, S k' =>
      match take_nth k' r with
      | Some (y, r') => Some (y, x :: r')
      | None => None
      end
  end.

Definition resume (c : call) (n n' : net) : js unit :=
  match c with
  | AwaitServerData fullRender => loadServerData_k fullRender n
  | AwaitDashboard => loadDashboardData_k n n'
  | AwaitStart => handleStart_k n
  | AwaitStop => handleStop_k n
  | AwaitRestart => handleRestart_k n
  | AwaitDelete => handleDeleteServer_k n
  | AwaitLogin => submitLogin_k n
  | AwaitTabData => _r <- request_k n ;; ret tt
  end.

Definition run_task (t : task) : js unit :=
  match t with
  | TickDashboard => loadDashboardData
  | TickServer => loadServerData false
  end.

Definition handle (e : event) : js unit :=
  match e with
  | NavigateTo view serverId => navigateTo view serverId
  | SetTab tab => setTab tab
  | Logout => logout
  | HandleStart => handleStart
  | HandleStop => handleStop
  | HandleRestart => handleRestart
  | HandleDeleteServer confirmed => handleDeleteServer confirmed
  | SubmitLogin => submitLogin
  | TimerFires h =>
      fun w =>
        match find (fun x => (fst x =? h)%nat) (timers w) with
        | Some (_, t) => run_task t w
        | None => (w, Ok tt)
        end
  | Delivered k n n' =>
      fun w =>
        match take_nth k (pending w) with
        | Some (c, rest) => resume c n n' (set_pending rest w)
        | None => (w, Ok tt)
        end
  end.

(** One turn of the event loop; an exception that reaches the top is
    reported and dropped. *)
Definition step (w : world) (e : event) : world :=
  run (detached (handle e)) w.

Definition steps (w : world) (es : list event) : world :=
  fold_left step es w.

(** Page load (lines 5-14, 298, 727): the state is built from the stored
    credential and [render()] runs once. *)
Definition boot (stored : option string) : world :=
  let tok := match stored with
             | Some t => if t =? "" then Null else Str t
             | None => Null
             end in
  run render
    (mkWorld
       (mkState tok "dashboard" "console" (Arr []) Null "" None Null)
       None stored [] 1 [] 1 [] 1 [] []).

(** What is on screen: the tree below [#app] without node identities. *)
Definition visible (w : world) : list html := map erase (body w).

(** The number of live interval timers. *)
Definition live_timers (w : world) : nat := List.length (timers w).

(** ** Dialogs, the file browser and the remaining handlers

    The functions below are [async] as well; their continuations are given
    as separate definitions and are not entered in [pending].  Form state
    (the [value] of an input, the [disabled] flag, [style]) is not part of
    the tree: a handler takes what it reads from the form as an argument,
    and a write of such a property is modelled by the dereference it does. *)

(** References kept across an [await] are node identities: the path of the
    node is looked up again when the function resumes. *)
Fixpoint find_nid (i : nat) (n : node) : option path :=
  match n with
  | Text _ => None
  | Elem j _ _ _ ks =>
      if (j =? i)%nat then Some []
      else
        (fix scan (l : list node) (k : nat) : option path :=
           match l with
           | [] => None
           | x :: r =>
               match find_nid i x with
               | Some p => Some (k :: p)
               | None => scan r (S k)
               end
           end) ks 0
  end.

(** The identity of the element a lookup has found. *)
Definition identity (p : path) : js (option nat) :=
  fun w => (w, Ok match get_at p (root w) with
                  | Some n => nid_of n
                  | None => None
                  end).

(** A write through a reference kept across an [await]; on a node that has
    left the tree it shows nothing. *)
Definition via (r : option nat) (write : path -> js unit) : js unit :=
  fun w => match r with
           | Some i =>
               match find_nid i (root w) with
               | Some p => write p w
               | None => (w, Ok tt)
               end
           | None => (w, Ok tt)
           end.

(** [closeModal] (line 724) *)
Definition closeModal : js unit :=
  modal <- getElementById "modal-container" ;;
  m <- deref modal ;;
  set_innerHTML m [].

(** The markup of [showUploadWorldModal] (lines 442-463). *)
Definition upload_dialog : list html :=
  [el "div" ["modal-overlay"]
     [el "div" ["modal"]
        [el "h2" ["mb-1"] [HText "Upload World"];
         el "form" []
           [el "div" ["mb-1"]
              [el "label" ["text-muted"] [HText "WORLD NAME"];
               el_id "input" "upload-world-name" ["input"] []];
            el "div" ["mb-1"]
              [el "label" ["text-muted"] [HText "ZIP FILE"];
               el_id "input" "upload-world-file" ["input"] []];
            el_id "div" "upload-progress" ["text-muted"; "mb-1"]
              [HText "Uploading..."];
            el "div" ["flex"; "justify-end"; "gap-1"]
              [el "button" ["btn"; "btn-secondary"; "btn-sm"] [HText "Cancel"];
               el_id "button" "upload-world-btn"
                 ["btn"; "btn-primary"; "btn-sm"]
                 [HText "Upload & Create"]]]]]].

(** [showUploadWorldModal] (lines 440-464) *)
Definition showUploadWorldModal : js unit :=
  modal <- getElementById "modal-container" ;;
  m <- deref modal ;;
  set_innerHTML m upload_dialog.

(** [handleWorldUpload] up to the [fetch] (lines 466-481); [chosen] tells
    whether the file input holds a file. *)
Definition handleWorldUpload (chosen : bool) : js unit :=
  btn <- getElementById "upload-world-btn" ;;
  progress <- getElementById "upload-progress" ;;
  name <- getElementById "upload-world-name" ;;
  _ <- lift name ;;
  fileInput <- getElementById "upload-world-file" ;;
  _ <- lift fileInput ;;
  if negb chosen then ret tt
  else
    _ <- deref btn ;;
    _ <- deref progress ;;
    s <- get_state ;;
    uploadWorld (currentServer s).

(** [handleWorldUpload] after the [await] (lines 481-490).  An [Error]
    that reaches the handler is a TypeError, of a rejected [fetch] or of a
    write through [null]; [alert(e)] shows its name and message. *)
Definition handleWorldUpload_k (n : net) : js unit :=
  try_catch
    (_r <- uploadWorld_k n ;;
     closeModal ;;;
     detached loadWorlds)
    (fun e =>
       alert (Str match e with
                  | Raw s => s
                  | Error m => "TypeError: " ++ m
                  end)).

(** The markup of [openFile] (lines 362-374).  The path stands in the
    heading and in the [onclick] attribute of the save button: a double
    quote in it ends the attribute early, and what the rest of the path
    then adds to the tag is not modelled. *)
Definition editor_form (heading : list html) : list html :=
  [el "div" ["modal-overlay"]
     [el "div" ["modal"]
        [el "div" ["flex"; "justify-between"; "mb-1"]
           [el "h2" [] heading;
            el "button" ["btn"; "btn-secondary"; "btn-sm"] [HText "X"]];
         el_id "textarea" "editor" ["textarea"] [];
         el "div" ["flex"; "justify-end"; "mt-1"]
           [el "button" ["btn"; "btn-primary"; "btn-sm"] [HText "Save"]]]]].

Definition editor_dialog (path : string) : list html :=
  editor_form (parse_html ("Edit " ++ path)).

(** [openFile] up to its [await] (lines 360-376). *)
Definition openFile (path : string) : js unit :=
  modal <- getElementById "modal-container" ;;
  m <- deref modal ;;
  set_innerHTML m (editor_dialog path) ;;;
  s <- get_state ;;
  request ("/servers/" ++ to_string (currentServer s) ++ "/files/" ++ path)
          "GET".

(** [openFile] after its [await] (lines 376-379). *)
Definition openFile_k (n : net) : js unit :=
  try_catch
    (data <- request_k n ;;
     editor <- getElementById "editor" ;;
     _content <- read data "content" ;;
     _ <- deref editor ;;
     ret tt)
    (fun e => alert (message_of e) ;;; closeModal).

(** [saveFile] (lines 382-389) *)
Definition saveFile (path : string) : js unit :=
  editor <- getElementById "editor" ;;
  _ <- lift editor ;;
  s <- get_state ;;
  request ("/servers/" ++ to_string (currentServer s) ++ "/files/" ++ path)
          "PUT".

Definition saveFile_k (n : net) : js unit :=
  try_catch
    (_r <- request_k n ;;
     alert (Str "Saved.") ;;;
     closeModal)
    (fun e => alert (message_of e)).

(** The markup of [showCreateModal] (lines 614-641), with the options of
    [#new-version] and the label of [#create-btn] left open. *)
Definition create_form (versions : list html) (label : string) : list html :=
  [el "div" ["modal-overlay"]
     [el "div" ["modal"]
        [el "h2" ["mb-1"] [HText "Create Server"];
         el "form" []
           [el "div" ["mb-1"]
              [el "label" ["text-muted"] [HText "NAME"];
               el_id "input" "new-name" ["input"] []];
            el "div" ["mb-1"]
              [el "label" ["text-muted"] [HText "TYPE"];
               el_id "select" "new-type" ["select"]
                 [el "option" [] [HText "Paper"];
                  el "option" [] [HText "Spigot"]]];
            el "div" ["mb-1"]
              [el "label" ["text-muted"] [HText "VERSION"];
               el_id "select" "new-version" ["select"] versions];
            el "div" ["flex"; "justify-end"; "gap-1"]
              [el "button" ["btn"; "btn-secondary"; "btn-sm"] [HText "Cancel"];
               el_id "button" "create-btn" ["btn"; "btn-primary"; "btn-sm"]
                 (txt label)]]]]].

Definition create_dialog : list html :=
  create_form [el "option" [] [HText "Loading versions..."]] "Create".

(** [updateVersionSelector] up to its [await] (lines 646-656); [ty] is the
    value of [#new-type].  The result is the reference to [#new-version]
    that the continuation writes through, if the function got that far. *)
Definition updateVersionSelector (ty : string) : js (option nat) :=
  t <- getElementById "new-type" ;;
  _ <- lift t ;;
  selector <- getElementById "new-version" ;;
  btn <- getElementById "create-btn" ;;
  match selector with
  | None => ret None
  | Some sel =>
      r <- identity sel ;;
      set_innerHTML sel [el "option" [] [HText "Loading..."]] ;;;
      _ <- deref btn ;;
      request ("/versions/" ++ ty) "GET" ;;;
      ret r
  end.

(** [versions.slice(0, 50).map(v => `<option ...>${v}</option>`)] on
    [data.versions.reverse()] (lines 658-660).  Inside a [select] the parser
    keeps the text and drops the tags.  The version stands in the [value]
    attribute too: a double quote in it ends the attribute early, and what
    the rest of the version then adds to the tag is not modelled. *)
Definition version_option (v : value) : html :=
  el "option" []
     (txt (String.concat "" (map inner_text (parse_html (to_string v))))).

Definition version_options (data : value) : option (list html) :=
  versions <~ prop data "versions" ;;
  match versions with
  | Arr vs => Some (map version_option (firstn 50 (rev vs)))
  | _ => None
  end.

(** [updateVersionSelector] after its [await] (lines 657-664). *)
Definition updateVersionSelector_k (selector : option nat) (n : net)
  : js unit :=
  try_catch
    (data <- request_k n ;;
     options <- lift (version_options data) ;;
     via selector (fun p => set_innerHTML p options))
    (fun _ =>
       via selector
         (fun p => set_innerHTML p
                     [el "option" [] [HText "Error fetching versions"]])).

(** [showCreateModal] (lines 611-644): a new [#new-type] shows its first
    option, "paper". *)
Definition showCreateModal : js (option nat) :=
  modal <- getElementById "modal-container" ;;
  m <- deref modal ;;
  set_innerHTML m create_dialog ;;;
  try_catch (updateVersionSelector "paper") (fun _ => ret None).

(** [handleCreate] up to its [await] (lines 666-677).  The result is the
    reference to [#create-btn]. *)
Definition handleCreate : js (option nat) :=
  btn <- getElementById "create-btn" ;;
  b <- deref btn ;;
  r <- identity b ;;
  set_textContent b (Str "Creating...") ;;;
  name <- getElementById "new-name" ;;
  _ <- lift name ;;
  ty <- getElementById "new-type" ;;
  _ <- lift ty ;;
  version <- getElementById "new-version" ;;
  _ <- lift version ;;
  request "/servers" "POST" ;;;
  ret r.

(** [handleCreate] after its [await] (lines 678-685). *)
Definition handleCreate_k (btn : option nat) (n : net) : js unit :=
  try_catch
    (_r <- request_k n ;;
     closeModal ;;;
     detached loadDashboardData)
    (fun e =>
       alert (message_of e) ;;;
       via btn (fun p => set_textContent p (Str "Create"))).

(** The handlers of the worlds, plugins and settings tabs (lines 432-438,
    493-494, 545-546, 577-585); [confirmed] is the answer to
    [confirm(...)]. *)
Definition setDefaultWorld (name : string) : js unit :=
  s <- get_state ;;
  request ("/servers/" ++ to_string (currentServer s) ++ "/worlds/" ++ name
           ++ "/default") "POST".

Definition setDefaultWorld_k (name : string) (n : net) : js unit :=
  try_catch
    (_r <- request_k n ;;
     alert (Str ("Default world set to " ++ name
                 ++ ". Restart server to apply.")) ;;;
     detached loadWorlds)
    (fun e => alert (message_of e)).

Definition backupWorld : js unit :=
  s <- get_state ;;
  request ("/servers/" ++ to_string (currentServer s) ++ "/worlds/backup")
          "POST".

Definition backupWorld_k (n : net) : js unit :=
  try_catch
    (_r <- request_k n ;;
     alert (Str "Backup started!"))
    (fun e => alert (message_of e)).

Definition deleteWorld (confirmed : bool) (name : string) : js unit :=
  if confirmed then
    s <- get_state ;;
    request ("/servers/" ++ to_string (currentServer s) ++ "/worlds/" ++ name)
            "DELETE"
  else ret tt.

Definition deleteWorld_k (n : net) : js unit :=
  try_catch
    (_r <- request_k n ;;
     detached loadWorlds)
    (fun e => alert (message_of e)).

Definition installPlugin : js unit :=
  s <- get_state ;;
  request ("/servers/" ++ to_string (currentServer s) ++ "/plugins") "POST".

Definition installPlugin_k (n : net) : js unit :=
  try_catch
    (_r <- request_k n ;;
     alert (Str "Plugin installed!") ;;;
     detached loadPlugins)
    (fun e => alert (message_of e)).

Definition removePlugin (confirmed : bool) (name : string) : js unit :=
  if confirmed then
    s <- get_state ;;
    request ("/servers/" ++ to_string (currentServer s) ++ "/plugins/" ++ name)
            "DELETE"
  else ret tt.

Definition removePlugin_k (n : net) : js unit :=
  try_catch
    (_r <- request_k n ;;
     detached loadPlugins)
    (fun e => alert (message_of e)).

Definition saveSettings : js unit :=
  s <- get_state ;;
  request ("/servers/" ++ to_string (currentServer s) ++ "/config") "PUT".

Definition saveSettings_k (n : net) : js unit :=
  try_catch
    (_r <- request_k n ;;
     alert (Str "Settings saved!"))
    (fun e => alert (message_of e)).

(** *** The file browser (lines 335-358) *)

(** [s.split('/')] *)
Fixpoint split_slash (s : string) : list string :=
  match s with
  | EmptyString => [""]
  | String c r =>
      if (c =? "/")%char then "" :: split_slash r
      else match split_slash r with
           | h :: t => String c h :: t
           | [] => [String c ""]
           end
  end.

(** [encodeURIComponent] on a string given by its UTF-8 bytes: letters,
    digits and [- _ . ! ~ * ' ( )] stay, every other byte becomes [%XX]. *)
Definition unreserved (c : ascii) : bool :=
  let n := nat_of_ascii c in
  ((48 <=? n) && (n <=? 57) || (65 <=? n) && (n <=? 90)
   || (97 <=? n) && (n <=? 122))%nat
  || existsb (Ascii.eqb c) (list_ascii_of_string "-_.!~*'()").

Definition hex_digit (n : nat) : ascii :=
  nth n (list_ascii_of_string "0123456789ABCDEF") "0"%char.

Fixpoint encodeURIComponent (s : string) : string :=
  match s with
  | EmptyString => EmptyString
  | String c r =>
      if unreserved c then String c (encodeURIComponent r)
      else String "%" (String (hex_digit (nat_of_ascii c / 16))
                         (String (hex_digit (nat_of_ascii c mod 16))
                            (encodeURIComponent r)))
  end.

(** The page and the module variable [currentPath] (line 335). *)
Record browser : Type := mkBrowser {
  page : world;
  currentPath : string
}.

(** [loadFiles(path)] up to its [await], but for the assignment to
    [currentPath] (lines 338-344). *)
Definition loadFiles_page (path : string) : js unit :=
  list <- getElementById "file-list" ;;
  dirLabel <- getElementById "dir-path" ;;
  match list, dirLabel with
  | Some _, Some d =>
      set_textContent d (Str (if path =? "" then "/" else path)) ;;;
      s <- get_state ;;
      request ("/servers/" ++ to_string (currentServer s) ++ "/files?path="
               ++ encodeURIComponent path) "GET" ;;;
      suspend AwaitTabData
  | _, _ => ret tt
  end.

(** [loadFiles(path)] up to its [await] (lines 336-344). *)
Definition loadFiles (path : string) (b : browser) : browser :=
  mkBrowser (run (detached (loadFiles_page path)) (page b)) path.

(** [goUp] (lines 354-358) *)
Definition goUp (b : browser) : browser :=
  let parts := split_slash (currentPath b) in
  loadFiles (String.concat "/" (removelast parts)) b.

End App.

(** * Properties *)

Import JS Dom App.
Local Open Scope js_scope.

(** ** Induction over fragments and nodes *)

Section html_nested_induction.
Variable P : html -> Prop.
Hypothesis P_text : forall s, P (HText s).
Hypothesis P_elem : forall t e c ks, Forall P ks -> P (HElem t e c ks).

Fixpoint html_nested_ind (h : html) : P h :=
  match h with
  | HText s => P_text s
  | HElem t e c ks =>
      P_elem t e c ks
        ((fix all (l : list html) : Forall P l :=
            match l with
            | [] => Forall_nil P
            | x :: r => Forall_cons x (html_nested_ind x) (all r)
            end) ks)
  end.
End html_nested_induction.

Section node_nested_induction.
Variable P : node -> Prop.
Hypothesis P_text : forall s, P (Text s).
Hypothesis P_elem : forall i t e c ks, Forall P ks -> P (Elem i t e c ks).

Fixpoint node_nested_ind (n : node) : P n :=
  match n with
  | Text s => P_text s
  | Elem i t e c ks =>
      P_elem i t e c ks
        ((fix all (l : list node) : Forall P l :=
            match l with
            | [] => Forall_nil P
            | x :: r => Forall_cons x (node_nested_ind x) (all r)
            end) ks)
  end.
End node_nested_induction.

(** ** Vocabulary of the statements *)

(** The message of the [Error] thrown for a non-2xx response (lines 30-31):
    the body text, or the status line when the body is empty or unreadable. *)
Definition error_message (r : response) : string :=
  match text r with
  | Some t => if t =? "" then statusText r else t
  | None => statusText r
  end.

(** A page loaded with the stored token "abc": the dashboard is shown, its
    data requested and its poll timer (handle 1) started. *)
Definition logged_in : world := boot (Some "abc").

(** Sample responses. *)
Definition no_content : response := mkResponse 204 "No Content" (Some "") None.
Definition unparsable : response := mkResponse 200 "OK" (Some "<html>") None.
Definition disk_full : response :=
  mkResponse 500 "Internal Server Error" (Some "disk full") None.

(** What a 2xx response resolves to in [api.request] (line 34) and in
    [api.uploadWorld] (line 61). *)
Definition resolved (r : response) : value :=
  if (status r =? 204)%Z then Null
  else match json r with Some v => v | None => Null end.

Definition upload_resolved (r : response) : value :=
  if ((status r =? 204) || (status r =? 201))%Z then Null
  else match json r with Some v => v | None => Null end.

(** [m] relates every world to the world it leaves behind. *)
Definition keeps (R : world -> world -> Prop) {A} (m : js A) : Prop :=
  forall w, R w (fst (m w)).

(** Frames: what a run leaves untouched. *)
Definition same_sockets (w w' : world) : Prop :=
  sockets w' = sockets w /\ ws w' = ws w /\ next_socket w' = next_socket w.

(** The sockets, the tab and the server under management are untouched. *)
Definition same_session (w w' : world) : Prop :=
  same_sockets w w'
  /\ currentTab (st w') = currentTab (st w)
  /\ currentServer (st w') = currentServer (st w).

(** The console session invariant: a live socket is the one [ws] refers to,
    and socket identities are not reused. *)
Definition one_session (w : world) : Prop :=
  (forall s, In s (sockets w) -> live s = true -> ws w = Some (sock_id s))
  /\ (forall s, In s (sockets w) -> sock_id s < next_socket w)
  /\ NoDup (map sock_id (sockets w)).

(** The session invariant is carried over. *)
Definition session_kept (w w' : world) : Prop :=
  one_session w -> one_session w'.

(** Away from the console tab, the session is untouched. *)
Definition off_console (w w' : world) : Prop :=
  currentTab (st w) <> "console" -> same_session w w'.

(** The descriptor of server s1 in a given run state. *)
Definition alpha (state : string) : value :=
  Obj [("id", Str "s1"); ("name", Str "Alpha"); ("state", Str state);
       ("server_type", Str "paper"); ("minecraft_version", Str "1.21");
       ("port", Num (int 25565))].

(** A 200 response carrying the JSON value [v]. *)
Definition delivers (v : value) : net :=
  Responds (mkResponse 200 "OK" None (Some v)).

(** The second argument of [Delivered] where only one response is awaited. *)
Definition unused : net := Unreachable "".

(** Open the console of server s1, then switch to its files tab; each
    [Delivered 1] answers the [getServer] request of the full render just
    triggered (entry 0 is the dashboard request of the page load). *)
Definition console_then_files : list event :=
  [NavigateTo "server" (Str "s1");
   Delivered 1 (delivers (alpha "running")) unused;
   SetTab "files";
   Delivered 1 (delivers (alpha "running")) unused].

(** The scans over the children of an element done by [find_id], [query]
    and [query_below], named for the proofs. *)
Section Scans.
Variable i : string.
Variable want : list string.
Variable inside : bool.

Fixpoint scan_id (l : list node) (k : nat) : option path :=
  match l with
  | [] => None
  | x :: r =>
      match find_id i x with
      | Some p => Some (k :: p)
      | None => scan_id r (S k)
      end
  end.

Fixpoint scan_query (l : list node) (k : nat) : option path :=
  match l with
  | [] => None
  | x :: r =>
      match x with
      | Text _ => scan_query r (S k)
      | Elem _ _ _ c _ =>
          if has_classes want c then Some [k]
          else match query want x with
               | Some p => Some (k :: p)
               | None => scan_query r (S k)
               end
      end
  end.

Fixpoint scan_below (l : list node) (k : nat) : option path :=
  match l with
  | [] => None
  | x :: r =>
      match x with
      | Text _ => scan_below r (S k)
      | Elem _ _ _ c _ =>
          if inside && has_classes want c then Some [k]
          else match query_below i want inside x with
               | Some p => Some (k :: p)
               | None => scan_below r (S k)
               end
      end
  end.
End Scans.

(** The [id] attribute of a node, if it is an element. *)
Definition eid_of (n : node) : option string :=
  match n with
  | Text _ => None
  | Elem _ _ e _ _ => Some e
  end.

(** [f] changes neither the kind of a node nor its [id] attribute. *)
Definition keeps_eid (f : node -> node) : Prop :=
  forall m, eid_of (f m) = eid_of m.

(** The children that [el.textContent = s] leaves in [el]. *)
Definition text_kids (s : string) : list node :=
  if s =? "" then [] else [Text s].

(** The [#server-header] element once the first render has filled it
    (lines 214-229): a title with the status badge, the info line and the
    button group. *)
Definition header_dom (hid i1 i2 i3 i4 i5 i6 : nat) (title : string)
           (running : bool) (status info : string) (buttons : list node)
  : node :=
  Elem hid "div" "server-header" []
    [Elem i1 "div" "" ["flex"; "justify-between"; "items-center"; "mb-2"]
       [Elem i2 "div" "" []
          [Elem i3 "h1" "" []
             [Text title;
              Elem i4 "span" ""
                ["badge"; if running then "badge-success" else "badge-error"]
                (text_kids status)];
           Elem i5 "div" "" ["text-muted"] (text_kids info)];
        Elem i6 "div" "" ["flex"; "gap-1"] buttons]].

Inductive mounted : node -> Prop :=
| mounted_header :
    forall hid i1 i2 i3 i4 i5 i6 title running status info buttons,
      mounted (header_dom hid i1 i2 i3 i4 i5 i6 title running status info
                 buttons).

(** A value whose properties can be read. *)
Definition readable (v : value) : bool :=
  match v with
  | Undefined | Null => false
  | _ => true
  end.

(** [v.k] of a readable value. *)
Definition field (v : value) (k : string) : value :=
  match prop v k with
  | Some x => x
  | None => Undefined
  end.

Definition runs (server : value) : bool :=
  is_str (field server "state") "running".

Definition info_text (server : value) : string :=
  to_string (field server "server_type") ++ sep
  ++ to_string (field server "minecraft_version") ++ sep
  ++ "Port " ++ to_string (field server "port").

(** The name, the state and the info line of a snapshot hold no markup. *)
Definition plain_header (server : value) : bool :=
  plain (to_string (field server "name"))
  && plain (to_string (field server "state"))
  && plain (info_text server).

Definition buttons_html (running : bool) : list html :=
  [if running
   then el "button" ["btn"; "btn-danger"; "btn-sm"] [HText "Stop"]
   else el "button" ["btn"; "btn-success"; "btn-sm"] [HText "Start"];
   el "button" ["btn"; "btn-secondary"; "btn-sm"] [HText "Restart"];
   el "button" ["btn"; "btn-danger"; "btn-sm"] [HText "Delete Server"]].

(** The status shown in the header: the text of the badge, looked up the
    way [loadServerData] looks it up. *)
Definition displayed_status (w : world) : option string :=
  match find_id "server-header" (root w) with
  | Some ph =>
      match get_at ph (root w) with
      | Some h =>
          match query ["badge"] h with
          | Some pb => option_map text_content (get_at pb h)
          | None => None
          end
      | None => None
      end
  | None => None
  end.

(** The root element is [#app]. *)
Definition is_app (n : node) : Prop :=
  match n with
  | Elem i t e c _ => i = app_id /\ t = "div" /\ e = "app" /\ c = []
  | Text _ => False
  end.

(** The world after the header found at [ph] has been replaced by [h]. *)
Definition with_header (ph : path) (h : node) (fr : nat) (w : world) : world :=
  set_dom (kids_of (update_at ph (fun _ => h) (root w))) fr w.

(** The tree below [#app] and the identity counter are untouched. *)
Definition same_dom (w w' : world) : Prop :=
  body w' = body w /\ fresh w' = fresh w.

(** The server view of s1 with its header mounted: the console was opened
    and the first snapshot, state "running", has arrived. *)
Definition viewing_s1 : world :=
  steps logged_in [NavigateTo "server" (Str "s1");
                   Delivered 1 (delivers (alpha "running")) unused].

(** The descriptor of a running or stopped server s1 under a given name. *)
Definition named (name state : string) : value :=
  Obj [("id", Str "s1"); ("name", Str name); ("state", Str state);
       ("server_type", Str "paper"); ("minecraft_version", Str "1.21");
       ("port", Num (int 25565))].

(** The server view of s1 after its first snapshot, the server running
    under the given name. *)
Definition viewing (name : string) : world :=
  steps logged_in [NavigateTo "server" (Str "s1");
                   Delivered 1 (delivers (named name "running")) unused].

(** Two names that carry markup: an element with all the classes the header
    patch looks up, and an info line with a badge of its own. *)
Definition capturing_name : string :=
  "<span class='badge text-muted flex gap-1'></span>".
Definition shadowing_name : string :=
  "<div class='text-muted'><span class='badge'>running</span></div>".

(** The header shown in [viewing_s1]. *)
Definition s1_header : node :=
  header_dom 42 45 46 47 48 49 50 "Alpha " true "running"
    ("paper" ++ sep ++ "1.21" ++ sep ++ "Port 25565")
    [Elem 51 "button" "" ["btn"; "btn-danger"; "btn-sm"] [Text "Stop"];
     Elem 52 "button" "" ["btn"; "btn-secondary"; "btn-sm"] [Text "Restart"];
     Elem 53 "button" "" ["btn"; "btn-danger"; "btn-sm"]
       [Text "Delete Server"]].

(** The sidebar while the dashboard is shown. *)
Definition sidebar_dashboard : html :=
  renderSidebar (mkState Null "dashboard" "console" Null Null "" None Null).

Definition stat_shown (label eid shown : string) : html :=
  el "div" ["card"; "flex-column"]
    [el "div" ["text-muted"] [HText label];
     el_id "div" eid [] (txt shown)].

(** The dashboard as it is on screen (lines 102-110 and 150-176) with the
    three counters showing [total], [running] and [cpu], the list holding
    [rows], and [modal] in the modal container. *)
Definition dashboard_view (total running cpu : string)
           (rows modal : list html) : list html :=
  [el "div" ["layout-wrapper"]
     [sidebar_dashboard;
      el "main" ["main-content"]
        [el "div" ["flex"; "justify-between"; "items-center"; "mb-2"]
           [el "h1" [] [HText "Dashboard"];
            el "button" ["btn"; "btn-primary"; "btn-sm"]
              [HText "+ Create Server"]];
         el "div" ["flex"; "gap-2"; "mb-2"]
           [stat_shown "Servers" "stat-total" total;
            stat_shown "Running" "stat-running" running;
            stat_shown "System CPU" "stat-cpu" cpu];
         el_id "div" "servers-list" ["flex"; "flex-column"; "gap-1"] rows]];
   el_id "div" "modal-container" [] modal].

(** The element with the given [id], and its identity. *)
Definition element (i : string) (w : world) : option node :=
  match find_id i (root w) with
  | Some p => get_at p (root w)
  | None => None
  end.

Definition element_id (i : string) (w : world) : option nat :=
  match element i w with
  | Some n => nid_of n
  | None => None
  end.

(** The identities of the rows of the server list. *)
Definition row_ids (w : world) : list nat :=
  match element "servers-list" w with
  | Some n => child_nids n
  | None => []
  end.

(** The identities of the elements at the top of a list of nodes. *)
Definition top_nids (l : list node) : list nat :=
  flat_map (fun c => match nid_of c with Some i => [i] | None => [] end) l.

(** Lookup and update on what is visible, mirroring [find_id] and
    [update_at] on nodes. *)
Fixpoint hfind_id (i : string) (h : html) : option path :=
  match h with
  | HText _ => None
  | HElem _ e _ ks =>
      if e =? i then Some []
      else
        (fix scan (l : list html) (k : nat) : option path :=
           match l with
           | [] => None
           | x :: r =>
               match hfind_id i x with
               | Some p => Some (k :: p)
               | None => scan r (S k)
               end
           end) ks 0
  end.

Section HtmlScan.
Variable i : string.
Fixpoint hscan_id (l : list html) (k : nat) : option path :=
  match l with
  | [] => None
  | x :: r =>
      match hfind_id i x with
      | Some p => Some (k :: p)
      | None => hscan_id r (S k)
      end
  end.
End HtmlScan.

Fixpoint hupdate_at (p : path) (f : html -> html) (h : html) : html :=
  match p with
  | [] => f h
  | k :: p' =>
      match h with
      | HText _ => h
      | HElem t e c ks => HElem t e c (update_nth k (hupdate_at p' f) ks)
      end
  end.

Definition hset_kids (ks : list html) (h : html) : html :=
  match h with
  | HText _ => h
  | HElem t e c _ => HElem t e c ks
  end.

(** The [#app] element around what is visible. *)
Definition app_view (v : list html) : html := HElem "div" "app" [] v.

(** The identity of the element at a path. *)
Definition nid_at (p : path) (n : node) : option nat :=
  match get_at p n with
  | Some m => nid_of m
  | None => None
  end.

(** A fleet of three servers, one of them running, and its stats. *)
Definition fleet_servers : list value :=
  [alpha "running";
   Obj [("id", Str "s2"); ("name", Str "Beta"); ("state", Str "stopped");
        ("server_type", Str "spigot"); ("minecraft_version", Str "1.20");
        ("port", Num (int 25566))];
   Obj [("id", Str "s3"); ("name", Str "Gamma"); ("state", Str "stopped");
        ("server_type", Str "paper"); ("minecraft_version", Str "1.21");
        ("port", Num (int 25567))]].

Definition fleet : value := Arr fleet_servers.

(** The double written 12.35, which lies just below it. *)
Definition cpu_12_35 : number := Finite 6952431924753203 (-49).

Definition fleet_stats : value :=
  Obj [("total_servers", Num (int 3)); ("running_servers", Num (int 1));
       ("total_cpu_percent", Num cpu_12_35)].

(** A row of the dashboard list as it is shown for a server whose texts
    hold no markup. *)
Definition row_shown (s : value) : html :=
  el "div" ["card"; "flex"; "justify-between"; "items-center"]
    [el "div" []
       [el "div" [] (txt (to_string (field s "name")));
        el "div" ["text-muted"] (txt (info_text s))];
     el "span" ["badge"; if runs s then "badge-success" else "badge-error"]
        (txt (to_string (field s "state")))].

Definition rows_shown (items : list value) : list html :=
  match items with
  | [] => [el "div" ["card"; "text-muted"] [HText "No servers found."]]
  | _ => map row_shown items
  end.

(** The name, the state and the info line of a server hold no markup, and
    its [id] no double quote. *)
Definition plain_row (s : value) : bool :=
  plain_header s && unquoted (to_string (field s "id")).

Definition fleet_rows : list html :=
  match server_rows fleet with
  | Some rows => rows
  | None => []
  end.

(** The dashboard after the data of the page load has arrived, and after
    the poll timer has fired once more and its data has arrived. *)
Definition dashboard_loaded : world :=
  steps logged_in [Delivered 0 (delivers fleet) (delivers fleet_stats)].

Definition dashboard_ticked : world :=
  steps dashboard_loaded
    [TimerFires 1; Delivered 0 (delivers fleet) (delivers fleet_stats)].

(** The poll timer discipline: a live timer is the one [state.pollInterval]
    refers to, and handles are not reused. *)
Definition tracked (w : world) : Prop :=
  (forall h t, In (h, t) (timers w) ->
               pollInterval (st w) = Some h /\ h < next_timer w)
  /\ NoDup (map fst (timers w)).

(** Calls of [navigateTo] and [logout] only. *)
Definition navigates (e : event) : Prop :=
  match e with
  | NavigateTo _ _ | Logout => True
  | _ => False
  end.

(** The timers and the recorded handle are untouched. *)
Definition same_timers (w w' : world) : Prop :=
  timers w' = timers w /\ next_timer w' = next_timer w
  /\ pollInterval (st w') = pollInterval (st w).

(** ** Vocabulary of the further properties *)

(** A reply with status 401. *)
Definition unauthorized (n : net) : bool :=
  match n with
  | Responds r => (status r =? 401)%Z
  | Unreachable _ => false
  end.

(** A request that ends in a rejection: the server is not reached, or its
    status is not 2xx. *)
Definition fails (n : net) : bool :=
  match n with
  | Unreachable _ => true
  | Responds r => negb (ok r)
  end.

(** The message of the [Error] a failed request is rejected with
    (lines 22, 30-31). *)
Definition failure_message (n : net) : string :=
  match n with
  | Unreachable m => m
  | Responds r => error_message r
  end.

(** The login view (lines 689-702) with [err] in its error line;
    [renderLogin] is [login_view "Login failed."]. *)
Definition login_view (err : string) : list html :=
  [el "div" []
     [el "div" ["card"]
        [el "h1" ["text-center"] [HText "MINESERV"];
         el_id "form" "login-form" []
           [el_id "input" "password" ["input"; "mb-1"] [];
            el_id "div" "login-error" [] (txt err);
            el "button" ["btn"; "btn-primary"] [HText "LOGIN"]]]]].

(** The credential is gone, in the state and in the storage; timers and
    sockets are as they were. *)
Definition logged_out (w w' : world) : Prop :=
  token (st w') = Null /\ stored_token w' = None
  /\ timers w' = timers w /\ sockets w' = sockets w /\ ws w' = ws w
  /\ pollInterval (st w') = pollInterval (st w).

(** The card shown in [#tab-content] when the first load fails (line 254). *)
Definition error_card (msg : string) : html :=
  el "div" ["card"] [HText ("Error loading server: " ++ msg)].

(** The poll [render] starts in a given state, with its period in
    milliseconds (lines 112-118). *)
Definition poll_of (s : state) : option (task * nat) :=
  if negb (truthy (token s)) then None
  else if currentView s =? "dashboard" then Some (TickDashboard, 3000)
  else if truthy (currentServer s) then Some (TickServer, 2000)
  else None.

(** What [render] leaves untouched. *)
Definition same_login (w w' : world) : Prop :=
  token (st w') = token (st w) /\ stored_token w' = stored_token w
  /\ currentView (st w') = currentView (st w)
  /\ currentTab (st w') = currentTab (st w)
  /\ currentServer (st w') = currentServer (st w)
  /\ serverData (st w') = serverData (st w).

(** The world in which [navigateTo(view)] calls [render]. *)
Definition before_render (view : string) (w : world) : world :=
  let w1 := run (set_currentView view) w in
  run (set_pollInterval None)
    match pollInterval (st w1) with
    | Some h => run (clearInterval h) w1
    | None => w1
    end.

(** [localStorage.getItem('token') || null] (line 6) *)
Definition credential (stored : option string) : value :=
  match stored with
  | Some t => if t =? "" then Null else Str t
  | None => Null
  end.

(** The dashboard as [render] leaves it, before its data arrives. *)
Definition dashboard_placeholders : list html :=
  dashboard_view "-" "-" "-%"
    [el "div" ["text-muted"] [HText "Loading instances..."]] [].

(** The continuations whose [catch] is [alert(e.message)] and nothing
    else. *)
Definition alerting (name : string) : list (net -> js unit) :=
  [handleStart_k; handleStop_k; handleRestart_k; handleDeleteServer_k;
   setDefaultWorld_k name; backupWorld_k; deleteWorld_k; installPlugin_k;
   removePlugin_k; saveSettings_k; saveFile_k].

(** The page of a logged-in user (lines 102-110): the layout and, after it,
    the modal container. *)
Definition page_with (main : html) (modal : list html) : list html :=
  [main; el_id "div" "modal-container" [] modal].

(** The layout of a page. *)
Definition main_of (w : world) : html := nth 0 (visible w) (HText "").

Definition dialog_ids : list string :=
  ["modal-container"; "new-type"; "new-version"; "create-btn"; "new-name";
   "editor"; "upload-world-btn"; "upload-progress"; "upload-world-name";
   "upload-world-file"].

(** The layout holds none of the elements a dialog looks up. *)
Definition dialog_free (main : html) : Prop :=
  Forall (fun i => hfind_id i main = None) dialog_ids.

(** The last [k] entries of a list, the last one first. *)
Definition newest (k : nat) {A} (l : list A) : list A :=
  rev (skipn (List.length l - k) l).

(** Where [#new-version] and [#create-btn] are on a page showing the
    create dialog. *)
Definition version_path : path := [1; 0; 0; 1; 2; 1].
Definition create_btn_path : path := [1; 0; 0; 1; 3; 1].

(** The scan over the children done by [find_nid], named for the proofs. *)
Section NidScan.
Variable i : nat.
Fixpoint scan_nid (l : list node) (k : nat) : option path :=
  match l with
  | [] => None
  | x :: r =>
      match find_nid i x with
      | Some p => Some (k :: p)
      | None => scan_nid r (S k)
      end
  end.
End NidScan.

(** Nothing at all is changed. *)
Definition untouched (w w' : world) : Prop := w' = w.

(** A name without a slash. *)
Fixpoint no_slash (s : string) : bool :=
  match s with
  | EmptyString => true
  | String c r => negb (c =? "/")%char && no_slash r
  end.

(** The path [goUp] hands to [loadFiles] (lines 355-357). *)
Definition parent (p : string) : string :=
  String.concat "/" (removelast (split_slash p)).

(** The server view (lines 102-110 and 178-183) around a header and a tab
    body. *)
Definition server_page (sidebar : html) (header content : list html) : html :=
  el "div" ["layout-wrapper"]
    [sidebar;
     el "main" ["main-content"]
       [el_id "div" "server-header" [] header;
        el_id "div" "tab-content" [] content]].

(** What a full render puts into [#tab-content] (lines 233-251). *)
Definition tab_markup (tab : string) : list html :=
  if tab =? "console" then renderConsole
  else if tab =? "files" then renderFiles
  else if tab =? "worlds" then renderWorlds
  else if tab =? "plugins" then renderPlugins
  else if tab =? "settings" then renderSettings
  else [].

(** The header of a readable snapshot (lines 214-229). *)
Definition header_shown (server : value) : list html :=
  [el "div" ["flex"; "justify-between"; "items-center"; "mb-2"]
     [el "div" []
        [el "h1" []
           [HText (to_string (field server "name") ++ " ");
            el "span"
              ["badge"; if runs server then "badge-success" else "badge-error"]
              (txt (to_string (field server "state")))];
         el "div" ["text-muted"] (txt (info_text server))];
      el "div" ["flex"; "gap-1"] (buttons_html (runs server))]].

(** The fragment at a path of what is visible. *)
Fixpoint hget_at (p : path) (h : html) : option html :=
  match p with
  | [] => Some h
  | k :: p' =>
      match h with
      | HText _ => None
      | HElem _ _ _ ks =>
          match nth_error ks k with
          | Some x => hget_at p' x
          | None => None
          end
      end
  end.

(** Without a credential the screen is the login view. *)
Definition login_shown (w : world) : Prop :=
  truthy (token (st w)) = false -> exists err, visible w = login_view err.

(** The credential and the tree are untouched. *)
Definition same_page (w w' : world) : Prop :=
  token (st w') = token (st w) /\ body w' = body w.

Definition same_token (w w' : world) : Prop := token (st w') = token (st w).

(** Sample replies and worlds. *)
Definition expired : response :=
  mkResponse 401 "Unauthorized" (Some "token expired") None.

Definition created : response := mkResponse 201 "Created" None None.

(** The server view of s1 just rendered, its first snapshot not yet there. *)
Definition server_opened : world :=
  steps logged_in [NavigateTo "server" (Str "s1")].

(** The worlds tab of s1, and the upload dialog opened on it. *)
Definition worlds_tab : world :=
  steps logged_in [NavigateTo "server" (Str "s1"); SetTab "worlds";
                   Delivered 2 (delivers (alpha "running")) unused].

Definition upload_open : world := run showUploadWorldModal worlds_tab.

(** The files tab of s1, and the editor opened on one of its files. *)
Definition files_tab : world :=
  steps logged_in [NavigateTo "server" (Str "s1"); SetTab "files";
                   Delivered 2 (delivers (alpha "running")) unused].

Definition editor_open : world := run (openFile "server.properties") files_tab.

(** The create dialog opened on the dashboard, and the versions a server
    may list. *)
Definition create_open : world := run showCreateModal dashboard_loaded.

(** An entry of the version selector as it is shown for a version that
    holds no markup, and the versions for which this is what the selector
    shows: no markup in them and no double quote. *)
Definition option_shown (v : value) : html :=
  el "option" [] (txt (to_string v)).

Definition plain_version (v : value) : bool :=
  plain (to_string v) && unquoted (to_string v).

Definition paper_versions : value :=
  Obj [("versions", Arr [Str "1.20.4"; Str "1.21"; Str "1.21.1"])].

(** * Lemmas and theorems *)

(** ** Creating nodes *)

Lemma create_elem (t e : string) (c : list string) (ks : list html) (n : nat) :
  create (HElem t e c ks) n
  = (Elem n t e c (fst (create_all ks (S n))), snd (create_all ks (S n))).
Proof.
  cbn [create]. fold create_all.
  destruct (create_all ks (S n)); reflexivity.
Qed.

Lemma create_all_cons (x : html) (r : list html) (n : nat) :
  create_all (x :: r) n
  = (fst (create x n) :: fst (create_all r (snd (create x n))),
     snd (create_all r (snd (create x n)))).
Proof.
  cbn [create_all]. destruct (create x n) as [x' m]. cbn [fst snd].
  destruct (create_all r m); reflexivity.
Qed.

(** Creating the nodes of a fragment shows exactly that fragment. *)
Lemma erase_create (h : html) : forall n, erase (fst (create h n)) = h.
Proof.
  induction h as [s | t e c ks IH] using html_nested_ind; intro n.
  - reflexivity.
  - rewrite create_elem. cbn [fst erase]. f_equal.
    generalize (S n). induction IH as [| x r Hx _ IHr]; intro m.
    + reflexivity.
    + rewrite create_all_cons. cbn [fst map]. now rewrite Hx, IHr.
Qed.

Lemma erase_create_all (l : list html) :
  forall n, map erase (fst (create_all l n)) = l.
Proof.
  induction l as [| x r IH]; intro n.
  - reflexivity.
  - rewrite create_all_cons. cbn [fst map]. now rewrite erase_create, IH.
Qed.

(** ** The API client *)

Lemma request_k_error_message (r : response) :
  (let errorText := match text r with
                    | Some t => t
                    | None => statusText r
                    end in
   if errorText =? "" then statusText r else errorText) = error_message r.
Proof.
  unfold error_message. destruct (text r) as [t |]; cbn.
  - reflexivity.
  - destruct (statusText r =? "") eqn:E; [ | reflexivity ].
    now apply String.eqb_eq in E.
Qed.

(** C3.  A response with status 401, whatever the endpoint and whatever its
    body: [api.request] sets [state.token] to null, removes the stored token
    and renders the login view, in this order, and then throws the error to
    its caller. *)
Theorem request_k_401_logs_out_then_throws :
  forall (w : world) (reason : string) (body : option string)
         (payload : option value),
    let r := mkResponse 401 reason body payload in
    let w' := run (request_k (Responds r)) w in
    token (st w') = Null
    /\ stored_token w' = None
    /\ visible w' = renderLogin
    /\ log w' = (log w ++ [StorageRemove "token"; Rendered "login"])%list
    /\ result (request_k (Responds r)) w = Throw (Error (error_message r)).
Proof.
  intros w reason body payload r w'.
  split; [ reflexivity | ].
  split; [ reflexivity | ].
  split; [ unfold w', visible; cbn; reflexivity | ].
  split.
  - unfold w'. cbn. now rewrite <- app_assoc.
  - unfold result. cbn. f_equal. f_equal.
    apply (request_k_error_message r).
Qed.

Lemma request_k_2xx (r : response) (w : world) :
  ok r = true -> request_k (Responds r) w = (w, Ok (resolved r)).
Proof.
  intro H. unfold request_k, resolved. rewrite H. cbn.
  destruct (status r =? 204)%Z; reflexivity.
Qed.

Lemma request_k_error (r : response) (w : world) :
  ok r = false -> (status r =? 401)%Z = false ->
  request_k (Responds r) w = (w, Throw (Error (error_message r))).
Proof.
  intros H H'. unfold request_k. rewrite H, H'. cbn.
  unfold throw. do 3 f_equal. apply request_k_error_message.
Qed.

(** C10.  On a 2xx response [api.request] resolves and leaves the world as
    it is; a body that fails to parse resolves to null, the value a 204
    resolves to. *)
Theorem request_k_2xx_never_rejects :
  forall (w : world) (r : response),
    ok r = true ->
    (exists v, result (request_k (Responds r)) w = Ok v)
    /\ run (request_k (Responds r)) w = w
    /\ (json r = None -> result (request_k (Responds r)) w = Ok Null)
    /\ (status r = 204%Z -> result (request_k (Responds r)) w = Ok Null).
Proof.
  intros w r H. unfold result, run. rewrite (request_k_2xx r w H). cbn.
  split; [ now exists (resolved r) | ].
  split; [ reflexivity | ].
  unfold resolved. split.
  - intros ->. now destruct (status r =? 204)%Z.
  - intros ->. reflexivity.
Qed.

Lemma request_k_2xx_never_rejects_witness :
  ok unparsable = true
  /\ ((exists v, result (request_k (Responds unparsable)) logged_in = Ok v)
      /\ run (request_k (Responds unparsable)) logged_in = logged_in
      /\ (json unparsable = None ->
          result (request_k (Responds unparsable)) logged_in = Ok Null)
      /\ (status unparsable = 204%Z ->
          result (request_k (Responds unparsable)) logged_in = Ok Null)).
Proof.
  split; [ reflexivity | ].
  apply (request_k_2xx_never_rejects logged_in unparsable). reflexivity.
Defined.

(** C5, as stated, fails: the result for a 204 and the result for a 200
    whose body does not parse are the same value, null. *)
Lemma no_content_same_as_unparsable :
  result (request_k (Responds no_content)) logged_in = Ok Null
  /\ result (request_k (Responds unparsable)) logged_in = Ok Null
  /\ ~ (result (request_k (Responds no_content)) logged_in
        <> result (request_k (Responds unparsable)) logged_in).
Proof.
  split; [ reflexivity | ].
  split; [ reflexivity | ].
  intro H. apply H. reflexivity.
Qed.

(** C5, amended.  [api.request] resolves a 204 to null and any other 2xx
    response to its parsed body, or to null when the body fails to parse.
    So a body that fails to parse gives the 204 result, and the result for
    a 204 differs from the result for another 2xx response exactly when
    the body of that response parses to a value other than null. *)
Theorem no_content_distinct_iff_parsed_non_null :
  forall (w : world) (r204 r : response),
    ok r204 = true -> status r204 = 204%Z ->
    ok r = true -> status r <> 204%Z ->
    result (request_k (Responds r204)) w = Ok Null
    /\ result (request_k (Responds r)) w
       = Ok (match json r with Some v => v | None => Null end)
    /\ (json r = None ->
        result (request_k (Responds r)) w
        = result (request_k (Responds r204)) w)
    /\ (result (request_k (Responds r204)) w
        <> result (request_k (Responds r)) w
        <-> exists v, json r = Some v /\ v <> Null).
Proof.
  intros w r204 r H204 S204 H S. unfold result.
  rewrite (request_k_2xx r204 w H204), (request_k_2xx r w H). cbn.
  unfold resolved. rewrite S204. cbn.
  apply Z.eqb_neq in S. rewrite S.
  split; [ reflexivity | ]. split; [ reflexivity | ].
  split; [ now intros -> | ].
  destruct (json r) as [v |].
  - split.
    + intro D. exists v. split; [ reflexivity | ]. intros ->. now apply D.
    + intros [v' [E D]] C. injection E as E'. subst v'.
      injection C as C'. apply D. now symmetry.
  - split.
    + intro D. now contradiction D.
    + intros [v' [E _]]. discriminate E.
Qed.

Lemma no_content_distinct_iff_parsed_non_null_witness :
  ok no_content = true /\ status no_content = 204%Z
  /\ ok unparsable = true /\ status unparsable <> 204%Z
  /\ result (request_k (Responds no_content)) logged_in = Ok Null
  /\ result (request_k (Responds unparsable)) logged_in = Ok Null
  /\ (result (request_k (Responds no_content)) logged_in
        <> result (request_k (Responds unparsable)) logged_in
      <-> exists v, json unparsable = Some v /\ v <> Null).
Proof.
  assert (N : status unparsable <> 204%Z) by discriminate.
  destruct (no_content_distinct_iff_parsed_non_null logged_in no_content
              unparsable eq_refl eq_refl eq_refl N) as (A & B & _ & D).
  split; [ reflexivity | ].
  split; [ reflexivity | ].
  split; [ reflexivity | ].
  split; [ exact N | ].
  split; [ exact A | ]. split; [ exact B | exact D ].
Defined.

Lemma uploadWorld_k_pure (n : net) (w : world) : run (uploadWorld_k n) w = w.
Proof.
  unfold run, uploadWorld_k. destruct n as [msg | r]; [ reflexivity | ].
  destruct (negb (ok r)); [ reflexivity | ].
  destruct ((status r =? 204) || (status r =? 201))%Z; reflexivity.
Qed.

(** C6, as stated, fails: for the same 500 response carrying the text
    "disk full", [api.request] throws an Error with that text while
    [api.uploadWorld] rejects with the fixed string 'Upload failed'. *)
Lemma upload_hides_server_message :
  result (request_k (Responds disk_full)) logged_in = Throw (Error "disk full")
  /\ result (uploadWorld_k (Responds disk_full)) logged_in
     = Throw (Raw "Upload failed")
  /\ result (uploadWorld_k (Responds disk_full)) logged_in
     <> result (request_k (Responds disk_full)) logged_in.
Proof.
  split; [ reflexivity | ].
  split; [ reflexivity | ].
  discriminate.
Qed.

(** C6, amended.  With a credential present the upload sends the
    Authorization header of [api.request] and no content type.  For a
    response other than 401, neither path changes the world; a non-2xx
    response makes the upload reject with the fixed string 'Upload failed'
    where [api.request] throws the server's text; a 2xx response resolves
    to null for 204 and also for 201 in the upload, for 204 only in
    [api.request]. *)
Theorem upload_versus_request :
  forall (w : world) (tok : value) (r : response),
    truthy tok = true ->
    status r <> 401%Z ->
    request_headers tok
    = ("Content-Type", "application/json") :: upload_headers tok
    /\ run (uploadWorld_k (Responds r)) w = w
    /\ run (request_k (Responds r)) w = w
    /\ result (uploadWorld_k (Responds r)) w
       = (if ok r then Ok (upload_resolved r) else Throw (Raw "Upload failed"))
    /\ result (request_k (Responds r)) w
       = (if ok r then Ok (resolved r) else Throw (Error (error_message r))).
Proof.
  intros w tok r Htok H401.
  split; [ unfold request_headers; now rewrite Htok | ].
  split; [ apply uploadWorld_k_pure | ].
  apply Z.eqb_neq in H401.
  destruct (ok r) eqn:Hok.
  - unfold run, result. rewrite (request_k_2xx r w Hok).
    split; [ reflexivity | ]. split; [ | reflexivity ].
    unfold uploadWorld_k, upload_resolved. rewrite Hok. cbn.
    destruct ((status r =? 204) || (status r =? 201))%Z; reflexivity.
  - unfold run, result. rewrite (request_k_error r w Hok H401).
    split; [ reflexivity | ]. split; [ | reflexivity ].
    unfold uploadWorld_k. now rewrite Hok.
Qed.

Lemma upload_versus_request_witness :
  truthy (Str "abc") = true
  /\ status disk_full <> 401%Z
  /\ (request_headers (Str "abc")
      = ("Content-Type", "application/json") :: upload_headers (Str "abc")
      /\ run (uploadWorld_k (Responds disk_full)) logged_in = logged_in
      /\ run (request_k (Responds disk_full)) logged_in = logged_in
      /\ result (uploadWorld_k (Responds disk_full)) logged_in
         = (if ok disk_full then Ok (upload_resolved disk_full)
            else Throw (Raw "Upload failed"))
      /\ result (request_k (Responds disk_full)) logged_in
         = (if ok disk_full then Ok (resolved disk_full)
            else Throw (Error (error_message disk_full)))).
Proof.
  split; [ reflexivity | ].
  split; [ discriminate | ].
  apply (upload_versus_request logged_in (Str "abc") disk_full);
    [ reflexivity | discriminate ].
Defined.

(** ** Frame reasoning for runs *)

Section Frames.
Context (R : world -> world -> Prop).
Hypothesis R_refl : forall w, R w w.
Hypothesis R_trans : forall a b c, R a b -> R b c -> R a c.

Lemma keeps_ret {A} (a : A) : keeps R (ret a).
Proof. intro w. apply R_refl. Qed.

Lemma keeps_throw {A} (e : exn) : keeps R (@throw A e).
Proof. intro w. apply R_refl. Qed.

Lemma keeps_lift {A} (o : option A) : keeps R (lift o).
Proof. destruct o; intro w; apply R_refl. Qed.

Lemma keeps_deref (r : option path) : keeps R (deref r).
Proof. destruct r; intro w; apply R_refl. Qed.

Lemma keeps_get_state : keeps R get_state.
Proof. intro w. apply R_refl. Qed.

Lemma keeps_getElementById (i : string) : keeps R (getElementById i).
Proof. intro w. apply R_refl. Qed.

Lemma keeps_bind {A B} (m : js A) (k : A -> js B) :
  keeps R m -> (forall a, keeps R (k a)) -> keeps R (bind m k).
Proof.
  intros Hm Hk w. unfold bind. specialize (Hm w).
  destruct (m w) as [w' [a | e]]; cbn in *.
  - eapply R_trans; [ exact Hm | apply Hk ].
  - exact Hm.
Qed.

Lemma keeps_try_catch {A} (m : js A) (h : exn -> js A) :
  keeps R m -> (forall e, keeps R (h e)) -> keeps R (try_catch m h).
Proof.
  intros Hm Hh w. unfold try_catch. specialize (Hm w).
  destruct (m w) as [w' [a | e]]; cbn in *.
  - exact Hm.
  - eapply R_trans; [ exact Hm | apply Hh ].
Qed.

Lemma keeps_detached (m : js unit) : keeps R m -> keeps R (detached m).
Proof.
  intro Hm. apply keeps_try_catch; [ exact Hm | intro; apply keeps_ret ].
Qed.

Lemma keeps_settle {A} (m : js A) : keeps R m -> keeps R (settle m).
Proof.
  intros Hm w. unfold settle. specialize (Hm w). now destruct (m w).
Qed.

Lemma keeps_act (f : world -> world) :
  (forall w, R w (f w)) -> keeps R (act f).
Proof. intros H w. apply H. Qed.

End Frames.

Create HintDb frames.

Ltac js_unfold :=
  unfold set_token, set_currentView, set_currentTab, set_currentServer,
    set_pollInterval, set_serverData, clearInterval, storage_remove_token,
    storage_set_token, set_innerHTML, set_textContent, set_className, alert,
    console_error, suspend, request, read, type_error.

(** Decomposes a goal [keeps R m] along the structure of [m]; [refl] and
    [trans] are the proofs that [R] is a preorder, [leaf] closes the goals
    [R w (f w)] of the primitive steps. *)
Ltac frame_with refl trans leaf :=
  js_unfold;
  repeat first
    [ solve [ auto with frames ]
    | apply (keeps_ret _ refl)
    | apply (keeps_throw _ refl)
    | apply (keeps_lift _ refl)
    | apply (keeps_deref _ refl)
    | apply (keeps_get_state _ refl)
    | apply (keeps_getElementById _ refl)
    | apply (keeps_bind _ trans); [ | intro ]
    | apply (keeps_try_catch _ trans); [ | intro ]
    | apply (keeps_detached _ refl trans)
    | apply (keeps_settle _)
    | apply keeps_act; intro; solve [ leaf ]
    | match goal with
      | |- keeps _ (if ?b then _ else _) => destruct b
      | |- keeps _ (match ?x with _ => _ end) => destruct x
      end ].

Lemma same_sockets_refl (w : world) : same_sockets w w.
Proof. now unfold same_sockets. Qed.

Lemma same_sockets_trans (a b c : world) :
  same_sockets a b -> same_sockets b c -> same_sockets a c.
Proof.
  unfold same_sockets. intros (H1 & H2 & H3) (H4 & H5 & H6).
  repeat split; congruence.
Qed.

Lemma same_session_refl (w : world) : same_session w w.
Proof. unfold same_session. auto using same_sockets_refl. Qed.

Lemma same_session_trans (a b c : world) :
  same_session a b -> same_session b c -> same_session a c.
Proof.
  unfold same_session. intros (H1 & H2 & H3) (H4 & H5 & H6).
  split; [ eapply same_sockets_trans; eassumption | ].
  split; congruence.
Qed.

Lemma keeps_session_sockets {A} (m : js A) :
  keeps same_session m -> keeps same_sockets m.
Proof. intros H w. apply H. Qed.

Ltac session_leaf := unfold same_session, same_sockets; cbn; auto.
Ltac sockets_leaf := unfold same_sockets; cbn; auto.
Ltac sockets_frame :=
  frame_with same_sockets_refl same_sockets_trans sockets_leaf.
Ltac session_frame :=
  frame_with same_session_refl same_session_trans session_leaf.

Lemma setInterval_same_session (t : task) (ms : nat) :
  keeps same_session (setInterval t ms).
Proof. intro w. session_leaf. Qed.
#[local] Hint Resolve setInterval_same_session : frames.

Lemma loadDashboardData_same_session : keeps same_session loadDashboardData.
Proof. unfold loadDashboardData. session_frame. Qed.
#[local] Hint Resolve loadDashboardData_same_session : frames.

Lemma loadServerData_same_session (f : bool) :
  keeps same_session (loadServerData f).
Proof. unfold loadServerData. session_frame. Qed.
#[local] Hint Resolve loadServerData_same_session : frames.

Lemma render_same_session : keeps same_session render.
Proof. unfold render. session_frame. Qed.
#[local] Hint Resolve render_same_session : frames.

Lemma request_k_same_session (n : net) : keeps same_session (request_k n).
Proof. unfold request_k. session_frame. Qed.
#[local] Hint Resolve request_k_same_session : frames.

#[local] Hint Resolve keeps_session_sockets : frames.

Lemma navigateTo_same_sockets (view : string) (serverId : value) :
  keeps same_sockets (navigateTo view serverId).
Proof. unfold navigateTo. sockets_frame. Qed.

Lemma navigateTo_falsy_same_session (view : string) (serverId : value) :
  truthy serverId = false -> keeps same_session (navigateTo view serverId).
Proof.
  intro H. unfold navigateTo.
  replace (truthy match serverId with Undefined => Null | v => v end)
    with false by now destruct serverId.
  session_frame.
Qed.

Lemma setTab_same_sockets (tab : string) : keeps same_sockets (setTab tab).
Proof. unfold setTab. sockets_frame. Qed.

Lemma logout_same_session : keeps same_session logout.
Proof. unfold logout. session_frame. Qed.
#[local] Hint Resolve logout_same_session : frames.

Ltac refocus :=
  match goal with
  | |- ?R ?w (fst (?m ?w)) => revert w; change (keeps R m)
  end.

Lemma update_header_same_session (server : value) :
  keeps same_session (update_header server).
Proof.
  unfold update_header.
  apply (keeps_bind _ same_session_trans); [ session_frame | ].
  intros [ph |]; [ | session_frame ].
  intro w. cbv zeta.
  repeat match goal with
         | |- context [match query ?c ?h with _ => _ end] =>
             destruct (query c h)
         end; refocus; session_frame.
Qed.
#[local] Hint Resolve update_header_same_session : frames.

Lemma loadFiles_root_same_session : keeps same_session loadFiles_root.
Proof. unfold loadFiles_root. session_frame. Qed.
Lemma loadWorlds_same_session : keeps same_session loadWorlds.
Proof. unfold loadWorlds. session_frame. Qed.
Lemma loadPlugins_same_session : keeps same_session loadPlugins.
Proof. unfold loadPlugins. session_frame. Qed.
Lemma loadSettings_same_session : keeps same_session loadSettings.
Proof. unfold loadSettings. session_frame. Qed.
#[local] Hint Resolve loadFiles_root_same_session loadWorlds_same_session
  loadPlugins_same_session loadSettings_same_session : frames.

Lemma loadDashboardData_k_same_session (n n' : net) :
  keeps same_session (loadDashboardData_k n n').
Proof. unfold loadDashboardData_k. session_frame. Qed.

Lemma optimistic_badge_same_session (label : string) (cls : list string) :
  keeps same_session (optimistic_badge label cls).
Proof.
  unfold optimistic_badge.
  apply (keeps_bind _ same_session_trans);
    [ intro w; apply same_session_refl | intro; session_frame ].
Qed.
#[local] Hint Resolve loadDashboardData_k_same_session
  optimistic_badge_same_session : frames.

Lemma handlers_same_session :
  keeps same_session handleStart /\ keeps same_session handleStop
  /\ keeps same_session handleRestart
  /\ (forall c, keeps same_session (handleDeleteServer c))
  /\ keeps same_session submitLogin.
Proof.
  unfold handleStart, handleStop, handleRestart, server_action,
    handleDeleteServer, submitLogin.
  split; [ session_frame | ].
  split; [ session_frame | ].
  split; [ session_frame | ].
  split; [ intro c; session_frame | session_frame ].
Qed.

Lemma continuations_same_session (n : net) :
  keeps same_session (handleStart_k n) /\ keeps same_session (handleStop_k n)
  /\ keeps same_session (handleRestart_k n)
  /\ keeps same_session (handleDeleteServer_k n)
  /\ keeps same_session (submitLogin_k n).
Proof.
  unfold handleStart_k, handleStop_k, handleRestart_k, handleDeleteServer_k,
    submitLogin_k.
  repeat split; session_frame.
Qed.

(** *** The console session *)

Lemma session_kept_refl (w : world) : session_kept w w.
Proof. now unfold session_kept. Qed.

Lemma session_kept_trans (a b c : world) :
  session_kept a b -> session_kept b c -> session_kept a c.
Proof. unfold session_kept. auto. Qed.

Lemma same_sockets_session_kept (w w' : world) :
  same_sockets w w' -> session_kept w w'.
Proof.
  unfold same_sockets, session_kept, one_session.
  intros (-> & -> & ->). auto.
Qed.

Lemma keeps_sockets_session_kept {A} (m : js A) :
  keeps same_sockets m -> keeps session_kept m.
Proof. intros H w. apply same_sockets_session_kept, H. Qed.

Lemma keeps_session_kept {A} (m : js A) :
  keeps same_session m -> keeps session_kept m.
Proof. intros H w. apply same_sockets_session_kept, H. Qed.

Lemma closed_keeps_ids (s : nat) (l : list socket) :
  map sock_id (map (closed s) l) = map sock_id l.
Proof.
  rewrite map_map. apply map_ext. intro k. unfold closed.
  now destruct (sock_id k =? s)%nat.
Qed.

Lemma fresh_socket_id (n : nat) (l : list socket) :
  (forall s, In s l -> sock_id s < n) -> NoDup (map sock_id l) ->
  NoDup (map sock_id l ++ [n]).
Proof.
  intros Hlt Hnd.
  apply NoDup_app; [ exact Hnd | repeat constructor; cbn; tauto | ].
  intros a Ha [<- | []].
  apply in_map_iff in Ha. destruct Ha as [s [E Hs]].
  specialize (Hlt s Hs). lia.
Qed.

(** What [setupConsole] does to the sockets. *)
Lemma setupConsole_run (id : value) (w : world) :
  let w' := run (setupConsole id) w in
  sockets w'
  = (match ws w with
     | Some s => map (closed s) (sockets w)
     | None => sockets w
     end ++ [mkSocket (next_socket w) (console_url id) true])%list
  /\ ws w' = Some (next_socket w)
  /\ next_socket w' = S (next_socket w)
  /\ log w' = (log w
               ++ match ws w with Some s => [SocketClose s] | None => [] end
               ++ [SocketOpen (next_socket w) (console_url id)])%list.
Proof.
  unfold run, setupConsole, bind.
  destruct (ws w) as [s |]; cbn; repeat split.
  now rewrite <- app_assoc.
Qed.

(** Under the session invariant, closing the socket [ws] refers to leaves
    no socket live. *)
Lemma none_live_after_close (w : world) :
  one_session w ->
  filter live match ws w with
              | Some s => map (closed s) (sockets w)
              | None => sockets w
              end = [].
Proof.
  intros (Hlive & _ & _).
  assert (H : forall k, In k (sockets w) -> live k = true ->
                        ws w = Some (sock_id k)) by exact Hlive.
  clear Hlive. induction (sockets w) as [| k l IH].
  - now destruct (ws w).
  - assert (IH' := IH (fun k' Hk' => H k' (or_intror Hk'))).
    assert (Hk := H k (or_introl eq_refl)).
    destruct (ws w) as [s |]; cbn.
    + unfold closed at 1. destruct (sock_id k =? s)%nat eqn:E; cbn.
      * exact IH'.
      * destruct (live k); [ | exact IH' ].
        specialize (Hk eq_refl). injection Hk as ->.
        now rewrite Nat.eqb_refl in E.
    + destruct (live k); [ | exact IH' ]. now specialize (Hk eq_refl).
Qed.

(** [setupConsole] closes the socket [ws] refers to, then opens the next
    one: afterwards the new socket is the only live one. *)
Lemma setupConsole_one_session (id : value) (w : world) :
  one_session w ->
  let w' := run (setupConsole id) w in
  one_session w'
  /\ live_sockets w' = [mkSocket (next_socket w) (console_url id) true].
Proof.
  intros Hinv w'.
  destruct (setupConsole_run id w) as (Hs & Hws & Hnext & _).
  fold w' in Hs, Hws, Hnext.
  assert (Hdead := none_live_after_close w Hinv).
  destruct Hinv as (Hlive & Hlt & Hnd).
  split.
  - unfold one_session. rewrite Hs, Hws, Hnext. split; [ | split ].
    + intros k Hk L. apply in_app_or in Hk. destruct Hk as [Hk | [<- | []]].
      * exfalso.
        assert (Hin : In k (filter live match ws w with
                                        | Some s => map (closed s) (sockets w)
                                        | None => sockets w
                                        end)) by (apply filter_In; auto).
        rewrite Hdead in Hin. exact Hin.
      * reflexivity.
    + intros k Hk. apply in_app_or in Hk. destruct Hk as [Hk | [<- | []]].
      * destruct (ws w) as [s |].
        -- apply in_map_iff in Hk. destruct Hk as [k0 [<- Hk0]].
           specialize (Hlt k0 Hk0). unfold closed.
           destruct (sock_id k0 =? s)%nat; cbn; lia.
        -- specialize (Hlt k Hk). lia.
      * cbn. lia.
    + rewrite map_app. cbn [map sock_id].
      destruct (ws w) as [s |]; rewrite ?closed_keeps_ids;
        now apply fresh_socket_id.
  - unfold live_sockets. rewrite Hs, filter_app, Hdead. reflexivity.
Qed.

Lemma setupConsole_session_kept (id : value) :
  keeps session_kept (setupConsole id).
Proof. intros w H. now apply (setupConsole_one_session id w). Qed.
#[local] Hint Resolve setupConsole_session_kept : frames.
#[local] Hint Resolve keeps_session_kept : frames.

Ltac kept_leaf :=
  apply same_sockets_session_kept; unfold same_sockets; cbn; auto.
Ltac kept_frame := frame_with session_kept_refl session_kept_trans kept_leaf.

Lemma mount_tab_session_kept (server : value) :
  keeps session_kept (mount_tab server).
Proof. unfold mount_tab. kept_frame. Qed.
#[local] Hint Resolve mount_tab_session_kept : frames.

Lemma loadServerData_k_session_kept (f : bool) (n : net) :
  keeps session_kept (loadServerData_k f n).
Proof. unfold loadServerData_k. kept_frame. Qed.

Lemma resume_session_kept (c : call) (n n' : net) :
  keeps session_kept (resume c n n').
Proof.
  destruct (continuations_same_session n) as (H1 & H2 & H3 & H4 & H5).
  destruct c; cbn [resume]; auto using loadServerData_k_session_kept with frames.
  kept_frame.
Qed.

Lemma handle_session_kept (e : event) : keeps session_kept (handle e).
Proof.
  destruct handlers_same_session as (H1 & H2 & H3 & H4 & H5).
  destruct e; cbn [handle]; auto with frames.
  - apply keeps_sockets_session_kept, navigateTo_same_sockets.
  - apply keeps_sockets_session_kept, setTab_same_sockets.
  - intro w. destruct (find _ (timers w)) as [[h t] |].
    + destruct t; cbn [run_task]; refocus; auto with frames.
    + apply session_kept_refl.
  - intro w. destruct (take_nth k (pending w)) as [[c rest] |].
    + eapply session_kept_trans; [ | apply resume_session_kept ].
      apply same_sockets_session_kept. unfold same_sockets. cbn. auto.
    + apply session_kept_refl.
Qed.

Lemma step_one_session (w : world) (e : event) :
  one_session w -> one_session (step w e).
Proof.
  unfold step, run.
  apply (keeps_detached _ session_kept_refl session_kept_trans).
  apply handle_session_kept.
Qed.

Lemma boot_one_session (stored : option string) : one_session (boot stored).
Proof.
  unfold boot, run. apply (keeps_session_kept _ render_same_session).
  cbn. unfold one_session. cbn. repeat split; try tauto. constructor.
Qed.

(** The session invariant holds in every world the program can reach. *)
Lemma reachable_one_session (stored : option string) (es : list event) :
  one_session (steps (boot stored) es).
Proof.
  unfold steps. generalize (boot_one_session stored).
  generalize (boot stored). induction es as [| e es IH]; intros w Hw.
  - exact Hw.
  - cbn [fold_left]. apply IH. now apply step_one_session.
Qed.

Lemma at_most_one_with_id (c : nat) (l : list socket) :
  NoDup (map sock_id l) ->
  (forall k, In k l -> live k = true -> sock_id k = c) ->
  List.length (filter live l) <= 1.
Proof.
  induction l as [| k r IH]; intros Hnd H; [ cbn; lia | ].
  inversion Hnd as [| x xs Hnotin Hnd' ]; subst.
  cbn [filter]. destruct (live k) eqn:L.
  - assert (Hr : filter live r = []).
    { destruct (filter live r) as [| k' r'] eqn:F; [ reflexivity | ].
      exfalso. assert (Hk' : In k' (filter live r)) by (rewrite F; now left).
      apply filter_In in Hk'. destruct Hk' as [Hin L'].
      apply Hnotin. rewrite (H k (or_introl eq_refl) L).
      rewrite <- (H k' (or_intror Hin) L'). now apply in_map. }
    rewrite Hr. cbn. lia.
  - apply IH; [ exact Hnd' | ]. intros k' Hk'. apply H. now right.
Qed.

Lemma one_session_at_most_one_live (w : world) :
  one_session w -> List.length (live_sockets w) <= 1.
Proof.
  intros (Hlive & _ & Hnd). unfold live_sockets.
  destruct (ws w) as [c |] eqn:Hws.
  - apply (at_most_one_with_id c); [ exact Hnd | ].
    intros k Hk L. specialize (Hlive k Hk L). now injection Hlive.
  - apply (at_most_one_with_id 0); [ exact Hnd | ].
    intros k Hk L. now specialize (Hlive k Hk L).
Qed.

Lemma run_detached (m : js unit) (w : world) : run (detached m) w = run m w.
Proof.
  unfold run, detached, try_catch. now destruct (m w) as [w' [[] | e]].
Qed.

Lemma run_act_then {A} (f : world -> world) (k : js A) (w : world) :
  run (act f ;;; k) w = run k (f w).
Proof. reflexivity. Qed.

Lemma off_console_refl (w : world) : off_console w w.
Proof. intros _. apply same_session_refl. Qed.

Lemma off_console_trans (a b c : world) :
  off_console a b -> off_console b c -> off_console a c.
Proof.
  unfold off_console. intros Hab Hbc Ha. specialize (Hab Ha).
  apply (same_session_trans a b c Hab). apply Hbc.
  destruct Hab as (_ & -> & _). exact Ha.
Qed.

Lemma keeps_off_console {A} (m : js A) :
  keeps same_session m -> keeps off_console m.
Proof. intros H w _. apply H. Qed.

Ltac off_leaf := intros _; unfold same_session, same_sockets; cbn; auto.
Ltac off_frame := frame_with off_console_refl off_console_trans off_leaf.

Lemma mount_tab_off_console (server : value) :
  keeps off_console (mount_tab server).
Proof.
  intros w Hw. apply String.eqb_neq in Hw.
  unfold mount_tab, bind at 1 2. cbn [getElementById get_state].
  rewrite Hw. clear Hw.
  generalize (find_id "tab-content" (root w)). intro content.
  repeat match goal with
         | |- context [if currentTab (st w) =? ?t then _ else _] =>
             destruct (currentTab (st w) =? t)
         end; refocus; session_frame.
Qed.

Lemma loadServerData_k_off_console (f : bool) (n : net) :
  keeps off_console (loadServerData_k f n).
Proof.
  pose proof mount_tab_off_console as Hm.
  pose proof (@keeps_off_console) as Hk.
  unfold loadServerData_k. off_frame.
Qed.

(** ** The console socket *)




(** ** Navigation *)

Lemma navigateTo_truthy_sets_server (view : string) (serverId : value)
      (w : world) :
  truthy serverId = true ->
  currentServer (st (run (navigateTo view serverId) w)) = serverId.
Proof.
  intro H. unfold navigateTo.
  replace (match serverId with Undefined => Null | v => v end)
    with serverId by now destruct serverId.
  rewrite H. unfold set_currentView, set_currentServer.
  rewrite !run_act_then.
  match goal with
  | |- currentServer (st (run ?m ?w0)) = _ =>
      assert (F : keeps same_session m) by session_frame;
      destruct (F w0) as (_ & _ & E)
  end.
  etransitivity; [ exact E | reflexivity ].
Qed.

(** C9.  [navigateTo(view)] with a missing, null or otherwise falsy
    [serverId] leaves [state.currentServer] as it was; a truthy one
    overwrites it.  Hence, after viewing [s], going to the dashboard and
    back to the server view without an id shows [s] again. *)
Theorem navigateTo_without_id_keeps_server :
  forall (w : world) (view : string) (serverId s : value),
    truthy serverId = false ->
    truthy s = true ->
    currentServer (st (run (navigateTo view serverId) w))
    = currentServer (st w)
    /\ currentServer (st (run (navigateTo view s) w)) = s
    /\ currentServer
         (st (steps w [NavigateTo "server" s;
                       NavigateTo "dashboard" serverId;
                       NavigateTo "server" serverId])) = s.
Proof.
  intros w view serverId s Hfalsy Htruthy.
  split; [ apply (navigateTo_falsy_same_session view serverId Hfalsy w) | ].
  split; [ now apply navigateTo_truthy_sets_server | ].
  cbn [steps fold_left]. unfold step. rewrite !run_detached. cbn [handle].
  destruct (navigateTo_falsy_same_session "server" serverId Hfalsy
              (run (navigateTo "dashboard" serverId)
                 (run (navigateTo "server" s) w))) as (_ & _ & E).
  etransitivity; [ exact E | clear E ].
  destruct (navigateTo_falsy_same_session "dashboard" serverId Hfalsy
              (run (navigateTo "server" s) w)) as (_ & _ & E).
  etransitivity; [ exact E | clear E ].
  now apply navigateTo_truthy_sets_server.
Qed.

Lemma navigateTo_without_id_keeps_server_witness :
  truthy Undefined = false
  /\ truthy (Str "s1") = true
  /\ (currentServer (st (run (navigateTo "dashboard" Undefined) logged_in))
      = currentServer (st logged_in)
      /\ currentServer (st (run (navigateTo "dashboard" (Str "s1")) logged_in))
         = Str "s1"
      /\ currentServer
           (st (steps logged_in [NavigateTo "server" (Str "s1");
                                 NavigateTo "dashboard" Undefined;
                                 NavigateTo "server" Undefined])) = Str "s1").
Proof.
  split; [ reflexivity | ].
  split; [ reflexivity | ].
  apply (navigateTo_without_id_keeps_server logged_in "dashboard" Undefined
           (Str "s1")); reflexivity.
Defined.

(** ** Lookups and updates in the tree *)

Lemma find_id_elem (i : string) (n : nat) (t e : string) (c : list string)
      (ks : list node) :
  find_id i (Elem n t e c ks) = if e =? i then Some [] else scan_id i ks 0.
Proof. reflexivity. Qed.

Lemma query_elem (want : list string) (n : nat) (t e : string)
      (c : list string) (ks : list node) :
  query want (Elem n t e c ks) = scan_query want ks 0.
Proof. reflexivity. Qed.

Lemma query_below_elem (i : string) (want : list string) (inside : bool)
      (n : nat) (t e : string) (c : list string) (ks : list node) :
  query_below i want inside (Elem n t e c ks)
  = scan_below i want (inside || (e =? i)) ks 0.
Proof. reflexivity. Qed.

Lemma update_nth_ext {A} (f g : A -> A) (k : nat) (l : list A) :
  (forall x, f x = g x) -> update_nth k f l = update_nth k g l.
Proof.
  intro H. revert k. induction l as [| x r IH]; intros [| k]; cbn;
    rewrite ?H, ?IH; reflexivity.
Qed.

Lemma update_nth_twice {A} (f g : A -> A) (k : nat) (l : list A) :
  update_nth k f (update_nth k g l) = update_nth k (fun x => f (g x)) l.
Proof.
  revert k. induction l as [| x r IH]; intros [| k]; cbn;
    rewrite ?IH; reflexivity.
Qed.

Lemma nth_error_update_nth {A} (f : A -> A) (k : nat) (l : list A) :
  nth_error (update_nth k f l) k = option_map f (nth_error l k).
Proof.
  revert k. induction l as [| x r IH]; intros [| k]; cbn; auto.
Qed.

Lemma update_at_ext (f g : node -> node) (p : path) :
  (forall x, f x = g x) -> forall n, update_at p f n = update_at p g n.
Proof.
  intro H. induction p as [| k p IH]; intro n; cbn; [ apply H | ].
  destruct n as [s | i t e c ks]; [ reflexivity | ].
  f_equal. now apply update_nth_ext.
Qed.

Lemma update_at_twice (f g : node -> node) (p : path) :
  forall n, update_at p f (update_at p g n)
            = update_at p (fun x => f (g x)) n.
Proof.
  induction p as [| k p IH]; intro n; cbn; [ reflexivity | ].
  destruct n as [s | i t e c ks]; [ reflexivity | ].
  f_equal. rewrite update_nth_twice. now apply update_nth_ext.
Qed.

Lemma update_at_app (f : node -> node) (p q : path) :
  forall n, update_at (p ++ q)%list f n = update_at p (update_at q f) n.
Proof.
  induction p as [| k p IH]; intro n; cbn; [ reflexivity | ].
  destruct n as [s | i t e c ks]; [ | f_equal; now apply update_nth_ext ].
  now destruct q.
Qed.

Lemma get_at_update_at (f : node -> node) (p : path) :
  forall n, get_at p (update_at p f n) = option_map f (get_at p n).
Proof.
  induction p as [| k p IH]; intro n; cbn; [ reflexivity | ].
  destruct n as [s | i t e c ks]; [ reflexivity | ].
  rewrite nth_error_update_nth.
  destruct (nth_error ks k); cbn; [ apply IH | reflexivity ].
Qed.

(** Only the node found at [p] matters to an update at [p]. *)
Lemma update_at_const (f : node -> node) (p : path) :
  forall n h, get_at p n = Some h ->
              update_at p f n = update_at p (fun _ => f h) n.
Proof.
  induction p as [| k p IH]; intros n h H; cbn in *.
  - now injection H as ->.
  - destruct n as [s | i t e c ks]; [ discriminate | ]. f_equal.
    destruct (nth_error ks k) as [x |] eqn:E; [ | discriminate ].
    clear - IH E H. revert k E.
    induction ks as [| y r IHr]; intros [| k] E; cbn in *; try discriminate.
    + injection E as ->. f_equal. now apply IH.
    + f_equal. now apply IHr.
Qed.

Lemma erase_update_at (f g : node -> node) (p : path) :
  forall n h, get_at p n = Some h -> erase (f h) = erase (g h) ->
              erase (update_at p f n) = erase (update_at p g n).
Proof.
  induction p as [| k p IH]; intros n h H E; cbn in *.
  - now injection H as ->.
  - destruct n as [s | i t e c ks]; [ discriminate | ]. cbn. f_equal.
    destruct (nth_error ks k) as [x |] eqn:Ek; [ | discriminate ].
    clear - IH Ek H E. revert k Ek.
    induction ks as [| y r IHr]; intros [| k] Ek; cbn in *; try discriminate.
    + injection Ek as ->. f_equal. now apply (IH x h).
    + f_equal. now apply IHr.
Qed.

Lemma scan_id_update (i : string) (f : node -> node) (l : list node) :
  Forall (fun x => forall p, find_id i x = Some p ->
                             find_id i (update_at p f x) = Some p) l ->
  forall k q, scan_id i l k = Some q ->
              exists j p, q = (k + j) :: p
                          /\ scan_id i (update_nth j (update_at p f) l) k
                             = Some q.
Proof.
  induction 1 as [| x r Hx _ IH]; intros k q Hq; cbn in Hq; [ discriminate | ].
  destruct (find_id i x) as [p0 |] eqn:E.
  - injection Hq as <-. exists 0, p0. rewrite Nat.add_0_r.
    split; [ reflexivity | ]. cbn. now rewrite (Hx p0 eq_refl).
  - destruct (IH (S k) q Hq) as (j & p & -> & Hs). exists (S j), p.
    split; [ f_equal; lia | ]. cbn. rewrite E.
    replace (k + S j) with (S k + j) by lia. exact Hs.
Qed.

(** An update at the element found by [find_id], or below it, that keeps
    its [id], does not change what [find_id] finds. *)
Lemma find_id_update_at (i : string) (f : node -> node) :
  keeps_eid f ->
  forall n p, find_id i n = Some p -> find_id i (update_at p f n) = Some p.
Proof.
  intro Hf.
  induction n as [s | n0 t e c ks IH] using node_nested_ind; intros p Hp.
  - discriminate.
  - rewrite find_id_elem in Hp. destruct (e =? i) eqn:E.
    + injection Hp as <-. cbn [update_at].
      specialize (Hf (Elem n0 t e c ks)). cbn in Hf.
      destruct (f (Elem n0 t e c ks)) as [s | n1 t1 e1 c1 ks1];
        [ discriminate | ].
      injection Hf as ->. rewrite find_id_elem. now rewrite E.
    + destruct (scan_id_update i f ks IH 0 p Hp) as (j & p' & -> & Hs).
      cbn [Nat.add update_at]. rewrite find_id_elem, E. exact Hs.
Qed.

Lemma query_below_none (i : string) (want : list string) :
  forall n, find_id i n = None -> query_below i want false n = None.
Proof.
  induction n as [s | n0 t e c ks IH] using node_nested_ind; intro H.
  - reflexivity.
  - rewrite find_id_elem in H. rewrite query_below_elem.
    destruct (e =? i); [ discriminate | ]. cbn [orb].
    revert H. generalize 0.
    induction IH as [| x r Hx _ IHr]; intros k H; [ reflexivity | ].
    cbn in H |- *. destruct (find_id i x) eqn:E; [ discriminate | ].
    destruct x as [s | n1 t1 e1 c1 ks1]; [ now apply IHr | ].
    rewrite (Hx eq_refl). now apply IHr.
Qed.

Lemma query_below_inside (i : string) (want : list string) :
  forall n, query_below i want true n = query want n.
Proof.
  induction n as [s | n0 t e c ks IH] using node_nested_ind.
  - reflexivity.
  - rewrite query_below_elem, query_elem. cbn [orb]. generalize 0.
    induction IH as [| x r Hx _ IHr]; intro k; [ reflexivity | ].
    cbn. destruct x as [s | n1 t1 e1 c1 ks1]; [ apply IHr | ].
    rewrite Hx, IHr. reflexivity.
Qed.

Lemma scan_id_found (i : string) (want : list string) (l : list node) :
  forall k ph, scan_id i l k = Some ph ->
    exists j p x, ph = (k + j) :: p /\ nth_error l j = Some x
                  /\ find_id i x = Some p
                  /\ forall r, query_below i want false x = Some r ->
                               scan_below i want false l k
                               = Some ((k + j) :: r).
Proof.
  induction l as [| y l IH]; intros k ph H; cbn in H; [ discriminate | ].
  destruct (find_id i y) as [p0 |] eqn:E.
  - injection H as <-. exists 0, p0, y. rewrite Nat.add_0_r.
    repeat split; try assumption. intros r Hr. cbn.
    destruct y as [s | n1 t1 e1 c1 ks1]; [ discriminate | ].
    now rewrite Hr.
  - destruct (IH (S k) ph H) as (j & p & x & -> & Hn & Hx & Hb).
    exists (S j), p, x. replace (k + S j) with (S k + j) by lia.
    repeat split; try assumption. intros r Hr. cbn.
    destruct y as [s | n1 t1 e1 c1 ks1]; [ now apply Hb | ].
    rewrite (query_below_none i want _ E). now apply Hb.
Qed.

(** [document.querySelector('#i .c')] finds what [querySelector('.c')]
    finds below the element that [getElementById(i)] returns. *)
Lemma query_below_found (i : string) (want : list string) (q : path) :
  forall n ph h,
    find_id i n = Some ph -> get_at ph n = Some h -> query want h = Some q ->
    query_below i want false n = Some (ph ++ q)%list.
Proof.
  induction n as [s | n0 t e c ks IH] using node_nested_ind;
    intros ph h Hf Hg Hq.
  - discriminate.
  - rewrite find_id_elem in Hf. rewrite query_below_elem.
    destruct (e =? i); cbn [orb].
    + injection Hf as <-. cbn in Hg. injection Hg as <-.
      rewrite query_elem in Hq.
      transitivity (scan_query want ks 0); [ | exact Hq ]. generalize 0.
      clear. induction ks as [| x r IHr]; intro k; [ reflexivity | ].
      cbn. destruct x as [s | n1 t1 e1 c1 ks1]; [ apply IHr | ].
      rewrite query_below_inside, IHr. reflexivity.
    + destruct (scan_id_found i want ks 0 ph Hf)
        as (j & p & x & -> & Hn & Hx & Hb).
      cbn [Nat.add] in *. cbn in Hg. rewrite Hn in Hg.
      apply Hb. rewrite Forall_forall in IH.
      apply (IH x (nth_error_In _ _ Hn) p h); assumption.
Qed.

(** ** The header of the server view *)

(** ** Text without markup *)

Lemma span_of_plain (s : string) :
  plain s = true -> Markup.span_of text_char s = (s, "").
Proof.
  induction s as [| c r IH]; [ reflexivity | ].
  cbn [plain Markup.span_of]. intro H. apply andb_prop in H as [Hc Hr].
  now rewrite Hc, (IH Hr).
Qed.

(** Text without markup is parsed into one text node, and into none when
    it is empty. *)
Lemma parse_html_plain (s : string) :
  plain s = true -> parse_html s = txt s.
Proof.
  intro H. unfold parse_html, Markup.closed.
  destruct s as [| c r]; [ reflexivity | ].
  cbn [Markup.nodes String.length].
  assert (Hc : text_char c = true)
    by (cbn [plain] in H; now apply andb_prop in H).
  assert (Hlt : Ascii.eqb c "<" = false).
  { revert Hc. unfold text_char. cbn [existsb].
    destruct (Ascii.eqb c "<"); [ discriminate | reflexivity ]. }
  rewrite Hlt, (span_of_plain _ H). cbn [String.eqb].
  destruct (String.length r); reflexivity.
Qed.

Lemma plain_app (a b : string) : plain (a ++ b) = plain a && plain b.
Proof.
  induction a as [| c a IH]; [ reflexivity | ].
  cbn [append plain]. now rewrite IH, andb_assoc.
Qed.

Lemma plain_header_fields (server : value) :
  plain_header server = true ->
  parse_html (to_string (field server "name") ++ " ")
  = [HText (to_string (field server "name") ++ " ")]
  /\ parse_html (to_string (field server "state"))
     = txt (to_string (field server "state"))
  /\ parse_html (info_text server) = txt (info_text server).
Proof.
  unfold plain_header. intro H.
  apply andb_prop in H as [H Hi]. apply andb_prop in H as [Hn Hs].
  split; [ | split; now apply parse_html_plain ].
  rewrite parse_html_plain by (rewrite plain_app, Hn; reflexivity).
  unfold txt.
  destruct (to_string (field server "name")); reflexivity.
Qed.

Lemma prop_readable (server : value) (k : string) :
  readable server = true -> prop server k = Some (field server k).
Proof. unfold field. now destruct server. Qed.

Lemma badge_classes_readable (server : value) :
  readable server = true ->
  badge_classes server
  = Some ["badge"; if runs server then "badge-success" else "badge-error"].
Proof.
  intro H. unfold badge_classes, runs. now rewrite (prop_readable _ _ H).
Qed.

Lemma info_line_readable (server : value) :
  readable server = true -> info_line server = Some (info_text server).
Proof.
  intro H. unfold info_line, info_text. now rewrite !(prop_readable _ _ H).
Qed.

Lemma header_buttons_readable (server : value) :
  readable server = true ->
  header_buttons server = Some (buttons_html (runs server)).
Proof.
  intro H. unfold header_buttons, runs. now rewrite (prop_readable _ _ H).
Qed.

Lemma scan_id_nonempty (i : string) (l : list node) :
  forall k p, scan_id i l k = Some p -> p <> [].
Proof.
  induction l as [| x r IH]; intros k p H; cbn in H; [ discriminate | ].
  destruct (find_id i x); [ injection H as <-; discriminate | ].
  now apply (IH (S k)).
Qed.

(** An element other than [#app] is found strictly below the root. *)
Lemma found_below_root (i : string) (w : world) (p : path) :
  (i =? "app") = false -> find_id i (root w) = Some p -> p <> [].
Proof.
  intros Hi H. unfold root in H. rewrite find_id_elem in H.
  rewrite String.eqb_sym, Hi in H. now apply scan_id_nonempty in H.
Qed.

Lemma is_app_root (w : world) : is_app (root w).
Proof. cbn. auto. Qed.

Lemma is_app_update_at (p : path) (f : node -> node) (n : node) :
  p <> [] -> is_app n -> is_app (update_at p f n).
Proof.
  intros Hp Hn. destruct p as [| k p]; [ contradiction | ].
  now destruct n.
Qed.

Lemma root_put_app (n : node) (f : nat) (w : world) :
  is_app n -> root (put_root n f w) = n.
Proof.
  destruct n as [s | i t e c ks]; [ contradiction | ].
  intros (-> & -> & -> & ->). reflexivity.
Qed.

Lemma put_root_twice (n n' : node) (f f' : nat) (w : world) :
  put_root n' f' (put_root n f w) = put_root n' f' w.
Proof. reflexivity. Qed.

Lemma fresh_put_root (n : node) (f : nat) (w : world) :
  fresh (put_root n f w) = f.
Proof. reflexivity. Qed.

(** [find_id_update_at] with the condition on [f] asked only at the node
    that is replaced. *)
Lemma find_id_update_found (i : string) (f : node -> node) (n : node)
      (p : path) (h : node) :
  find_id i n = Some p -> get_at p n = Some h -> eid_of (f h) = eid_of h ->
  find_id i (update_at p f n) = Some p.
Proof.
  intros Hf Hg He.
  pose (same := fun m => match eid_of m, eid_of h with
                         | Some a, Some b => a =? b
                         | None, None => true
                         | _, _ => false
                         end).
  pose (g := fun m => if same m then f h else m).
  assert (Hsame : forall m, same m = true -> eid_of m = eid_of h).
  { intro m. unfold same. destruct (eid_of m), (eid_of h); try discriminate.
    - intro E. apply String.eqb_eq in E. now subst.
    - reflexivity. }
  assert (Hkeeps : keeps_eid g).
  { intro m. unfold g. destruct (same m) eqn:E; [ | reflexivity ].
    rewrite He. symmetry. now apply Hsame. }
  assert (Hgh : g h = f h).
  { unfold g. replace (same h) with true; [ reflexivity | ].
    unfold same.
    destruct (eid_of h); [ now rewrite String.eqb_refl | reflexivity ]. }
  rewrite (update_at_const f p n h Hg), <- Hgh.
  rewrite <- (update_at_const g p n h Hg).
  now apply find_id_update_at.
Qed.

(** The header after a replacement: it is found where it was. *)
Lemma with_header_lookup (w : world) (ph : path) (h h' : node) (fr : nat) :
  find_id "server-header" (root w) = Some ph ->
  get_at ph (root w) = Some h ->
  eid_of h' = eid_of h ->
  find_id "server-header" (root (with_header ph h' fr w)) = Some ph
  /\ get_at ph (root (with_header ph h' fr w)) = Some h'.
Proof.
  intros Hf Hg He.
  assert (Hne : ph <> []) by now apply (found_below_root _ w ph) in Hf.
  unfold with_header. fold (put_root (update_at ph (fun _ => h') (root w)) fr w).
  rewrite root_put_app by (apply is_app_update_at; [ exact Hne | apply is_app_root ]).
  split.
  - now apply (find_id_update_found _ _ _ _ h).
  - rewrite get_at_update_at, Hg. reflexivity.
Qed.

Lemma header_queries (hid i1 i2 i3 i4 i5 i6 : nat) (title : string)
      (running : bool) (status info : string) (buttons : list node) :
  let h := header_dom hid i1 i2 i3 i4 i5 i6 title running status info buttons in
  query ["badge"] h = Some [0; 0; 0; 1]
  /\ query ["flex"; "gap-1"] h = Some [0; 1]
  /\ query ["text-muted"] h = Some [0; 0; 1].
Proof.
  unfold header_dom, text_kids.
  now destruct running, (status =? ""), (info =? "").
Qed.

Lemma update_header_patches (w : world) (server : value) (ph : path)
      (hid i1 i2 i3 i4 i5 i6 : nat) (title : string) (running : bool)
      (status info : string) (buttons : list node) :
  find_id "server-header" (root w) = Some ph ->
  get_at ph (root w)
  = Some (header_dom hid i1 i2 i3 i4 i5 i6 title running status info buttons) ->
  readable server = true ->
  update_header server w
  = (with_header ph
       (header_dom hid i1 i2 i3 i4 i5 i6 title (runs server)
          (text_of (field server "state")) (info_text server)
          (fst (create_all (buttons_html (runs server)) (fresh w))))
       (snd (create_all (buttons_html (runs server)) (fresh w))) w,
     Ok tt).
Proof.
  intros Hfind Hget Hread.
  assert (Hne : ph <> []) by (now apply (found_below_root _ w ph) in Hfind).
  assert (N : forall q, (ph ++ q)%list <> [])
    by (intros q E; apply app_eq_nil in E; tauto).
  destruct (header_queries hid i1 i2 i3 i4 i5 i6 title running status info
              buttons) as (Q1 & Q2 & Q3).
  unfold update_header, bind at 1, getElementById.
  rewrite Hfind, Hget, Q1, Q2, Q3.
  rewrite (badge_classes_readable _ Hread), (info_line_readable _ Hread),
    (header_buttons_readable _ Hread).
  unfold read. rewrite (prop_readable _ _ Hread).
  cbn [lift below Nat.eqb andb orb].
  unfold bind, ret, set_className, set_textContent, set_innerHTML, act.
  rewrite !root_put_app
    by (repeat (apply is_app_update_at; [ apply N | ]); apply is_app_root).
  rewrite !put_root_twice, !fresh_put_root.
  unfold put_root, with_header. f_equal. f_equal. f_equal.
  rewrite !update_at_app, !update_at_twice.
  rewrite (update_at_const _ ph _ _ Hget).
  apply update_at_ext. intros _. reflexivity.
Qed.

Lemma update_header_unreadable (w : world) (server : value) :
  readable server = false -> run (update_header server) w = w.
Proof.
  intro H.
  assert (B : badge_classes server = None) by now destruct server.
  assert (M : header_markup server = None) by now destruct server.
  unfold run, update_header, bind at 1, getElementById.
  destruct (find_id "server-header" (root w)) as [ph |]; [ | reflexivity ].
  repeat match goal with
         | |- context [match query ?c ?h with _ => _ end] =>
             destruct (query c h)
         end; unfold bind; rewrite ?B, ?M; reflexivity.
Qed.

(** The first render of the header (lines 214-229), from a snapshot whose
    fields hold no markup. *)
Lemma update_header_mounts (w : world) (server : value) (ph : path)
      (hid : nat) :
  find_id "server-header" (root w) = Some ph ->
  get_at ph (root w) = Some (Elem hid "div" "server-header" [] []) ->
  readable server = true ->
  plain_header server = true ->
  exists i1 i2 i3 i4 i5 i6 buttons fr,
    update_header server w
    = (with_header ph
         (header_dom hid i1 i2 i3 i4 i5 i6
            (to_string (field server "name") ++ " ") (runs server)
            (to_string (field server "state")) (info_text server) buttons)
         fr w, Ok tt).
Proof.
  intros Hfind Hget Hread Hplain.
  assert (Hne : ph <> []) by (now apply (found_below_root _ w ph) in Hfind).
  destruct (plain_header_fields server Hplain) as (Pn & Ps & Pi).
  unfold update_header, bind at 1, getElementById.
  rewrite Hfind, Hget. cbn [query].
  unfold header_markup.
  rewrite (badge_classes_readable _ Hread), (info_line_readable _ Hread),
    (header_buttons_readable _ Hread), !(prop_readable _ _ Hread).
  rewrite Pn, Ps, Pi. cbn [app].
  cbn [lift]. unfold bind, ret, set_innerHTML, act.
  exists (fresh w), (1 + fresh w), (2 + fresh w), (3 + fresh w),
    (4 + fresh w), (5 + fresh w),
    (fst (create_all (buttons_html (runs server)) (6 + fresh w))),
    (snd (create_all (buttons_html (runs server)) (6 + fresh w))).
  unfold put_root, with_header. f_equal.
  rewrite (update_at_const _ ph _ _ Hget).
  unfold header_dom, text_kids, txt, buttons_html.
  destruct (runs server), (to_string (field server "state") =? ""),
    (info_text server =? ""); cbn; reflexivity.
Qed.

Lemma optimistic_badge_mounted (w : world) (ph : path)
      (hid i1 i2 i3 i4 i5 i6 : nat) (title : string) (running : bool)
      (status info : string) (buttons : list node)
      (label : string) (success : bool) :
  find_id "server-header" (root w) = Some ph ->
  get_at ph (root w)
  = Some (header_dom hid i1 i2 i3 i4 i5 i6 title running status info buttons) ->
  optimistic_badge label
    ["badge"; if success then "badge-success" else "badge-error"] w
  = (with_header ph
       (header_dom hid i1 i2 i3 i4 i5 i6 title success label info buttons)
       (fresh w) w, Ok tt).
Proof.
  intros Hfind Hget.
  assert (Hne : ph <> []) by (now apply (found_below_root _ w ph) in Hfind).
  assert (N : forall q, (ph ++ q)%list <> [])
    by (intros q E; apply app_eq_nil in E; tauto).
  destruct (header_queries hid i1 i2 i3 i4 i5 i6 title running status info
              buttons) as (Q1 & _ & _).
  unfold optimistic_badge, bind at 1.
  rewrite (query_below_found _ _ _ _ _ _ Hfind Hget Q1).
  unfold bind, ret, set_className, set_textContent, act.
  rewrite !root_put_app
    by (repeat (apply is_app_update_at; [ apply N | ]); apply is_app_root).
  rewrite !put_root_twice, !fresh_put_root.
  unfold put_root, with_header. f_equal. f_equal. f_equal.
  rewrite !update_at_app, !update_at_twice.
  rewrite (update_at_const _ ph _ _ Hget).
  apply update_at_ext. intros _. reflexivity.
Qed.

Lemma same_dom_refl (w : world) : same_dom w w.
Proof. now unfold same_dom. Qed.

Lemma same_dom_trans (a b c : world) :
  same_dom a b -> same_dom b c -> same_dom a c.
Proof. unfold same_dom. intros (H1 & H2) (H3 & H4). split; congruence. Qed.

Ltac dom_leaf := unfold same_dom; cbn; auto.
Ltac dom_frame := frame_with same_dom_refl same_dom_trans dom_leaf.

Lemma loadServerData_same_dom (f : bool) : keeps same_dom (loadServerData f).
Proof. unfold loadServerData. dom_frame. Qed.

Lemma same_dom_root (w w' : world) : same_dom w w' -> root w' = root w.
Proof. intros (H & _). unfold root. now rewrite H. Qed.

Lemma request_k_delivers (v : value) (w : world) :
  request_k (delivers v) w = (w, Ok v).
Proof. reflexivity. Qed.

(** A poll tick that delivers a readable snapshot to a mounted header. *)
Lemma tick_patches (w : world) (server : value) (ph : path)
      (hid i1 i2 i3 i4 i5 i6 : nat) (title : string) (running : bool)
      (status info : string) (buttons : list node) :
  find_id "server-header" (root w) = Some ph ->
  get_at ph (root w)
  = Some (header_dom hid i1 i2 i3 i4 i5 i6 title running status info buttons) ->
  readable server = true ->
  run (loadServerData_k false (delivers server)) w
  = with_header ph
      (header_dom hid i1 i2 i3 i4 i5 i6 title (runs server)
         (text_of (field server "state")) (info_text server)
         (fst (create_all (buttons_html (runs server)) (fresh w))))
      (snd (create_all (buttons_html (runs server)) (fresh w)))
      (run (set_serverData server) w).
Proof.
  intros Hfind Hget Hread.
  set (w1 := run (set_serverData server) w).
  unfold run, loadServerData_k, detached, try_catch, bind at 1 2 3.
  rewrite request_k_delivers.
  change (set_serverData server w) with (w1, @Ok unit tt). cbv iota beta.
  rewrite (update_header_patches w1 server ph hid i1 i2 i3 i4 i5 i6 title
             running status info buttons Hfind Hget Hread).
  reflexivity.
Qed.

Lemma update_at_id (p : path) : forall n, update_at p (fun x => x) n = n.
Proof.
  induction p as [| k p IH]; intro n; cbn; [ reflexivity | ].
  destruct n as [s | i t e c ks]; [ reflexivity | ]. f_equal.
  revert k. induction ks as [| x r IHr]; intros [| k]; cbn;
    rewrite ?IH, ?IHr; reflexivity.
Qed.

Lemma visible_with_header_same (w : world) (ph : path) (h h' : node)
      (fr : nat) :
  get_at ph (root w) = Some h -> erase h' = erase h ->
  visible (with_header ph h' fr w) = visible w.
Proof.
  intros Hg He.
  assert (E := erase_update_at (fun _ => h') (fun x => x) ph (root w) h Hg He).
  rewrite update_at_id in E.
  unfold visible, with_header. cbn [body set_dom].
  destruct (update_at ph (fun _ => h') (root w)); cbn in *;
    [ discriminate | now injection E ].
Qed.

Lemma tick_unreadable (w : world) (server : value) :
  readable server = false ->
  visible (run (loadServerData_k false (delivers server)) w) = visible w.
Proof.
  intro H. set (w1 := run (set_serverData server) w).
  unfold run, loadServerData_k, detached, try_catch, bind at 1 2 3.
  rewrite request_k_delivers.
  change (set_serverData server w) with (w1, @Ok unit tt). cbv iota beta.
  assert (E := update_header_unreadable w1 server H). unfold run in E.
  destruct (update_header server w1) as [w2 [[] | e]]; cbn in E; subst w2;
    reflexivity.
Qed.

Lemma erase_header_dom (hid i1 i2 i3 i4 i5 i6 j1 j2 j3 j4 j5 j6 : nat)
      (title : string) (running : bool) (status info : string)
      (buttons buttons' : list node) :
  map erase buttons = map erase buttons' ->
  erase (header_dom hid i1 i2 i3 i4 i5 i6 title running status info buttons)
  = erase (header_dom hid j1 j2 j3 j4 j5 j6 title running status info
             buttons').
Proof. intro H. unfold header_dom. cbn [erase map]. now rewrite H. Qed.

Lemma text_content_text_kids (i : nat) (t e : string) (c : list string)
      (s : string) :
  text_content (Elem i t e c (text_kids s)) = s.
Proof.
  unfold text_kids. destruct (s =? "") eqn:E; cbn.
  - apply String.eqb_eq in E. now subst.
  - reflexivity.
Qed.

Lemma displayed_status_mounted (w : world) (ph : path)
      (hid i1 i2 i3 i4 i5 i6 : nat) (title : string) (running : bool)
      (status info : string) (buttons : list node) :
  find_id "server-header" (root w) = Some ph ->
  get_at ph (root w)
  = Some (header_dom hid i1 i2 i3 i4 i5 i6 title running status info buttons) ->
  displayed_status w = Some status.
Proof.
  intros Hfind Hget. unfold displayed_status. rewrite Hfind, Hget.
  destruct (header_queries hid i1 i2 i3 i4 i5 i6 title running status info
              buttons) as (-> & _ & _).
  cbn [header_dom get_at nth_error option_map]. f_equal.
  apply text_content_text_kids.
Qed.

(** [handleStop] after a successful stop request: the badge shows
    "stopping" and a refresh is requested. *)
Lemma handleStop_k_mounted (w : world) (r : response) (ph : path)
      (hid i1 i2 i3 i4 i5 i6 : nat) (title : string) (running : bool)
      (status info : string) (buttons : list node) :
  find_id "server-header" (root w) = Some ph ->
  get_at ph (root w)
  = Some (header_dom hid i1 i2 i3 i4 i5 i6 title running status info buttons) ->
  ok r = true ->
  let w' := run (handleStop_k (Responds r)) w in
  find_id "server-header" (root w') = Some ph
  /\ get_at ph (root w')
     = Some (header_dom hid i1 i2 i3 i4 i5 i6 title false "stopping" info
               buttons).
Proof.
  intros Hfind Hget Hok w'.
  assert (E : root w'
              = root (with_header ph
                        (header_dom hid i1 i2 i3 i4 i5 i6 title false
                           "stopping" info buttons) (fresh w) w)).
  { unfold w', run, handleStop_k, try_catch, bind at 1 2.
    rewrite (request_k_2xx r w Hok).
    rewrite (optimistic_badge_mounted w ph hid i1 i2 i3 i4 i5 i6 title running
               status info buttons "stopping" false Hfind Hget).
    apply same_dom_root.
    match goal with
    | |- same_dom ?a (fst (let (_, _) := ?m ?a in _)) =>
        assert (F : keeps same_dom m)
          by (apply (keeps_detached _ same_dom_refl same_dom_trans),
                loadServerData_same_dom);
        specialize (F a); destruct (m a) as [w2 [[] | e]]; exact F
    end. }
  rewrite E.
  apply (with_header_lookup w ph _
           (header_dom hid i1 i2 i3 i4 i5 i6 title false "stopping" info
              buttons) (fresh w) Hfind Hget eq_refl).
Qed.

(** A poll tick leaves the header in the shape it found it in. *)
Lemma tick_keeps_mounted (w : world) (server : value) (ph : path) (h : node) :
  find_id "server-header" (root w) = Some ph ->
  get_at ph (root w) = Some h ->
  mounted h ->
  let w' := run (loadServerData_k false (delivers server)) w in
  find_id "server-header" (root w') = Some ph
  /\ exists h', get_at ph (root w') = Some h' /\ mounted h'.
Proof.
  intros Hfind Hget Hm w'. subst w'.
  destruct (readable server) eqn:R.
  - destruct Hm as [hid i1 i2 i3 i4 i5 i6 title running status info buttons].
    rewrite (tick_patches w server ph _ _ _ _ _ _ _ _ _ _ _ _ Hfind Hget R).
    match goal with
    | |- context [with_header ph ?h1 ?f1 ?w1] =>
        destruct (with_header_lookup w1 ph _ h1 f1 Hfind Hget eq_refl)
          as (Hfind1 & Hget1)
    end.
    split; [ exact Hfind1 | ]. eexists. split; [ exact Hget1 | constructor ].
  - set (w1 := run (set_serverData server) w).
    assert (E : root (run (loadServerData_k false (delivers server)) w)
                = root w).
    { unfold run, loadServerData_k, detached, try_catch, bind at 1 2 3.
      rewrite request_k_delivers.
      change (set_serverData server w) with (w1, @Ok unit tt). cbv iota beta.
      assert (U := update_header_unreadable w1 server R). unfold run in U.
      destruct (update_header server w1) as [w2 [[] | e]]; cbn in U; subst w2;
        reflexivity. }
    rewrite E. split; [ exact Hfind | ].
    exists h. split; [ exact Hget | exact Hm ].
Qed.

(** The header after its first render from a snapshot without markup. *)
Lemma first_render_mounts (w : world) (first : value) (ph : path) (hid : nat) :
  find_id "server-header" (root w) = Some ph ->
  get_at ph (root w) = Some (Elem hid "div" "server-header" [] []) ->
  readable first = true ->
  plain_header first = true ->
  let w0 := run (update_header first) w in
  find_id "server-header" (root w0) = Some ph
  /\ displayed_status w0 = Some (to_string (field first "state"))
  /\ exists h, get_at ph (root w0) = Some h /\ mounted h.
Proof.
  intros Hfind Hget R P w0.
  destruct (update_header_mounts w first ph hid Hfind Hget R P)
    as (i1 & i2 & i3 & i4 & i5 & i6 & buttons & fr & E).
  unfold w0, run. rewrite E. cbn [fst].
  match goal with
  | |- context [with_header ph ?h1 fr w] =>
      destruct (with_header_lookup w ph _ h1 fr Hfind Hget eq_refl)
        as (Hfind1 & Hget1)
  end.
  split; [ exact Hfind1 | ].
  split; [ exact (displayed_status_mounted _ ph _ _ _ _ _ _ _ _ _ _ _ _
                    Hfind1 Hget1) | ].
  eexists. split; [ exact Hget1 | constructor ].
Qed.







(** ** The dashboard *)

Lemma hfind_id_elem (i t e : string) (c : list string) (ks : list html) :
  hfind_id i (HElem t e c ks) = if e =? i then Some [] else hscan_id i ks 0.
Proof. reflexivity. Qed.

(** [find_id] only looks at what is visible. *)
Lemma find_id_erase (i : string) :
  forall n, find_id i n = hfind_id i (erase n).
Proof.
  induction n as [s | n0 t e c ks IH] using node_nested_ind.
  - reflexivity.
  - cbn [erase]. rewrite find_id_elem, hfind_id_elem.
    destruct (e =? i); [ reflexivity | ]. generalize 0.
    induction IH as [| x r Hx _ IHr]; intro k; [ reflexivity | ].
    cbn. rewrite <- Hx. destruct (find_id i x); [ reflexivity | apply IHr ].
Qed.

Lemma map_update_nth {A B} (g : A -> B) (f : A -> A) (f' : B -> B) (k : nat)
      (l : list A) :
  (forall x, In x l -> g (f x) = f' (g x)) ->
  map g (update_nth k f l) = update_nth k f' (map g l).
Proof.
  revert k. induction l as [| x r IH]; intros k H; [ now destruct k | ].
  destruct k as [| k]; cbn.
  - f_equal. apply H. now left.
  - f_equal. apply IH. intros y Hy. apply H. now right.
Qed.

Lemma erase_update_at_kids (ks : list node) (p : path) :
  forall n, erase (update_at p (set_kids ks) n)
            = hupdate_at p (hset_kids (map erase ks)) (erase n).
Proof.
  induction p as [| k p IH]; intro n.
  - now destruct n.
  - destruct n as [s | i t e c l]; [ reflexivity | ].
    cbn [update_at erase hupdate_at]. f_equal.
    apply map_update_nth. intros x _. apply IH.
Qed.

Lemma erase_root (w : world) : erase (root w) = app_view (visible w).
Proof. reflexivity. Qed.

Lemma nth_error_update_nth_other {A} (f : A -> A) (j k : nat) (l : list A) :
  j <> k -> nth_error (update_nth k f l) j = nth_error l j.
Proof.
  revert j k. induction l as [| x r IH]; intros [| j] [| k] H; cbn; auto.
  contradiction.
Qed.

(** Replacing the children of the element at [q] keeps the identity of
    every element that is not below it. *)
Lemma nid_at_update_at (ks : list node) :
  forall p q n, below q p = false ->
                nid_at p (update_at q (set_kids ks) n) = nid_at p n.
Proof.
  unfold nid_at.
  induction p as [| a p IH]; intros q n H.
  - cbn. destruct q as [| b q]; destruct n; reflexivity.
  - destruct q as [| b q]; [ discriminate | ]. cbn in H.
    destruct n as [s | i t e c l]; [ reflexivity | ].
    cbn [update_at get_at].
    destruct (Nat.eqb_spec b a) as [-> | Hne].
    + rewrite nth_error_update_nth. cbn in H.
      destruct (nth_error l a) as [x |]; cbn; [ now apply IH | reflexivity ].
    + rewrite nth_error_update_nth_other by congruence. reflexivity.
Qed.

Lemma dashboard_lookup (total running cpu : string) (rows modal : list html) :
  let v := app_view (dashboard_view total running cpu rows modal) in
  hfind_id "stat-total" v = Some [0; 1; 1; 0; 1]
  /\ hfind_id "stat-running" v = Some [0; 1; 1; 1; 1]
  /\ hfind_id "stat-cpu" v = Some [0; 1; 1; 2; 1]
  /\ hfind_id "servers-list" v = Some [0; 1; 2].
Proof.
  unfold dashboard_view, stat_shown, txt.
  destruct (total =? ""), (running =? ""), (cpu =? "");
    repeat split; reflexivity.
Qed.

Lemma dashboard_update (total running cpu : string) (rows modal : list html) :
  let v := app_view (dashboard_view total running cpu rows modal) in
  (forall s, hupdate_at [0; 1; 1; 0; 1] (hset_kids (txt s)) v
             = app_view (dashboard_view s running cpu rows modal))
  /\ (forall s, hupdate_at [0; 1; 1; 1; 1] (hset_kids (txt s)) v
                = app_view (dashboard_view total s cpu rows modal))
  /\ (forall s, hupdate_at [0; 1; 1; 2; 1] (hset_kids (txt s)) v
                = app_view (dashboard_view total running s rows modal))
  /\ (forall l, hupdate_at [0; 1; 2] (hset_kids l) v
                = app_view (dashboard_view total running cpu l modal)).
Proof. repeat split; reflexivity. Qed.

Lemma bind_ok {A B} (m : js A) (k : A -> js B) (w w' : world) (a : A) :
  m w = (w', Ok a) -> bind m k w = k a w'.
Proof. intro H. unfold bind. now rewrite H. Qed.

Lemma app_view_inj (a b : list html) : app_view a = app_view b -> a = b.
Proof. intro H. now injection H. Qed.

Lemma erase_text_kids (v : value) :
  map erase (if text_of v =? "" then [] else [Text (text_of v)])
  = txt (text_of v).
Proof. unfold txt. now destruct (text_of v =? ""). Qed.

(** One write into the tree: what it shows and which identities it keeps. *)
Lemma write_kids (w : world) (p : path) (ks : list node) (fr : nat) :
  p <> [] ->
  let w1 := put_root (update_at p (set_kids ks) (root w)) fr w in
  app_view (visible w1)
  = hupdate_at p (hset_kids (map erase ks)) (app_view (visible w))
  /\ (forall q, below p q = false -> nid_at q (root w1) = nid_at q (root w))
  /\ get_at p (root w1) = option_map (set_kids ks) (get_at p (root w))
  /\ fresh w1 = fr.
Proof.
  intros Hp w1.
  assert (E : root w1 = update_at p (set_kids ks) (root w)).
  { unfold w1. apply root_put_app, is_app_update_at;
      [ exact Hp | apply is_app_root ]. }
  split; [ | split; [ | split ] ].
  - rewrite <- !erase_root, E. apply erase_update_at_kids.
  - intros q Hq. rewrite E. now apply nid_at_update_at.
  - rewrite E. apply get_at_update_at.
  - reflexivity.
Qed.

Lemma find_id_visible (i : string) (w : world) :
  find_id i (root w) = hfind_id i (app_view (visible w)).
Proof. now rewrite find_id_erase, erase_root. Qed.

Lemma element_id_at (i : string) (w : world) (p : path) :
  find_id i (root w) = Some p -> element_id i w = nid_at p (root w).
Proof. intro H. unfold element_id, element, nid_at. now rewrite H. Qed.

Lemma create_mono (h : html) : forall n, n <= snd (create h n).
Proof.
  induction h as [s | t e c ks IH] using html_nested_ind; intro n.
  - cbn. lia.
  - rewrite create_elem. cbn [snd].
    assert (H : forall m, m <= snd (create_all ks m)).
    { induction IH as [| x r Hx _ IHr]; intro m; [ cbn; lia | ].
      rewrite create_all_cons. cbn [snd].
      specialize (Hx m). specialize (IHr (snd (create x m))). lia. }
    specialize (H (S n)). lia.
Qed.

(** Every node created for a fragment gets an identity not used before. *)
Lemma create_all_fresh (l : list html) :
  forall n, Forall (fun i => n <= i) (top_nids (fst (create_all l n))).
Proof.
  induction l as [| x r IH]; intro n; [ constructor | ].
  rewrite create_all_cons. cbn [fst top_nids flat_map].
  apply Forall_app. split.
  - destruct x as [s | t e c ks]; [ constructor | ].
    rewrite create_elem. cbn. constructor; [ lia | constructor ].
  - specialize (IH (snd (create x n))). pose proof (create_mono x n) as M.
    unfold top_nids in IH. eapply Forall_impl; [ | exact IH ].
    cbn. intros. lia.
Qed.

Lemma find_id_get_at (i : string) :
  forall n p, find_id i n = Some p ->
              exists j t c ks, get_at p n = Some (Elem j t i c ks).
Proof.
  induction n as [s | n0 t e c ks IH] using node_nested_ind; intros p H.
  - discriminate.
  - rewrite find_id_elem in H. destruct (e =? i) eqn:E.
    + injection H as <-. apply String.eqb_eq in E. subst e.
      now exists n0, t, c, ks.
    + destruct (scan_id_found i [] ks 0 p H) as (j & p' & x & -> & Hn & Hx & _).
      cbn [Nat.add get_at]. rewrite Hn. rewrite Forall_forall in IH.
      apply (IH x (nth_error_In _ _ Hn) p' Hx).
Qed.

(** What [render] shows for the dashboard is [dashboard_view] with the
    placeholders of the template. *)
Lemma layout_dashboard (s : state) :
  currentView s = "dashboard" ->
  layout s
  = dashboard_view "-" "-" "-%"
      [el "div" ["text-muted"] [HText "Loading instances..."]] [].
Proof.
  intro H. unfold layout, renderSidebar, dashboard_view, sidebar_dashboard,
    renderSidebar. rewrite H. reflexivity.
Qed.


(** A tick that runs to its end: what it writes, in the order of lines
    594-598. *)
Lemma dashboard_tick_run :
  forall (w : world) (total running cpu : string) (rows modal : list html)
         (servers stats : value) (cpu' : string) (rows' : list html),
    visible w = dashboard_view total running cpu rows modal ->
    readable stats = true ->
    toFixed1 (field stats "total_cpu_percent") = Some cpu' ->
    server_rows servers = Some rows' ->
    let w' := run (loadDashboardData_k (delivers servers) (delivers stats)) w in
    visible w'
    = dashboard_view (text_of (field stats "total_servers"))
        (text_of (field stats "running_servers")) (cpu' ++ "%") rows' modal
    /\ element_id "stat-total" w' = element_id "stat-total" w
    /\ element_id "stat-running" w' = element_id "stat-running" w
    /\ element_id "servers-list" w' = element_id "servers-list" w
    /\ Forall (fun i => fresh w <= i) (row_ids w').
Proof.
  intros w total running cpu rows modal servers stats cpu' rows'
         Hvis Hread Hcpu Hrows w'.
  set (p1 := [0; 1; 1; 0; 1]). set (p2 := [0; 1; 1; 1; 1]).
  set (p3 := [0; 1; 1; 2; 1]). set (p4 := [0; 1; 2]).
  set (K1 := if text_of (field stats "total_servers") =? "" then []
             else [Text (text_of (field stats "total_servers"))]).
  set (w1 := put_root (update_at p1 (set_kids K1) (root w)) (fresh w) w).
  set (K2 := if text_of (field stats "running_servers") =? "" then []
             else [Text (text_of (field stats "running_servers"))]).
  set (w2 := put_root (update_at p2 (set_kids K2) (root w1)) (fresh w1) w1).
  set (K3 := if text_of (Str (cpu' ++ "%")) =? "" then []
             else [Text (text_of (Str (cpu' ++ "%")))]).
  set (w3 := put_root (update_at p3 (set_kids K3) (root w2)) (fresh w2) w2).
  set (w4 := put_root
               (update_at p4 (set_kids (fst (create_all rows' (fresh w3))))
                  (root w3))
               (snd (create_all rows' (fresh w3))) w3).
  (* what each world shows *)
  destruct (write_kids w p1 K1 (fresh w) ltac:(discriminate))
    as (V1 & I1 & _ & F1).
  fold w1 in V1, I1, F1. unfold K1 in V1.
  rewrite erase_text_kids, Hvis in V1.
  rewrite (proj1 (dashboard_update total running cpu rows modal)) in V1.
  apply app_view_inj in V1.
  destruct (write_kids w1 p2 K2 (fresh w1) ltac:(discriminate))
    as (V2 & I2 & _ & F2).
  fold w2 in V2, I2, F2. unfold K2 in V2.
  rewrite erase_text_kids, V1 in V2.
  rewrite (proj1 (proj2 (dashboard_update _ running cpu rows modal))) in V2.
  apply app_view_inj in V2.
  destruct (write_kids w2 p3 K3 (fresh w2) ltac:(discriminate))
    as (V3 & I3 & _ & F3).
  fold w3 in V3, I3, F3. unfold K3 in V3.
  rewrite erase_text_kids, V2 in V3.
  rewrite (proj1 (proj2 (proj2 (dashboard_update _ _ cpu rows modal)))) in V3.
  apply app_view_inj in V3.
  destruct (write_kids w3 p4 (fst (create_all rows' (fresh w3)))
              (snd (create_all rows' (fresh w3))) ltac:(discriminate))
    as (V4 & I4 & G4 & _).
  fold w4 in V4, I4, G4.
  rewrite erase_create_all, V3 in V4.
  rewrite (proj2 (proj2 (proj2 (dashboard_update _ _ _ rows modal)))) in V4.
  apply app_view_inj in V4. cbn [text_of] in V4.
  (* the lookups *)
  pose proof (find_id_visible "stat-total" w) as L1.
  rewrite Hvis, (proj1 (dashboard_lookup _ _ _ _ _)) in L1.
  pose proof (find_id_visible "stat-running" w1) as L2.
  rewrite V1, (proj1 (proj2 (dashboard_lookup _ _ _ _ _))) in L2.
  pose proof (find_id_visible "stat-cpu" w2) as L3.
  rewrite V2, (proj1 (proj2 (proj2 (dashboard_lookup _ _ _ _ _)))) in L3.
  pose proof (find_id_visible "servers-list" w3) as L4.
  rewrite V3, (proj2 (proj2 (proj2 (dashboard_lookup _ _ _ _ _)))) in L4.
  (* the run *)
  assert (E : w' = w4).
  { unfold w', run, loadDashboardData_k, detached, try_catch.
    rewrite (bind_ok _ _ w w (Ok servers)) by reflexivity.
    rewrite (bind_ok _ _ w w (Ok stats)) by reflexivity.
    rewrite (bind_ok _ _ w w (Some p1))
      by (unfold getElementById; now rewrite L1).
    unfold read. rewrite !(prop_readable _ _ Hread).
    rewrite (bind_ok _ _ w w (field stats "total_servers")) by reflexivity.
    rewrite (bind_ok _ _ w w1 tt) by reflexivity.
    rewrite (bind_ok _ _ w1 w1 (Some p2))
      by (unfold getElementById; now rewrite L2).
    rewrite (bind_ok _ _ w1 w1 (field stats "running_servers")) by reflexivity.
    rewrite (bind_ok _ _ w1 w1 p2) by reflexivity.
    rewrite (bind_ok _ _ w1 w2 tt) by reflexivity.
    rewrite (bind_ok _ _ w2 w2 (Some p3))
      by (unfold getElementById; now rewrite L3).
    rewrite (bind_ok _ _ w2 w2 (field stats "total_cpu_percent")) by reflexivity.
    rewrite (bind_ok _ _ w2 w2 cpu') by now rewrite Hcpu.
    rewrite (bind_ok _ _ w2 w2 p3) by reflexivity.
    rewrite (bind_ok _ _ w2 w3 tt) by reflexivity.
    rewrite (bind_ok _ _ w3 w3 (Some p4))
      by (unfold getElementById; now rewrite L4).
    rewrite (bind_ok _ _ w3 w3 rows') by now rewrite Hrows.
    rewrite (bind_ok _ _ w3 w3 p4) by reflexivity.
    reflexivity. }
  rewrite E. clear E w'.
  assert (Hfresh : fresh w3 = fresh w) by congruence.
  pose proof (find_id_visible "stat-total" w4) as L1'.
  rewrite V4, (proj1 (dashboard_lookup _ _ _ _ _)) in L1'.
  pose proof (find_id_visible "stat-running" w4) as L2'.
  rewrite V4, (proj1 (proj2 (dashboard_lookup _ _ _ _ _))) in L2'.
  pose proof (find_id_visible "servers-list" w4) as L4'.
  rewrite V4, (proj2 (proj2 (proj2 (dashboard_lookup _ _ _ _ _)))) in L4'.
  pose proof (find_id_visible "stat-running" w) as L2w.
  rewrite Hvis, (proj1 (proj2 (dashboard_lookup _ _ _ _ _))) in L2w.
  pose proof (find_id_visible "servers-list" w) as L4w.
  rewrite Hvis, (proj2 (proj2 (proj2 (dashboard_lookup _ _ _ _ _)))) in L4w.
  split; [ exact V4 | ].
  split.
  { rewrite (element_id_at _ _ _ L1'), (element_id_at _ _ _ L1).
    now rewrite I4, I3, I2, I1. }
  split.
  { rewrite (element_id_at _ _ _ L2'), (element_id_at _ _ _ L2w).
    now rewrite I4, I3, I2, I1. }
  split.
  { rewrite (element_id_at _ _ _ L4'), (element_id_at _ _ _ L4w).
    now rewrite I4, I3, I2, I1. }
  unfold row_ids, element. rewrite L4'. fold p4. rewrite G4. unfold p4.
  destruct (find_id_get_at _ _ _ L4) as (j & t & c & ks & ->).
  cbn [option_map set_kids]. rewrite Hfresh.
  apply create_all_fresh.
Qed.

Lemma server_row_readable (s : value) :
  readable s = true ->
  exists row, server_row s = Some row
              /\ (plain_row s = true -> row = row_shown s).
Proof.
  intro R. unfold server_row.
  rewrite (badge_classes_readable _ R), (info_line_readable _ R),
    !(prop_readable _ _ R).
  eexists. split; [ reflexivity | ].
  unfold plain_row. intro P. apply andb_prop in P as [P _].
  destruct (plain_header_fields s P) as (_ & Ps & Pi).
  unfold plain_header in P. apply andb_prop in P as [P _].
  apply andb_prop in P as [Pn _].
  now rewrite (parse_html_plain _ Pn), Ps, Pi.
Qed.

Lemma server_rows_readable (items : list value) :
  forallb readable items = true ->
  exists rows, server_rows (Arr items) = Some rows
               /\ (forallb plain_row items = true -> rows = rows_shown items).
Proof.
  intro R.
  assert (M : exists rows,
             map_opt server_row items = Some rows
             /\ (forallb plain_row items = true ->
                 rows = map row_shown items)).
  { induction items as [| s items IH]; [ now exists [] | ].
    cbn [forallb] in R. apply andb_prop in R as [Rs R].
    destruct (IH R) as (rows & E & P).
    destruct (server_row_readable s Rs) as (row & Er & Pr).
    exists (row :: rows). cbn [map_opt]. rewrite Er, E.
    split; [ reflexivity | ]. cbn [forallb map]. intro H.
    apply andb_prop in H as [Hs H]. now rewrite (Pr Hs), (P H). }
  destruct items as [| s items].
  - eexists. split; [ reflexivity | reflexivity ].
  - exact M.
Qed.



(** When the stats carry no [total_cpu_percent], as in the payload
    [{total_servers: 3, running_servers: 1}] taken literally, [toFixed]
    throws after the two counters are written: the tick stops there, the
    CPU counter and the rows are left as they were. *)
Lemma dashboard_tick_without_cpu_stops_early :
  let w' := run (loadDashboardData_k (delivers fleet)
                   (delivers (Obj [("total_servers", Num (int 3));
                                   ("running_servers", Num (int 1))])))
              dashboard_loaded in
  option_map text_content (element "stat-total" w') = Some "3"
  /\ option_map text_content (element "stat-running" w') = Some "1"
  /\ element "stat-cpu" w' = element "stat-cpu" dashboard_loaded
  /\ element "servers-list" w' = element "servers-list" dashboard_loaded.
Proof.
  vm_compute. repeat split.
Qed.

(** ** The poll timer *)

Lemma same_timers_refl (w : world) : same_timers w w.
Proof. now unfold same_timers. Qed.

Lemma same_timers_trans (a b c : world) :
  same_timers a b -> same_timers b c -> same_timers a c.
Proof.
  unfold same_timers. intros (H1 & H2 & H3) (H4 & H5 & H6).
  repeat split; congruence.
Qed.

Ltac timers_leaf := unfold same_timers; cbn; auto.
Ltac timers_frame :=
  frame_with same_timers_refl same_timers_trans timers_leaf.

Lemma loadDashboardData_same_timers : keeps same_timers loadDashboardData.
Proof. unfold loadDashboardData. timers_frame. Qed.

Lemma loadServerData_same_timers (f : bool) :
  keeps same_timers (loadServerData f).
Proof. unfold loadServerData. timers_frame. Qed.

Lemma detached_ok (m : js unit) (w : world) :
  detached m w = (run (detached m) w, Ok tt).
Proof.
  unfold run, detached, try_catch. now destruct (m w) as [w' [[] | e]].
Qed.

(** [render] starts at most one timer and records its handle. *)
Lemma render_timers (w : world) :
  let w' := run render w in
  (timers w' = timers w /\ pollInterval (st w') = pollInterval (st w)
   /\ next_timer w' = next_timer w)
  \/ (exists t, timers w' = (timers w ++ [(next_timer w, t)])%list
                /\ pollInterval (st w') = Some (next_timer w)
                /\ next_timer w' = S (next_timer w)).
Proof.
  unfold run, render.
  rewrite (bind_ok _ _ w w (st w)) by reflexivity.
  destruct (truthy (token (st w))); cbn [negb];
    [ | left; repeat split; reflexivity ].
  rewrite (bind_ok _ _ w _ tt) by reflexivity.
  rewrite (bind_ok _ _ _ _ tt) by reflexivity.
  destruct (currentView (st w) =? "dashboard").
  - right. exists TickDashboard.
    rewrite (bind_ok _ _ _ _ tt) by apply detached_ok.
    match goal with
    | |- context [run (detached loadDashboardData) ?w0] =>
        assert (F : same_timers w0 (run (detached loadDashboardData) w0))
          by apply (keeps_detached _ same_timers_refl same_timers_trans _
                      loadDashboardData_same_timers);
        set (w1 := run (detached loadDashboardData) w0) in *
    end.
    clearbody w1. destruct F as (T & N & P). cbn in T, N, P.
    unfold bind, setInterval, set_pollInterval, act.
    cbn. rewrite T, N. repeat split; reflexivity.
  - destruct (truthy (currentServer (st w)));
      [ | left; repeat split; reflexivity ].
    right. exists TickServer.
    rewrite (bind_ok _ _ _ _ tt) by apply detached_ok.
    match goal with
    | |- context [run (detached (loadServerData true)) ?w0] =>
        assert (F : same_timers w0 (run (detached (loadServerData true)) w0))
          by apply (keeps_detached _ same_timers_refl same_timers_trans _
                      (loadServerData_same_timers true));
        set (w1 := run (detached (loadServerData true)) w0) in *
    end.
    clearbody w1. destruct F as (T & N & P). cbn in T, N, P.
    unfold bind, setInterval, set_pollInterval, act.
    cbn. rewrite T, N. repeat split; reflexivity.
Qed.

Lemma tracked_no_handle (w : world) :
  tracked w -> pollInterval (st w) = None -> timers w = [].
Proof.
  intros (H & _) Hn. destruct (timers w) as [| [h t] l]; [ reflexivity | ].
  destruct (H h t (or_introl eq_refl)) as (E & _). congruence.
Qed.

Lemma tracked_cleared (w : world) (h : nat) :
  tracked w -> pollInterval (st w) = Some h ->
  filter (fun x => negb (fst x =? h)%nat) (timers w) = [].
Proof.
  intros (H & _) Hh.
  assert (A : forall h' t, In (h', t) (timers w) -> h' = h).
  { intros h' t Hin. destruct (H h' t Hin) as (E & _). congruence. }
  clear H. induction (timers w) as [| [h' t] l IH]; [ reflexivity | ].
  cbn. rewrite (A h' t (or_introl eq_refl)), Nat.eqb_refl. cbn.
  apply IH. intros h0 t0 Hin. apply (A h0 t0). now right.
Qed.

Lemma render_tracked (w : world) :
  timers w = [] -> tracked (run render w).
Proof.
  intro Hw. destruct (render_timers w) as [(Ht & _ & _) | (t & Ht & Hp & Hn)].
  - unfold tracked. rewrite Ht, Hw. split; [ intros h t [] | constructor ].
  - unfold tracked. rewrite Ht, Hp, Hn, Hw. cbn. split.
    + intros h t0 [E | []]. injection E as <- _. split; [ reflexivity | lia ].
    + repeat constructor. intros [].
Qed.

Lemma cancel_then_render (w : world) :
  tracked w ->
  tracked (run (s <- get_state ;;
                match pollInterval s with
                | Some h => clearInterval h
                | None => ret tt
                end ;;; render) w).
Proof.
  intro H. unfold run. rewrite (bind_ok _ _ w w (st w)) by reflexivity.
  destruct (pollInterval (st w)) as [h |] eqn:E.
  - rewrite (bind_ok _ _ w _ tt) by reflexivity.
    apply render_tracked. cbn. now apply tracked_cleared.
  - rewrite (bind_ok _ _ w w tt) by reflexivity.
    apply render_tracked. now apply tracked_no_handle.
Qed.

(** [navigateTo] cancels the timer it knows before [render] starts the
    next one. *)
Lemma navigateTo_tracked (view : string) (serverId : value) (w : world) :
  tracked w -> tracked (run (navigateTo view serverId) w).
Proof.
  intro H. unfold navigateTo, set_currentView, set_currentServer.
  rewrite run_act_then.
  match goal with |- tracked (run _ ?w0) => set (w1 := w0) end.
  assert (H1 : tracked w1) by exact H. clearbody w1. clear H w.
  assert (K : forall w : world, tracked w ->
            tracked (run (s <- get_state ;;
                          match pollInterval s with
                          | Some h => clearInterval h
                          | None => ret tt
                          end ;;; set_pollInterval None ;;; render) w)).
  { clear. intros w H. unfold run.
    rewrite (bind_ok _ _ w w (st w)) by reflexivity.
    destruct (pollInterval (st w)) as [h |] eqn:E.
    - rewrite (bind_ok _ _ w _ tt) by reflexivity.
      rewrite (bind_ok _ _ _ _ tt) by reflexivity.
      apply render_tracked. cbn. now apply tracked_cleared.
    - rewrite (bind_ok _ _ w w tt) by reflexivity.
      rewrite (bind_ok _ _ _ _ tt) by reflexivity.
      apply render_tracked. cbn. now apply tracked_no_handle. }
  destruct (truthy match serverId with Undefined => Null | v => v end).
  - rewrite run_act_then. now apply K.
  - unfold run. rewrite (bind_ok _ _ w1 w1 tt) by reflexivity. now apply K.
Qed.

(** [logout] cancels it too. *)
Lemma logout_tracked (w : world) : tracked w -> tracked (run logout w).
Proof.
  intro H. unfold logout, storage_remove_token, set_token.
  rewrite !run_act_then. now apply cancel_then_render.
Qed.

Lemma tracked_at_most_one (w : world) : tracked w -> live_timers w <= 1.
Proof.
  intros (H & Hnd). unfold live_timers.
  destruct (timers w) as [| [h t] [| [h' t'] l]]; cbn; try lia.
  exfalso. destruct (H h t (or_introl eq_refl)) as (E & _).
  destruct (H h' t' (or_intror (or_introl eq_refl))) as (E' & _).
  assert (h = h') by congruence. subst h'. inversion Hnd as [| x xs Hn _].
  apply Hn. now left.
Qed.

(** As long as only [navigateTo] and [logout] are called, at most one poll
    timer is live. *)
Lemma navigation_keeps_one_timer (stored : option string) (es : list event) :
  Forall navigates es -> live_timers (steps (boot stored) es) <= 1.
Proof.
  intro Hes. apply tracked_at_most_one.
  assert (H0 : tracked (boot stored)).
  { unfold boot. apply render_tracked. reflexivity. }
  revert H0. unfold steps. generalize (boot stored).
  induction Hes as [| e es He _ IH]; intros w Hw; [ exact Hw | ].
  cbn [fold_left]. apply IH. unfold step. rewrite run_detached.
  destruct e; try contradiction; cbn [handle].
  - now apply navigateTo_tracked.
  - now apply logout_tracked.
Qed.

(** C1 fails on the code.  Logged in, [navigateTo('server', 's1')] followed
    by [setTab('files')]: [navigateTo] cancels the dashboard timer before
    [render] starts the server poll, but [setTab] calls [render] without
    cancelling, so the timer of the first render stays live next to the new
    one and [state.pollInterval] only remembers the second. *)
Theorem setTab_leaks_poll_timer :
  let w1 := steps logged_in [NavigateTo "server" (Str "s1")] in
  let w2 := steps logged_in [NavigateTo "server" (Str "s1"); SetTab "files"] in
  timers logged_in = [(1, TickDashboard)]
  /\ timers w1 = [(2, TickServer)]
  /\ timers w2 = [(2, TickServer); (3, TickServer)]
  /\ pollInterval (st w2) = Some 3
  /\ live_timers w2 = 2.
Proof.
  vm_compute. repeat split.
Qed.

(** ** Further properties of the program *)

(** *** Unauthorized replies *)

Lemma request_k_401_run (r : response) (w : world) :
  status r = 401%Z ->
  exists w', request_k (Responds r) w = (w', Throw (Error (error_message r)))
   /\ token (st w') = Null /\ stored_token w' = None /\ visible w' = renderLogin
   /\ timers w' = timers w /\ sockets w' = sockets w /\ ws w' = ws w
   /\ pending w' = pending w
   /\ pollInterval (st w') = pollInterval (st w).
Proof.
  intro H. unfold request_k, ok. rewrite H. cbn.
  eexists. split.
  - unfold bind. cbn. unfold error_message. destruct (text r) as [t|].
    + reflexivity.
    + destruct (statusText r =? ""); reflexivity.
  - cbn. repeat split.
Qed.

Lemma request_k_quiet (n : net) (w : world) :
  unauthorized n = false -> fst (request_k n w) = w.
Proof.
  destruct n as [m | r]; cbn; [ reflexivity | ].
  intro H. rewrite H. destruct (ok r); cbn; [ | reflexivity ].
  destruct (status r =? 204)%Z; reflexivity.
Qed.

Lemma find_login_error (w : world) :
  visible w = renderLogin -> find_id "login-error" (root w) = Some [0;0;1;1].
Proof. intro H. rewrite find_id_visible, H. reflexivity. Qed.

Lemma find_tab_content_login (w : world) :
  visible w = renderLogin -> find_id "tab-content" (root w) = None.
Proof. intro H. rewrite find_id_visible, H. reflexivity. Qed.

Lemma bind_throw {A B} (m : js A) (k : A -> js B) (w w' : world) (e : exn) :
  m w = (w', Throw e) -> bind m k w = (w', Throw e).
Proof. intro H. unfold bind. now rewrite H. Qed.

Lemma request_k_401 (n : net) (w : world) :
  unauthorized n = true ->
  exists w', request_k n w = (w', Throw (Error (failure_message n)))
   /\ logged_out w w' /\ visible w' = renderLogin.
Proof.
  destruct n as [m | r]; [ discriminate | ]. cbn [unauthorized]. intro H.
  apply Z.eqb_eq in H.
  destruct (request_k_401_run r w H)
    as (w' & E & T & S & V & Ti & So & W & _ & P).
  exists w'. unfold logged_out. auto 10.
Qed.

Lemma settle_run {A} (m : js A) (w : world) :
  settle m w = (fst (m w), Ok (snd (m w))).
Proof. unfold settle. now destruct (m w). Qed.

Lemma logged_out_trans (a b c : world) :
  logged_out a b -> logged_out b c -> logged_out a c.
Proof.
  unfold logged_out. intros (_ & _ & T & S & W & P) (? & ? & T' & S' & W' & P').
  repeat split; congruence.
Qed.

Lemma unauthorized_resume (c : call) (n n' : net) (w : world) :
  unauthorized n = true \/ (c = AwaitDashboard /\ unauthorized n' = true) ->
  let w' := run (resume c n n') w in
  logged_out w w'
  /\ visible w'
     = login_view (match c with
                   | AwaitLogin =>
                       if includes "fetch" (failure_message n)
                       then "API Connection Failed" else "Invalid Password"
                   | _ => "Login failed."
                   end).
Proof.
  intros H w'. subst w'.
  assert (D : c = AwaitDashboard
              \/ (c <> AwaitDashboard /\ unauthorized n = true)).
  { destruct c; try (right; split; [ discriminate | ];
                     destruct H as [H | [H _]]; [ exact H | discriminate ]).
    now left. }
  destruct D as [-> | [Hc Hn]].
  - unfold run. cbn [resume]. unfold loadDashboardData_k, detached, try_catch.
    rewrite (bind_ok _ _ _ _ _ (settle_run _ _)).
    rewrite (bind_ok _ _ _ _ _ (settle_run _ _)).
    destruct (unauthorized n) eqn:Un.
    + destruct (request_k_401 n w Un) as (w1 & E & L & V). rewrite E.
      cbn [fst snd].
      destruct (unauthorized n') eqn:Un'.
      * destruct (request_k_401 n' w1 Un') as (w2 & E' & L' & V'). rewrite E'.
        cbn. split; [ eapply logged_out_trans; eassumption | exact V' ].
      * rewrite (request_k_quiet n' w1 Un').
        destruct (snd (request_k n' w1)); cbn; auto.
    + destruct H as [H | [_ H]]; [ discriminate | ].
      rewrite (request_k_quiet n w Un).
      destruct (request_k_401 n' w H) as (w2 & E' & L' & V'). rewrite E'.
      destruct (snd (request_k n w)); cbn; auto.
  - destruct (request_k_401 n w Hn) as (w1 & E & L & V).
    pose proof (find_tab_content_login w1 V) as Ftab.
    pose proof (find_login_error w1 V) as Ferr.
    destruct c; try congruence; unfold run; cbn [resume].
    + unfold loadServerData_k, detached, try_catch.
      rewrite (bind_throw _ _ w w1 _ E).
      rewrite (bind_ok _ _ w1 (emit (ConsoleError (failure_message n)) w1) tt)
        by reflexivity.
      destruct fullRender; [ | cbn; auto ].
      rewrite (bind_ok _ _ _ _ None)
        by (unfold getElementById; do 2 f_equal; exact Ftab).
      cbn. auto.
    + unfold handleStart_k, try_catch. rewrite (bind_throw _ _ w w1 _ E).
      cbn. auto.
    + unfold handleStop_k, try_catch. rewrite (bind_throw _ _ w w1 _ E).
      cbn. auto.
    + unfold handleRestart_k, try_catch. rewrite (bind_throw _ _ w w1 _ E).
      cbn. auto.
    + unfold handleDeleteServer_k, try_catch.
      rewrite (bind_throw _ _ w w1 _ E). cbn. auto.
    + unfold submitLogin_k, try_catch. rewrite (bind_throw _ _ w w1 _ E).
      rewrite (bind_ok _ _ w1 w1 (Some [0;0;1;1]))
        by (unfold getElementById; now rewrite Ferr).
      split.
      * destruct L as (? & ? & ? & ? & ? & ?). repeat split; assumption.
      * apply app_view_inj.
        match goal with
        | |- context [set_textContent ?p ?v w1] =>
            destruct (write_kids w1 p
                        (if text_of v =? "" then [] else [Text (text_of v)])
                        (fresh w1) ltac:(discriminate)) as (W & _)
        end.
        etransitivity; [ exact W | ].
        rewrite erase_text_kids, V. reflexivity.
    + rewrite (bind_throw _ _ w w1 _ E). cbn. auto.
Qed.



(** X6.  The logout done on a 401 cancels nothing: the interval timers, the
    handle in [state.pollInterval], the console sockets and [ws] are as
    they were before the reply, so a poll that was running goes on firing on
    the login view. *)
Theorem unauthorized_reply_leaves_poll_and_socket
        (c : call) (n n' : net) (w : world) :
  unauthorized n = true \/ (c = AwaitDashboard /\ unauthorized n' = true) ->
  let w' := run (resume c n n') w in
  timers w' = timers w
  /\ pollInterval (st w') = pollInterval (st w)
  /\ sockets w' = sockets w
  /\ ws w' = ws w.
Proof.
  intros H w'.
  destruct (unauthorized_resume c n n' w H) as ((_ & _ & T & S & W & P) & _).
  fold w' in T, S, W, P. auto.
Qed.

Lemma unauthorized_reply_leaves_poll_and_socket_witness :
  (unauthorized (delivers fleet) = true
   \/ (AwaitDashboard = AwaitDashboard
       /\ unauthorized (Responds expired) = true))
  /\ (let w' := run (resume AwaitDashboard (delivers fleet) (Responds expired))
                   dashboard_loaded in
      timers w' = timers dashboard_loaded
      /\ pollInterval (st w') = pollInterval (st dashboard_loaded)
      /\ sockets w' = sockets dashboard_loaded
      /\ ws w' = ws dashboard_loaded).
Proof.
  split; [ right; split; reflexivity | ].
  apply (unauthorized_reply_leaves_poll_and_socket AwaitDashboard
           (delivers fleet) (Responds expired) dashboard_loaded).
  right. split; reflexivity.
Defined.

(** *** Replies that fail, come late or carry nothing *)

Lemma request_k_fails (n : net) (w : world) :
  fails n = true -> unauthorized n = false ->
  request_k n w = (w, Throw (Error (failure_message n))).
Proof.
  destruct n as [m | r]; cbn [fails unauthorized failure_message];
    [ reflexivity | ].
  intros H U. apply request_k_error; [ now apply negb_true_iff | exact U ].
Qed.

Lemma request_k_succeeds (n : net) (w : world) :
  fails n = false -> exists v, request_k n w = (w, Ok v).
Proof.
  destruct n as [m | r]; cbn [fails]; [ discriminate | ].
  intro H. apply negb_false_iff in H. exists (resolved r).
  now apply request_k_2xx.
Qed.

(** X9.  A dashboard poll of which a request fails, by a rejected [fetch] or
    by a status that is neither 2xx nor 401, changes nothing: the empty
    [catch] of [loadDashboardData] swallows the error, the counters and the
    list stay, nothing is logged or alerted. *)
Theorem dashboard_poll_failure_is_silent (n n' : net) (w : world) :
  unauthorized n = false -> unauthorized n' = false ->
  fails n = true \/ fails n' = true ->
  run (loadDashboardData_k n n') w = w.
Proof.
  intros U U' F. unfold run, loadDashboardData_k, detached, try_catch.
  rewrite (bind_ok _ _ _ _ _ (settle_run _ _)).
  rewrite (request_k_quiet n w U).
  rewrite (bind_ok _ _ _ _ _ (settle_run _ _)).
  rewrite (request_k_quiet n' w U').
  destruct (fails n) eqn:Fn.
  - rewrite (request_k_fails n w Fn U). reflexivity.
  - destruct F as [F | F]; [ discriminate | ].
    destruct (request_k_succeeds n w Fn) as (v & ->).
    rewrite (request_k_fails n' w F U'). reflexivity.
Qed.

Lemma dashboard_poll_failure_is_silent_witness :
  unauthorized (Responds disk_full) = false
  /\ unauthorized (delivers fleet_stats) = false
  /\ (fails (Responds disk_full) = true \/ fails (delivers fleet_stats) = true)
  /\ run (loadDashboardData_k (Responds disk_full) (delivers fleet_stats))
         dashboard_loaded
     = dashboard_loaded.
Proof.
  split; [ reflexivity | ]. split; [ reflexivity | ].
  split; [ left; reflexivity | ].
  apply (dashboard_poll_failure_is_silent (Responds disk_full)
           (delivers fleet_stats) dashboard_loaded);
    [ reflexivity | reflexivity | left; reflexivity ].
Defined.

(** X10.  The replies of a dashboard poll that arrive when [#stat-total] is
    no longer in the document (the user has left the dashboard) are dropped
    by the guard of line 592, whatever they carry: nothing changes. *)
Theorem late_dashboard_reply_is_dropped (n n' : net) (w : world) :
  find_id "stat-total" (root w) = None ->
  unauthorized n = false -> unauthorized n' = false ->
  run (loadDashboardData_k n n') w = w.
Proof.
  intros H U U'.
  unfold run, loadDashboardData_k, detached, try_catch.
  rewrite (bind_ok _ _ _ _ _ (settle_run _ _)).
  rewrite (request_k_quiet n w U).
  rewrite (bind_ok _ _ _ _ _ (settle_run _ _)).
  rewrite (request_k_quiet n' w U').
  destruct (snd (request_k n w)), (snd (request_k n' w)); try reflexivity.
  unfold bind, getElementById. rewrite H. reflexivity.
Qed.

Lemma late_dashboard_reply_is_dropped_witness :
  find_id "stat-total" (root viewing_s1) = None
  /\ unauthorized (delivers fleet) = false
  /\ unauthorized (delivers fleet_stats) = false
  /\ run (loadDashboardData_k (delivers fleet) (delivers fleet_stats))
         viewing_s1
     = viewing_s1.
Proof.
  split; [ reflexivity | ]. split; [ reflexivity | ].
  split; [ reflexivity | ].
  apply (late_dashboard_reply_is_dropped (delivers fleet)
           (delivers fleet_stats) viewing_s1); reflexivity.
Defined.

(** X12.  When the request of [loadServerData] fails (not by a 401), the
    error goes to [console.error]; the state, with the last snapshot, and
    the sockets are untouched.  A poll tick shows nothing of it.  The load
    of a full render replaces the content of [#tab-content] and changes
    nothing else on screen; when the message holds no markup, what it puts
    there is a card with the text "Error loading server: " and the
    message. *)
Theorem server_reply_failure (f : bool) (n : net) (w : world) :
  fails n = true -> unauthorized n = false ->
  let w' := run (loadServerData_k f n) w in
  log w' = (log w ++ [ConsoleError (failure_message n)])%list
  /\ st w' = st w
  /\ sockets w' = sockets w
  /\ (f = false -> visible w' = visible w)
  /\ (forall p, f = true -> find_id "tab-content" (root w) = Some p ->
        (exists card, app_view (visible w')
                      = hupdate_at p (hset_kids card) (app_view (visible w)))
        /\ (plain (failure_message n) = true ->
            app_view (visible w')
            = hupdate_at p (hset_kids [error_card (failure_message n)])
                (app_view (visible w)))).
Proof.
  intros F U w'. subst w'.
  unfold run, loadServerData_k, detached, try_catch.
  rewrite (bind_throw _ _ w w _ (request_k_fails n w F U)).
  rewrite (bind_ok _ _ w (emit (ConsoleError (failure_message n)) w) tt)
    by reflexivity.
  destruct f.
  - rewrite (bind_ok _ _ _ _ (find_id "tab-content" (root w))) by reflexivity.
    destruct (find_id "tab-content" (root w)) as [p |] eqn:E.
    + cbn [deref]. rewrite (bind_ok _ _ _ _ p) by reflexivity.
      split; [ reflexivity | ]. split; [ reflexivity | ].
      split; [ reflexivity | ]. split; [ discriminate | ].
      intros q _ [= <-].
      assert (Hp : p <> []) by (now apply (found_below_root _ w p) in E).
      match goal with
      | |- context [set_innerHTML p ?frag ?w0] =>
         destruct (write_kids w0 p (fst (create_all frag (fresh w0)))
                        (snd (create_all frag (fresh w0))) Hp) as (W & _)
      end.
      rewrite erase_create_all in W. cbn [message_of to_string] in W.
      split; [ eexists; exact W | ].
      intro P. etransitivity; [ exact W | ].
      rewrite parse_html_plain by (rewrite plain_app, P; reflexivity).
      reflexivity.
    + cbn. split; [ reflexivity | ]. split; [ reflexivity | ].
      split; [ reflexivity | ]. split; [ discriminate | ].
      intros q _ C. discriminate C.
  - cbn. split; [ reflexivity | ]. split; [ reflexivity | ].
    split; [ reflexivity | ]. split; [ reflexivity | ].
    intros q C. discriminate C.
Qed.

Lemma server_reply_failure_witness :
  fails (Responds disk_full) = true
  /\ unauthorized (Responds disk_full) = false
  /\ (let w' := run (loadServerData_k true (Responds disk_full))
                   server_opened in
      log w'
      = (log server_opened
         ++ [ConsoleError (failure_message (Responds disk_full))])%list
      /\ st w' = st server_opened
      /\ sockets w' = sockets server_opened
      /\ (true = false -> visible w' = visible server_opened)
      /\ (forall p, true = true ->
             find_id "tab-content" (root server_opened) = Some p ->
             (exists card,
                 app_view (visible w')
                 = hupdate_at p (hset_kids card)
                     (app_view (visible server_opened)))
             /\ (plain (failure_message (Responds disk_full)) = true ->
                 app_view (visible w')
                 = hupdate_at p
                     (hset_kids
                        [error_card (failure_message (Responds disk_full))])
                     (app_view (visible server_opened))))).
Proof.
  split; [ reflexivity | ]. split; [ reflexivity | ].
  apply (server_reply_failure true (Responds disk_full) server_opened);
    reflexivity.
Defined.

Lemma mount_tab_gone (server : value) (w : world) :
  find_id "tab-content" (root w) = None -> fst (mount_tab server w) = w.
Proof.
  intro H. unfold mount_tab.
  rewrite (bind_ok _ _ w w None) by (unfold getElementById; now rewrite H).
  rewrite (bind_ok _ _ w w (st w)) by reflexivity.
  repeat match goal with
         | |- context [if ?b then _ else _] => destruct b
         end; reflexivity.
Qed.

Lemma report_gone (e : exn) (f : bool) (w : world) :
  find_id "tab-content" (root w) = None ->
  fst (detached
         (try_catch (throw e)
            (fun e =>
               console_error e ;;;
               if f then
                 content <- getElementById "tab-content" ;;
                 c <- deref content ;;
                 set_innerHTML c
                   [el "div" ["card"]
                      (parse_html ("Error loading server: "
                                   ++ to_string (message_of e)))]
               else ret tt)) w)
  = run (console_error e) w.
Proof.
  intro H. unfold detached, try_catch, throw.
  rewrite (bind_ok _ _ w (run (console_error e) w) tt) by reflexivity.
  destruct f; [ | reflexivity ].
  rewrite (bind_ok _ _ _ _ None)
    by (unfold getElementById; do 2 f_equal; exact H).
  reflexivity.
Qed.

Lemma loadServerData_k_gone (f : bool) (n : net) (w : world) :
  find_id "server-header" (root w) = None ->
  find_id "tab-content" (root w) = None ->
  unauthorized n = false ->
  let w' := run (loadServerData_k f n) w in
  body w' = body w /\ sockets w' = sockets w /\ ws w' = ws w
  /\ pending w' = pending w /\ timers w' = timers w.
Proof.
  intros Hh Ht U w'. subst w'.
  unfold run, loadServerData_k.
  destruct (fails n) eqn:F.
  - pose proof (report_gone (Error (failure_message n)) f w Ht) as R.
    unfold detached, try_catch, throw in *.
    rewrite (bind_throw _ _ w w _ (request_k_fails n w F U)).
    rewrite R. cbn. auto.
  - destruct (request_k_succeeds n w F) as (v & E).
    set (w1 := run (set_serverData v) w).
    assert (Ht1 : find_id "tab-content" (root w1) = None) by exact Ht.
    unfold detached, try_catch.
    rewrite (bind_ok _ _ w w v E).
    rewrite (bind_ok _ _ w w1 tt) by reflexivity.
    rewrite (bind_ok _ _ w1 w1 tt).
    2:{ unfold update_header.
        rewrite (bind_ok _ _ w1 w1 None); [ reflexivity | ].
        unfold getElementById. now rewrite <- Hh. }
    destruct f.
    + pose proof (mount_tab_gone v w1 Ht1) as M.
      destruct (mount_tab v w1) as [w2 [[] | e]]; cbn [fst] in M; subst w2.
      * cbn. auto.
      * pose proof (report_gone e true w1 Ht1) as R.
        unfold detached, try_catch, throw in R. unfold try_catch.
        rewrite R. cbn. auto.
    + cbn. auto.
Qed.

(** X13.  A reply to [getServer] that arrives when neither [#server-header]
    nor [#tab-content] is in the document (the user has left the server
    view) shows nothing, whether it succeeds or fails and whether it belongs
    to a full render or to a tick; in particular no console is mounted and
    no socket opened or closed, and the timers stay. *)
Theorem stale_server_reply_touches_no_view (f : bool) (n : net) (w : world) :
  find_id "server-header" (root w) = None ->
  find_id "tab-content" (root w) = None ->
  unauthorized n = false ->
  let w' := run (loadServerData_k f n) w in
  visible w' = visible w /\ sockets w' = sockets w /\ ws w' = ws w
  /\ timers w' = timers w.
Proof.
  intros Hh Ht U w'.
  destruct (loadServerData_k_gone f n w Hh Ht U) as (B & S & W & _ & T).
  fold w' in B, S, W, T. unfold visible. rewrite B. auto.
Qed.

Lemma stale_server_reply_touches_no_view_witness :
  find_id "server-header" (root dashboard_loaded) = None
  /\ find_id "tab-content" (root dashboard_loaded) = None
  /\ unauthorized (delivers (alpha "running")) = false
  /\ (let w' := run (loadServerData_k true (delivers (alpha "running")))
                   dashboard_loaded in
      visible w' = visible dashboard_loaded
      /\ sockets w' = sockets dashboard_loaded
      /\ ws w' = ws dashboard_loaded
      /\ timers w' = timers dashboard_loaded).
Proof.
  split; [ reflexivity | ]. split; [ reflexivity | ].
  split; [ reflexivity | ].
  apply (stale_server_reply_touches_no_view true (delivers (alpha "running"))
           dashboard_loaded); reflexivity.
Defined.

(** X14.  A tick answered by a 2xx reply without a usable body (a 204, a
    body that does not parse, a JSON null) stores null in
    [state.serverData] and leaves the screen and the sockets as they are:
    the header keeps showing the last snapshot. *)
Theorem unreadable_snapshot_tick (r : response) (w : world) :
  ok r = true -> readable (resolved r) = false ->
  let w' := run (loadServerData_k false (Responds r)) w in
  visible w' = visible w
  /\ serverData (st w') = resolved r
  /\ sockets w' = sockets w.
Proof.
  intros Hok H w'. subst w'. set (w1 := run (set_serverData (resolved r)) w).
  unfold run, loadServerData_k, detached, try_catch.
  rewrite (bind_ok _ _ w w _ (request_k_2xx r w Hok)).
  rewrite (bind_ok _ _ w w1 tt) by reflexivity.
  assert (E := update_header_unreadable w1 _ H). unfold run in E.
  unfold bind.
  destruct (update_header (resolved r) w1) as [w2 [[] | e]]; cbn in E; subst w2;
    cbn; auto.
Qed.

Lemma unreadable_snapshot_tick_witness :
  ok no_content = true
  /\ readable (resolved no_content) = false
  /\ (let w' := run (loadServerData_k false (Responds no_content))
                   viewing_s1 in
      visible w' = visible viewing_s1
      /\ serverData (st w') = resolved no_content
      /\ sockets w' = sockets viewing_s1).
Proof.
  split; [ reflexivity | ]. split; [ reflexivity | ].
  apply (unreadable_snapshot_tick no_content viewing_s1); reflexivity.
Defined.

(** *** Rendering and navigation *)

Lemma loadDashboardData_same_dom : keeps same_dom loadDashboardData.
Proof. unfold loadDashboardData. dom_frame. Qed.

Lemma render_shows (w : world) :
  visible (run render w)
  = if truthy (token (st w)) then layout (st w) else renderLogin.
Proof.
  unfold run, render. rewrite (bind_ok _ _ w w (st w)) by reflexivity.
  destruct (truthy (token (st w))); cbn [negb]; [ | reflexivity ].
  rewrite (bind_ok _ _ w _ tt) by reflexivity.
  match goal with
  | |- visible (fst (?m ?w0)) = _ =>
      assert (F : keeps same_dom m)
  end.
  { pose proof loadDashboardData_same_dom. pose proof loadServerData_same_dom.
    dom_frame. }
  match goal with
  | |- visible (fst (?m ?w0)) = _ => destruct (F w0) as (B & _)
  end.
  unfold visible. etransitivity; [ exact (f_equal (map erase) B) | ].
  apply erase_create_all.
Qed.

Lemma same_login_refl (w : world) : same_login w w.
Proof. unfold same_login. auto 10. Qed.

Lemma same_login_trans (a b c : world) :
  same_login a b -> same_login b c -> same_login a c.
Proof.
  unfold same_login. intros (? & ? & ? & ? & ? & ?) (? & ? & ? & ? & ? & ?).
  repeat split; congruence.
Qed.

Ltac login_leaf := unfold same_login; cbn; auto 10.

Ltac login_frame := frame_with same_login_refl same_login_trans login_leaf.

Lemma setInterval_same_login (t : task) (ms : nat) :
  keeps same_login (setInterval t ms).
Proof. intro w. login_leaf. Qed.

Lemma render_same_login : keeps same_login render.
Proof.
  pose proof setInterval_same_login.
  unfold render, loadDashboardData, loadServerData. login_frame.
Qed.

Lemma render_poll (w : world) :
  let w' := run render w in
  match poll_of (st w) with
  | Some (t, ms) =>
      timers w' = (timers w ++ [(next_timer w, t)])%list
      /\ pollInterval (st w') = Some (next_timer w)
      /\ next_timer w' = S (next_timer w)
      /\ last (log w') (Rendered "") = SetInterval (next_timer w) t ms
  | None =>
      timers w' = timers w /\ pollInterval (st w') = pollInterval (st w)
      /\ next_timer w' = next_timer w
  end.
Proof.
  unfold poll_of, run, render.
  rewrite (bind_ok _ _ w w (st w)) by reflexivity.
  destruct (truthy (token (st w))); cbn [negb];
    [ | repeat split; reflexivity ].
  rewrite (bind_ok _ _ w _ tt) by reflexivity.
  rewrite (bind_ok _ _ _ _ tt) by reflexivity.
  destruct (currentView (st w) =? "dashboard").
  - rewrite (bind_ok _ _ _ _ tt) by apply detached_ok.
    match goal with
    | |- context [run (detached loadDashboardData) ?w0] =>
        assert (F : same_timers w0 (run (detached loadDashboardData) w0))
          by apply (keeps_detached _ same_timers_refl same_timers_trans _
                      loadDashboardData_same_timers);
        set (w1 := run (detached loadDashboardData) w0) in *
    end.
    clearbody w1. destruct F as (T & N & P). cbn in T, N, P.
    unfold bind, setInterval, set_pollInterval, act.
    cbn. rewrite T, N. repeat split; try reflexivity. apply last_last.
  - destruct (truthy (currentServer (st w)));
      [ | repeat split; reflexivity ].
    rewrite (bind_ok _ _ _ _ tt) by apply detached_ok.
    match goal with
    | |- context [run (detached (loadServerData true)) ?w0] =>
        assert (F : same_timers w0 (run (detached (loadServerData true)) w0))
          by apply (keeps_detached _ same_timers_refl same_timers_trans _
                      (loadServerData_same_timers true));
        set (w1 := run (detached (loadServerData true)) w0) in *
    end.
    clearbody w1. destruct F as (T & N & P). cbn in T, N, P.
    unfold bind, setInterval, set_pollInterval, act.
    cbn. rewrite T, N. repeat split; try reflexivity. apply last_last.
Qed.

(** X2.  [render] shows a function of the state: the login view without a
    credential, the layout of the current view and tab with one, whatever
    was on screen before.  It changes neither the credential nor the view,
    tab, server or snapshot.  It starts the poll that fits the state, every
    3000 ms on the dashboard and every 2000 ms on the view of a server, and
    records its handle; without a credential, or on a server view without a
    server, it starts none. *)
Theorem render_follows_the_state (w : world) :
  let w' := run render w in
  visible w' = (if truthy (token (st w)) then layout (st w) else renderLogin)
  /\ same_login w w'
  /\ match poll_of (st w) with
     | Some (t, ms) =>
         timers w' = (timers w ++ [(next_timer w, t)])%list
         /\ pollInterval (st w') = Some (next_timer w)
         /\ last (log w') (Rendered "") = SetInterval (next_timer w) t ms
     | None =>
         timers w' = timers w /\ pollInterval (st w') = pollInterval (st w)
     end.
Proof.
  intro w'. split; [ apply render_shows | ].
  split; [ apply render_same_login | ].
  pose proof (render_poll w) as P. fold w' in P.
  destruct (poll_of (st w)) as [[t ms] |].
  - destruct P as (T & H & _ & L). auto.
  - destruct P as (T & H & _). auto.
Qed.

(** X3.  From the page load on, as long as only [navigateTo] and [logout]
    are called, at most one interval timer is live, and a live timer is the
    one [state.pollInterval] refers to: both cancel the timer they know
    before [render] starts the next. *)
Theorem one_poll_timer_under_navigation (stored : option string)
        (es : list event) :
  Forall navigates es ->
  let w := steps (boot stored) es in
  live_timers w <= 1
  /\ (forall h t, In (h, t) (timers w) -> pollInterval (st w) = Some h).
Proof.
  intros Hes w.
  assert (T : tracked w).
  { unfold w, steps.
    assert (H0 : tracked (boot stored))
      by (unfold boot; apply render_tracked; reflexivity).
    revert H0. generalize (boot stored).
    induction Hes as [| e es He _ IH]; intros w0 Hw; [ exact Hw | ].
    cbn [fold_left]. apply IH. unfold step. rewrite run_detached.
    destruct e; try contradiction; cbn [handle].
    - now apply navigateTo_tracked.
    - now apply logout_tracked. }
  split; [ now apply tracked_at_most_one | ].
  intros h t Hin. destruct T as (T & _). now destruct (T h t Hin).
Qed.

Lemma one_poll_timer_under_navigation_witness :
  Forall navigates [NavigateTo "server" (Str "s1"); Logout]
  /\ (let w := steps (boot (Some "abc"))
                  [NavigateTo "server" (Str "s1"); Logout] in
      live_timers w <= 1
      /\ (forall h t, In (h, t) (timers w) -> pollInterval (st w) = Some h)).
Proof.
  split; [ repeat constructor | ].
  apply (one_poll_timer_under_navigation (Some "abc")
           [NavigateTo "server" (Str "s1"); Logout]).
  repeat constructor.
Defined.

(** [navigateTo] with a server id, in one step: the state it renders. *)
Lemma navigateTo_with_id (view : string) (id : value) (w : world) :
  truthy id = true ->
  exists w0,
    navigateTo view id w = render w0
    /\ currentView (st w0) = view /\ currentServer (st w0) = id
    /\ token (st w0) = token (st w) /\ currentTab (st w0) = currentTab (st w)
    /\ serverData (st w0) = serverData (st w)
    /\ pending w0 = pending w /\ next_timer w0 = next_timer w
    /\ (tracked w -> timers w0 = []).
Proof.
  intro H.
  assert (E : match id with Undefined => Null | v => v end = id)
    by (destruct id; try reflexivity; discriminate).
  unfold navigateTo. rewrite E, H. unfold set_currentView, set_currentServer.
  rewrite (bind_ok _ _ w _ tt) by reflexivity.
  rewrite (bind_ok _ _ _ _ tt) by reflexivity.
  match goal with |- context [bind get_state _ ?w1] => set (w0 := w1) end.
  assert (A : currentView (st w0) = view /\ currentServer (st w0) = id
              /\ token (st w0) = token (st w)
              /\ currentTab (st w0) = currentTab (st w)
              /\ serverData (st w0) = serverData (st w)
              /\ pending w0 = pending w /\ next_timer w0 = next_timer w)
    by (repeat split).
  assert (T : tracked w -> tracked w0) by (intro X; exact X).
  clearbody w0. destruct A as (A1 & A2 & A3 & A4 & A5 & A6 & A7).
  rewrite (bind_ok _ _ w0 w0 (st w0)) by reflexivity.
  destruct (pollInterval (st w0)) as [h |] eqn:P.
  - rewrite (bind_ok _ _ w0 _ tt) by reflexivity.
    rewrite (bind_ok _ _ _ _ tt) by reflexivity.
    eexists. split; [ reflexivity | ]. cbn.
    repeat split; try assumption.
    intro X. apply tracked_cleared; auto.
  - rewrite (bind_ok _ _ w0 w0 tt) by reflexivity.
    rewrite (bind_ok _ _ _ _ tt) by reflexivity.
    eexists. split; [ reflexivity | ]. cbn.
    repeat split; try assumption.
    intro X. apply tracked_no_handle; auto.
Qed.

(** What [render] adds to the pending requests and the log on the view of a
    server. *)
Lemma render_server_request (w : world) :
  truthy (token (st w)) = true ->
  (currentView (st w) =? "dashboard") = false ->
  truthy (currentServer (st w)) = true ->
  let w' := run render w in
  pending w' = (pending w ++ [AwaitServerData true])%list
  /\ In (Fetch (API_BASE ++ "/servers/" ++ to_string (currentServer (st w)))
           "GET" (request_headers (token (st w)))) (log w').
Proof.
  intros T V S. unfold run, render.
  rewrite (bind_ok _ _ w w (st w)) by reflexivity.
  rewrite T, V, S. cbn [negb].
  unfold detached, try_catch, loadServerData, request, suspend, setInterval,
    set_pollInterval, set_innerHTML, act, bind, get_state.
  cbn. rewrite S. cbn. split; [ reflexivity | ].
  rewrite !in_app_iff. left. right. now left.
Qed.

(** X26.  [setTab(tab)] records the tab and renders, and cancels nothing:
    every timer that was live stays live.  With a credential, on the
    dashboard or on the view of a server, one more poll is started and its
    handle replaces the recorded one; otherwise the timers are as
    before. *)
Theorem setTab_never_cancels_the_poll (tab : string) (w : world) :
  let w' := run (setTab tab) w in
  currentTab (st w') = tab
  /\ match poll_of (st w) with
     | Some (t, ms) =>
         timers w' = (timers w ++ [(next_timer w, t)])%list
         /\ pollInterval (st w') = Some (next_timer w)
     | None => timers w' = timers w
     end.
Proof.
  intro w'. unfold w', setTab, set_currentTab. rewrite run_act_then.
  match goal with |- context [run render ?w1] => set (w0 := w1) end.
  assert (A : currentTab (st w0) = tab /\ poll_of (st w0) = poll_of (st w)
              /\ timers w0 = timers w /\ next_timer w0 = next_timer w)
    by (repeat split).
  clearbody w0. destruct A as (A1 & A2 & A3 & A4).
  destruct (render_same_login w0) as (_ & _ & _ & T & _).
  fold (run render w0) in T. split; [ congruence | ].
  pose proof (render_poll w0) as P. rewrite A2, A3, A4 in P.
  destruct (poll_of (st w)) as [[t ms] |].
  - destruct P as (P1 & P2 & _). auto.
  - now destruct P as (P1 & _).
Qed.

(** X27.  [navigateTo(view, id)] with an id, logged in, for a view other
    than the dashboard: the view and the server are recorded while the tab
    and the last snapshot stay, those of the server shown before; the
    screen is the server view with an empty header and an empty tab body;
    the request for the server is issued and awaited as a full render; and
    the one live timer is the new server poll. *)
Theorem navigateTo_opens_the_server
        (view : string) (id : value) (w : world) :
  truthy id = true ->
  truthy (token (st w)) = true ->
  (view =? "dashboard") = false ->
  tracked w ->
  let w' := run (navigateTo view id) w in
  currentView (st w') = view /\ currentServer (st w') = id
  /\ currentTab (st w') = currentTab (st w)
  /\ serverData (st w') = serverData (st w)
  /\ visible w' = page_with (server_page (renderSidebar (st w')) [] []) []
  /\ timers w' = [(next_timer w, TickServer)]
  /\ pollInterval (st w') = Some (next_timer w)
  /\ pending w' = (pending w ++ [AwaitServerData true])%list
  /\ In (Fetch (API_BASE ++ "/servers/" ++ to_string id) "GET"
           (request_headers (token (st w)))) (log w').
Proof.
  intros Hid Htok Hview Htr w'.
  destruct (navigateTo_with_id view id w Hid)
    as (w0 & E & V & S & T & Tb & D & P & N & Ti).
  assert (W : w' = run render w0) by (unfold w', run; now rewrite E).
  clearbody w'. subst w'.
  destruct (render_same_login w0) as (T1 & _ & V1 & Tb1 & S1 & D1).
  fold (run render w0) in T1, V1, Tb1, S1, D1.
  pose proof (render_poll w0) as Q. unfold poll_of in Q.
  rewrite T, Htok, V, Hview, S, Hid in Q. cbn [negb] in Q.
  destruct Q as (Q1 & Q2 & _).
  destruct (render_server_request w0) as (R1 & R2);
    [ congruence | congruence | congruence | ].
  rewrite S, T in R2. rewrite P in R1. rewrite N, (Ti Htr) in Q1.
  rewrite N in Q2.
  repeat (split; [ congruence | ]).
  split; [ | auto ].
  rewrite render_shows, T, Htok. unfold layout. rewrite V, Hview.
  unfold page_with, server_page, renderServerView, renderSidebar.
  now rewrite V1, Tb1.
Qed.

Lemma navigateTo_opens_the_server_witness :
  tracked logged_in
  /\ (let w' := run (navigateTo "server" (Str "s1")) logged_in in
      visible w' = page_with (server_page (renderSidebar (st w')) [] []) []
      /\ timers w' = [(next_timer logged_in, TickServer)]
      /\ pending w' = (pending logged_in ++ [AwaitServerData true])%list).
Proof.
  assert (H : tracked logged_in)
    by (unfold logged_in, boot; apply render_tracked; reflexivity).
  split; [ exact H | ].
  destruct (navigateTo_opens_the_server "server" (Str "s1") logged_in
              eq_refl eq_refl eq_refl H)
    as (_ & _ & _ & _ & V & T & _ & P & _).
  split; [ exact V | ]. split; [ exact T | exact P ].
Defined.

(** X28.  [logout] drops the credential from the state and from the
    storage and shows the login view.  It cancels the poll it knows, so
    that no timer is left when the live one was the recorded one, but it
    does not reset [state.pollInterval], and it closes no socket: the
    console socket of the last server stays open. *)
Theorem logout_ends_the_session (w : world) :
  let w' := run logout w in
  token (st w') = Null
  /\ stored_token w' = None
  /\ visible w' = renderLogin
  /\ sockets w' = sockets w /\ ws w' = ws w
  /\ pollInterval (st w') = pollInterval (st w)
  /\ (tracked w -> timers w' = []).
Proof.
  intro w'.
  assert (E : exists w0, w' = run render w0
                         /\ token (st w0) = Null /\ stored_token w0 = None
                         /\ pollInterval (st w0) = pollInterval (st w)
                         /\ sockets w0 = sockets w /\ ws w0 = ws w
                         /\ (tracked w -> timers w0 = [])).
  { unfold w', logout, storage_remove_token, set_token. rewrite !run_act_then.
    match goal with |- context [run _ ?w1] => set (w0 := w1) end.
    assert (A : token (st w0) = Null /\ stored_token w0 = None
                /\ pollInterval (st w0) = pollInterval (st w)
                /\ sockets w0 = sockets w /\ ws w0 = ws w)
      by (repeat split).
    assert (T0 : tracked w -> tracked w0) by (intro H; exact H).
    clearbody w0. destruct A as (A1 & A2 & A3 & A4 & A5).
    unfold run. rewrite (bind_ok _ _ w0 w0 (st w0)) by reflexivity.
    destruct (pollInterval (st w0)) as [h |] eqn:Ph.
    - rewrite (bind_ok _ _ w0 (run (clearInterval h) w0) tt) by reflexivity.
      eexists. split; [ reflexivity | ].
      repeat split; try assumption.
      + cbn. congruence.
      + intro H. cbn. apply tracked_cleared; auto.
    - rewrite (bind_ok _ _ w0 w0 tt) by reflexivity.
      eexists. split; [ reflexivity | ].
      repeat split; try assumption; try congruence.
      intro H. apply tracked_no_handle; auto. }
  destruct E as (w0 & -> & T & S & P & K0 & W0 & Ti).
  destruct (render_same_login w0) as (T1 & S1 & _).
  fold (run render w0) in T1, S1.
  pose proof (render_poll w0) as Q. unfold poll_of in Q. rewrite T in Q.
  cbn [truthy negb] in Q. destruct Q as (Q1 & Q2 & _).
  destruct (render_same_session w0) as ((K & W & _) & _).
  fold (run render w0) in K, W.
  split; [ congruence | ]. split; [ congruence | ].
  split; [ now rewrite render_shows, T | ].
  split; [ congruence | ]. split; [ congruence | ].
  split; [ congruence | ]. intro H. rewrite Q1. auto.
Qed.

Lemma render_ok (w : world) : render w = (run render w, Ok tt).
Proof.
  unfold run, render. rewrite (bind_ok _ _ w w (st w)) by reflexivity.
  destruct (truthy (token (st w))); cbn [negb]; [ | reflexivity ].
  rewrite (bind_ok _ _ w _ tt) by reflexivity.
  rewrite (bind_ok _ _ _ _ tt) by reflexivity.
  destruct (currentView (st w) =? "dashboard").
  - rewrite (bind_ok _ _ _ _ tt) by apply detached_ok. reflexivity.
  - destruct (truthy (currentServer (st w))); [ | reflexivity ].
    rewrite (bind_ok _ _ _ _ tt) by apply detached_ok. reflexivity.
Qed.

Lemma navigateTo_without_id (view : string) (w : world) :
  navigateTo view Undefined w = render (before_render view w).
Proof.
  unfold navigateTo, before_render. cbn [truthy].
  unfold set_currentView at 1.
  rewrite (bind_ok _ _ w (run (set_currentView view) w) tt) by reflexivity.
  set (w1 := run (set_currentView view) w).
  rewrite (bind_ok _ _ w1 w1 tt) by reflexivity.
  rewrite (bind_ok _ _ w1 w1 (st w1)) by reflexivity.
  destruct (pollInterval (st w1)); reflexivity.
Qed.

(** X16.  When the deletion of a server succeeds, [handleDeleteServer] goes
    to the dashboard by [navigateTo('dashboard')]: the view is the
    dashboard, freshly rendered, the poll timer discipline is kept, and
    [state.currentServer] still names the deleted server. *)
Theorem delete_success_shows_dashboard (n : net) (w : world) :
  fails n = false ->
  let w' := run (handleDeleteServer_k n) w in
  currentView (st w') = "dashboard"
  /\ currentServer (st w') = currentServer (st w)
  /\ visible w'
     = (if truthy (token (st w)) then dashboard_placeholders else renderLogin)
  /\ (tracked w -> tracked w').
Proof.
  intros F w'.
  destruct (request_k_succeeds n w F) as (v & E).
  assert (R : w' = run render (before_render "dashboard" w)).
  { unfold w', run, handleDeleteServer_k, try_catch.
    rewrite (bind_ok _ _ w w v E), navigateTo_without_id, render_ok.
    reflexivity. }
  set (w0 := before_render "dashboard" w) in *.
  assert (S0 : token (st w0) = token (st w)
               /\ currentView (st w0) = "dashboard"
               /\ currentServer (st w0) = currentServer (st w)).
  { unfold w0, before_render. cbn.
    destruct (pollInterval (st w)); cbn; auto. }
  destruct S0 as (T0 & V0 & C0).
  destruct (render_same_login w0) as (_ & _ & V1 & _ & C1 & _).
  fold (run render w0) in V1, C1. rewrite <- R in V1, C1.
  split; [ congruence | ]. split; [ congruence | ]. split.
  - rewrite R, render_shows, T0.
    destruct (truthy (token (st w))); [ | reflexivity ].
    now apply layout_dashboard.
  - intro H. unfold w'.
    replace (run (handleDeleteServer_k n) w)
      with (run (navigateTo "dashboard" Undefined) w);
      [ now apply navigateTo_tracked | ].
    unfold run, handleDeleteServer_k, try_catch.
    rewrite (bind_ok _ _ w w v E), navigateTo_without_id, render_ok.
    reflexivity.
Qed.

Lemma delete_success_shows_dashboard_witness :
  fails (Responds no_content) = false
  /\ (let w' := run (handleDeleteServer_k (Responds no_content)) viewing_s1 in
      currentView (st w') = "dashboard"
      /\ currentServer (st w') = currentServer (st viewing_s1)
      /\ visible w'
         = (if truthy (token (st viewing_s1)) then dashboard_placeholders
            else renderLogin)
      /\ (tracked viewing_s1 -> tracked w')).
Proof.
  split; [ reflexivity | ].
  apply (delete_success_shows_dashboard (Responds no_content) viewing_s1).
  reflexivity.
Defined.

(** X1.  The page load.  [state.token] is the stored token, null when there
    is none or it is empty.  With a credential the dashboard is rendered
    with its placeholders, the servers and the stats are requested, both
    with the bearer token, and the 3000 ms poll is started; without one the
    login view is rendered, nothing is requested and no timer started. *)
Theorem page_load (stored : option string) :
  let w := boot stored in
  token (st w) = credential stored
  /\ (truthy (credential stored) = true ->
      visible w = dashboard_placeholders
      /\ timers w = [(1, TickDashboard)]
      /\ pending w = [AwaitDashboard]
      /\ log w = [Rendered "dashboard";
                  Fetch "/api/servers" "GET"
                    (request_headers (credential stored));
                  Fetch "/api/stats" "GET"
                    (request_headers (credential stored));
                  SetInterval 1 TickDashboard 3000])
  /\ (truthy (credential stored) = false ->
      visible w = renderLogin /\ timers w = [] /\ pending w = []
      /\ log w = [Rendered "login"]).
Proof.
  intro w. subst w. unfold boot. fold (credential stored).
  generalize (credential stored). intro tok.
  split; [ | split ].
  - match goal with
    | |- token (st (run render ?w0)) = _ =>
        destruct (render_same_login w0) as (T & _)
    end.
    exact T.
  - intro H. unfold run, render, bind, get_state. cbn [st token].
    rewrite H. cbn. unfold request_headers. rewrite H. repeat split.
  - intro H. unfold run, render, bind, get_state. cbn [st token].
    rewrite H. cbn. repeat split.
Qed.

(** *** Logging in *)

Lemma submitLogin_k_reply (res tok : value) (w : world) :
  prop res "token" = Some tok ->
  run (submitLogin_k (delivers res)) w
  = run render (run (storage_set_token tok) (run (set_token tok) w)).
Proof.
  intro H. unfold run, submitLogin_k, try_catch.
  rewrite (bind_ok _ _ w w res) by reflexivity.
  rewrite (bind_ok _ _ w w tok) by (unfold read; now rewrite H).
  rewrite (bind_ok _ _ w (run (set_token tok) w) tt) by reflexivity.
  rewrite (bind_ok _ _ _
             (run (storage_set_token tok) (run (set_token tok) w)) tt)
    by reflexivity.
  rewrite render_ok. reflexivity.
Qed.

Lemma token_stored (tok : value) (w : world) :
  let w0 := run (storage_set_token tok) (run (set_token tok) w) in
  token (st w0) = tok /\ stored_token w0 = Some (to_string tok)
  /\ currentView (st w0) = currentView (st w)
  /\ currentServer (st w0) = currentServer (st w)
  /\ timers w0 = timers w /\ next_timer w0 = next_timer w
  /\ layout (st w0) = layout (st w).
Proof. repeat split; reflexivity. Qed.



(** X8.  A login answered by an object whose [token] is missing or falsy:
    [state.token] takes that value and [render] shows the login view again,
    with no timer started; but [localStorage] now holds its string
    conversion ("undefined" for a missing field), and unless that string is
    empty the next page load takes it for a credential and renders the
    dashboard. *)
Theorem login_reply_without_token (res tok : value) (w : world) :
  prop res "token" = Some tok -> truthy tok = false ->
  let w' := run (submitLogin_k (delivers res)) w in
  token (st w') = tok
  /\ stored_token w' = Some (to_string tok)
  /\ visible w' = renderLogin
  /\ timers w' = timers w
  /\ (to_string tok <> "" ->
      visible (boot (stored_token w')) = dashboard_placeholders).
Proof.
  intros H T w'. unfold w'. rewrite (submitLogin_k_reply res tok w H).
  destruct (token_stored tok w) as (A1 & A2 & A3 & _ & A5 & A6 & A7).
  set (w0 := run (storage_set_token tok) (run (set_token tok) w)) in *.
  clearbody w0.
  destruct (render_same_login w0) as (T1 & S1 & _).
  fold (run render w0) in T1, S1.
  split; [ congruence | ]. split; [ congruence | ].
  split; [ now rewrite render_shows, A1, T | ].
  split.
  { pose proof (render_poll w0) as P. unfold poll_of in P.
    rewrite A1, T in P. cbn [negb] in P. destruct P as (P1 & _). congruence. }
  intro Hne. rewrite S1, A2.
  apply String.eqb_neq in Hne.
  unfold boot. rewrite Hne, render_shows. cbn [st token truthy].
  rewrite Hne. reflexivity.
Qed.

Lemma login_reply_without_token_witness :
  prop (Obj []) "token" = Some Undefined
  /\ truthy Undefined = false
  /\ (let w' := run (submitLogin_k (delivers (Obj []))) (boot None) in
      token (st w') = Undefined
      /\ stored_token w' = Some (to_string Undefined)
      /\ visible w' = renderLogin
      /\ timers w' = timers (boot None)
      /\ (to_string Undefined <> "" ->
          visible (boot (stored_token w')) = dashboard_placeholders)).
Proof.
  split; [ reflexivity | ]. split; [ reflexivity | ].
  apply (login_reply_without_token (Obj []) Undefined (boot None));
    reflexivity.
Defined.

(** *** Handlers that alert *)

(** X15.  The handlers of start, stop, restart and delete of a server, of
    set-default, backup and delete of a world, of install and remove of a
    plugin, of saving the settings and of saving a file all surface a
    failed request the same way: [alert] with the text the server sent (or
    the status line, or the message of the rejected [fetch]), and nothing
    else; no optimistic badge, no reload, no other change. *)
Theorem failed_action_is_alerted (name : string) (k : net -> js unit)
        (n : net) (w : world) :
  In k (alerting name) -> fails n = true -> unauthorized n = false ->
  run (k n) w = emit (Alert (failure_message n)) w.
Proof.
  intros A F U. pose proof (request_k_fails n w F U) as E.
  unfold alerting in A. cbn [In] in A.
  repeat (destruct A as [<- | A];
          [ unfold run, handleStart_k, handleStop_k, handleRestart_k,
              handleDeleteServer_k, setDefaultWorld_k, backupWorld_k,
              deleteWorld_k, installPlugin_k, removePlugin_k, saveSettings_k,
              saveFile_k, try_catch;
            rewrite (bind_throw _ _ w w _ E); reflexivity | ]).
  contradiction.
Qed.

Lemma failed_action_is_alerted_witness :
  In handleStop_k (alerting "world")
  /\ fails (Responds disk_full) = true
  /\ unauthorized (Responds disk_full) = false
  /\ run (handleStop_k (Responds disk_full)) viewing_s1
     = emit (Alert (failure_message (Responds disk_full))) viewing_s1.
Proof.
  split; [ right; left; reflexivity | ].
  split; [ reflexivity | ]. split; [ reflexivity | ].
  apply (failed_action_is_alerted "world" handleStop_k (Responds disk_full)
           viewing_s1);
    [ right; left; reflexivity | reflexivity | reflexivity ].
Defined.

(** *** Dialogs *)

Lemma visible_write (w : world) (p : path) (ks : list node) (fr : nat) :
  app_view (visible (put_root (update_at p (set_kids ks) (root w)) fr w))
  = hupdate_at p (hset_kids (map erase ks)) (app_view (visible w)).
Proof.
  destruct p as [| k p]; [ reflexivity | ].
  now destruct (write_kids w (k :: p) ks fr ltac:(discriminate)) as (W & _).
Qed.

Lemma visible_set_innerHTML (w : world) (p : path) (frag : list html) :
  app_view (visible (run (set_innerHTML p frag) w))
  = hupdate_at p (hset_kids frag) (app_view (visible w)).
Proof.
  unfold run, set_innerHTML, act. cbn [fst].
  rewrite visible_write, erase_create_all. reflexivity.
Qed.

Lemma visible_set_textContent (w : world) (p : path) (v : value) :
  app_view (visible (run (set_textContent p v) w))
  = hupdate_at p (hset_kids (txt (text_of v))) (app_view (visible w)).
Proof.
  unfold run, set_textContent, act. cbn [fst].
  rewrite visible_write, erase_text_kids. reflexivity.
Qed.

Lemma find_modal (w : world) (main : html) (modal : list html) :
  visible w = page_with main modal -> dialog_free main ->
  find_id "modal-container" (root w) = Some [1].
Proof.
  intros V D. rewrite find_id_visible, V.
  unfold dialog_free, dialog_ids in D. inversion D as [| ? ? H _].
  unfold app_view, page_with. rewrite hfind_id_elem.
  cbn [String.eqb Ascii.eqb Bool.eqb]. cbn [hscan_id].
  rewrite H. reflexivity.
Qed.

Lemma dialog_free_at (main : html) (i : string) :
  dialog_free main -> In i dialog_ids -> hfind_id i main = None.
Proof. unfold dialog_free. rewrite Forall_forall. auto. Qed.

Lemma find_in_dialog (w : world) (main : html) (modal : list html)
      (i : string) :
  visible w = page_with main modal -> dialog_free main -> In i dialog_ids ->
  find_id i (root w)
  = hfind_id i (app_view [el_id "div" "pad" [] [];
                          el_id "div" "modal-container" [] modal]).
Proof.
  intros V D Hi. rewrite find_id_visible, V.
  pose proof (dialog_free_at main i D Hi) as H.
  unfold app_view, page_with. rewrite !hfind_id_elem.
  cbn [hscan_id]. rewrite H.
  assert (P : hfind_id i (el_id "div" "pad" [] []) = None).
  { unfold dialog_ids in Hi. cbn [In] in Hi.
    repeat (destruct Hi as [<- | Hi]; [ reflexivity | ]). contradiction. }
  rewrite P. reflexivity.
Qed.

Lemma fill_modal (w : world) (main : html) (modal frag : list html) :
  visible w = page_with main modal ->
  visible (run (set_innerHTML [1] frag) w) = page_with main frag.
Proof.
  intro V. apply app_view_inj. rewrite visible_set_innerHTML, V. reflexivity.
Qed.

(** X17.  On the page of a logged-in user, [showUploadWorldModal],
    [openFile] and [showCreateModal] each put their dialog into
    [#modal-container] in place of whatever it held, and [closeModal]
    empties it; the layout beside it is untouched.  So at most one dialog
    is mounted, the one opened last.  For a path that holds no markup and
    no double quote the editor is headed "Edit " and the path.  The create
    dialog shows "Loading..." in its version selector at once. *)
Theorem dialogs_replace_each_other (w : world) (main : html)
        (modal : list html) (path : string) :
  visible w = page_with main modal -> dialog_free main ->
  visible (run showUploadWorldModal w) = page_with main upload_dialog
  /\ (exists dialog, visible (run (openFile path) w) = page_with main dialog)
  /\ (plain path = true -> unquoted path = true ->
      visible (run (openFile path) w)
      = page_with main (editor_form [HText ("Edit " ++ path)]))
  /\ visible (run showCreateModal w)
     = page_with main
         (create_form [el "option" [] [HText "Loading..."]] "Create")
  /\ visible (run closeModal w) = page_with main [].
Proof.
  intros V D. pose proof (find_modal w main modal V D) as M.
  assert (G : getElementById "modal-container" w = (w, Ok (Some [1])))
    by (unfold getElementById; now rewrite M).
  assert (E : visible (run (openFile path) w)
              = page_with main (editor_dialog path)).
  { unfold run, openFile.
    rewrite (bind_ok _ _ w w _ G), (bind_ok _ _ w w [1]) by reflexivity.
    rewrite (bind_ok _ _ w (run (set_innerHTML [1] (editor_dialog path)) w) tt)
      by reflexivity.
    pose proof (fill_modal w main modal (editor_dialog path) V) as V1.
    set (w1 := run (set_innerHTML [1] (editor_dialog path)) w) in *.
    rewrite (bind_ok _ _ w1 w1 (st w1)) by reflexivity. exact V1. }
  split; [ | split; [ | split; [ | split ] ] ].
  - unfold run, showUploadWorldModal.
    rewrite (bind_ok _ _ w w _ G), (bind_ok _ _ w w [1]) by reflexivity.
    now apply (fill_modal w main modal).
  - eexists. exact E.
  - intros P _. rewrite E. unfold editor_dialog.
    rewrite parse_html_plain by (rewrite plain_app, P; reflexivity).
    reflexivity.
  - unfold run, showCreateModal.
    rewrite (bind_ok _ _ w w _ G), (bind_ok _ _ w w [1]) by reflexivity.
    rewrite (bind_ok _ _ w (run (set_innerHTML [1] create_dialog) w) tt)
      by reflexivity.
    pose proof (fill_modal w main modal create_dialog V) as V1.
    set (w1 := run (set_innerHTML [1] create_dialog) w) in *. clearbody w1.
    pose proof (fun i => find_in_dialog w1 main create_dialog i V1 D) as L.
    unfold try_catch, updateVersionSelector.
    rewrite (bind_ok _ _ w1 w1 (Some [1;0;0;1;1;1]))
      by (unfold getElementById; rewrite L; [ reflexivity | cbn; tauto ]).
    rewrite (bind_ok _ _ w1 w1 [1;0;0;1;1;1]) by reflexivity.
    rewrite (bind_ok _ _ w1 w1 (Some [1;0;0;1;2;1]))
      by (unfold getElementById; rewrite L; [ reflexivity | cbn; tauto ]).
    rewrite (bind_ok _ _ w1 w1 (Some [1;0;0;1;3;1]))
      by (unfold getElementById; rewrite L; [ reflexivity | cbn; tauto ]).
    match goal with
    | |- context [identity ?p] =>
        rewrite (bind_ok _ _ w1 w1 _ (eq_refl : identity p w1 = (w1, Ok _)))
    end.
    match goal with
    | |- context [set_innerHTML ?p ?f] =>
        rewrite (bind_ok _ _ w1 (run (set_innerHTML p f) w1) tt) by reflexivity;
        pose proof (visible_set_innerHTML w1 p f) as V2;
        set (w2 := run (set_innerHTML p f) w1) in *
    end.
    rewrite V1 in V2. clearbody w2.
    rewrite (bind_ok _ _ w2 w2 [1;0;0;1;3;1]) by reflexivity.
    match goal with
    | |- context [request ?u ?m] =>
        rewrite (bind_ok _ _ w2 (run (request u m) w2) tt) by reflexivity
    end.
    cbn [fst ret]. apply app_view_inj.
    etransitivity; [ exact V2 | ]. reflexivity.
  - unfold run, closeModal.
    rewrite (bind_ok _ _ w w _ G), (bind_ok _ _ w w [1]) by reflexivity.
    now apply (fill_modal w main modal).
Qed.

Lemma dialogs_replace_each_other_witness :
  visible upload_open = page_with (main_of worlds_tab) upload_dialog
  /\ dialog_free (main_of worlds_tab)
  /\ (visible (run showUploadWorldModal upload_open)
      = page_with (main_of worlds_tab) upload_dialog
      /\ (exists dialog,
             visible (run (openFile "server.properties") upload_open)
             = page_with (main_of worlds_tab) dialog)
      /\ (plain "server.properties" = true ->
          unquoted "server.properties" = true ->
          visible (run (openFile "server.properties") upload_open)
          = page_with (main_of worlds_tab)
              (editor_form [HText "Edit server.properties"]))
      /\ visible (run showCreateModal upload_open)
         = page_with (main_of worlds_tab)
             (create_form [el "option" [] [HText "Loading..."]] "Create")
      /\ visible (run closeModal upload_open)
         = page_with (main_of worlds_tab) []).
Proof.
  split; [ vm_compute; reflexivity | ].
  split; [ repeat constructor | ].
  apply (dialogs_replace_each_other upload_open (main_of worlds_tab)
           upload_dialog "server.properties");
    [ vm_compute; reflexivity | repeat constructor ].
Defined.

Lemma firstn_rev_newest {A} (k : nat) (l : list A) :
  firstn k (rev l) = newest k l.
Proof. apply firstn_rev. Qed.

Lemma via_found (r : nat) (p : path) (write : path -> js unit) (w : world) :
  find_nid r (root w) = Some p -> via (Some r) write w = write p w.
Proof. intro H. unfold via. now rewrite H. Qed.

Lemma fill_versions (w : world) (main : html) (old new : list html)
      (label : string) :
  visible w = page_with main (create_form old label) ->
  visible (run (set_innerHTML version_path new) w)
  = page_with main (create_form new label).
Proof.
  intro V. apply app_view_inj. rewrite visible_set_innerHTML, V.
  unfold create_form, txt. destruct (label =? ""); reflexivity.
Qed.

Lemma version_option_plain (v : value) :
  plain_version v = true -> version_option v = option_shown v.
Proof.
  unfold plain_version. intro H. apply andb_prop in H as [P _].
  unfold version_option, option_shown. rewrite (parse_html_plain _ P).
  unfold txt.
  destruct (to_string v =? "") eqn:E; cbn [map inner_text String.concat];
    [ reflexivity | now rewrite E ].
Qed.

Lemma version_options_plain (vs : list value) :
  forallb plain_version vs = true ->
  map version_option vs = map option_shown vs.
Proof.
  induction vs as [| v vs IH]; [ reflexivity | ].
  cbn [forallb map]. intro H. apply andb_prop in H as [Hv H].
  now rewrite (version_option_plain v Hv), (IH H).
Qed.



Lemma find_nid_elem (i j : nat) (t e : string) (c : list string)
      (ks : list node) :
  find_nid i (Elem j t e c ks)
  = if (j =? i)%nat then Some [] else scan_nid i ks 0.
Proof. reflexivity. Qed.

Lemma scan_nid_update (i : nat) (f : node -> node) (l : list node) :
  Forall (fun x => forall p, find_nid i x = Some p ->
                             find_nid i (update_at p f x) = Some p) l ->
  forall k q, scan_nid i l k = Some q ->
              exists j p, q = (k + j) :: p
                          /\ scan_nid i (update_nth j (update_at p f) l) k
                             = Some q.
Proof.
  induction 1 as [| x r Hx _ IH]; intros k q Hq; cbn in Hq; [ discriminate | ].
  destruct (find_nid i x) as [p0 |] eqn:E.
  - injection Hq as <-. exists 0, p0. rewrite Nat.add_0_r.
    split; [ reflexivity | ]. cbn. now rewrite (Hx p0 eq_refl).
  - destruct (IH (S k) q Hq) as (j & p & -> & Hs). exists (S j), p.
    split; [ f_equal; lia | ]. cbn. rewrite E.
    replace (k + S j) with (S k + j) by lia. exact Hs.
Qed.

(** A write into the node a reference points to leaves the reference
    pointing to it. *)
Lemma find_nid_update_at (i : nat) (f : node -> node) :
  (forall m, nid_of (f m) = nid_of m) ->
  forall n p, find_nid i n = Some p -> find_nid i (update_at p f n) = Some p.
Proof.
  intro Hf.
  induction n as [s | n0 t e c ks IH] using node_nested_ind; intros p Hp.
  - discriminate.
  - rewrite find_nid_elem in Hp. destruct (n0 =? i)%nat eqn:E.
    + injection Hp as <-. cbn [update_at].
      specialize (Hf (Elem n0 t e c ks)). cbn in Hf.
      destruct (f (Elem n0 t e c ks)) as [s | n1 t1 e1 c1 ks1];
        [ discriminate | ].
      injection Hf as ->. rewrite find_nid_elem. now rewrite E.
    + destruct (scan_nid_update i f ks IH 0 p Hp) as (j & p' & -> & Hs).
      cbn [Nat.add update_at]. rewrite find_nid_elem, E. exact Hs.
Qed.

Lemma find_nid_set_textContent (i : nat) (p : path) (v : value) (w : world) :
  find_nid i (root w) = Some p -> p <> [] ->
  find_nid i (root (run (set_textContent p v) w)) = Some p.
Proof.
  intros H Hp. unfold run, set_textContent, act. cbn [fst].
  rewrite root_put_app
    by (apply is_app_update_at; [ exact Hp | apply is_app_root ]).
  apply find_nid_update_at; [ | exact H ]. now intros [].
Qed.

Lemma hfind_id_text (i s : string) : hfind_id i (HText s) = None.
Proof. reflexivity. Qed.

Lemma no_id_in_options (i : string) (vs : list value) :
  i <> "" -> forall k, hscan_id i (map version_option vs) k = None.
Proof.
  intro Hi. apply String.eqb_neq in Hi. rewrite String.eqb_sym in Hi.
  induction vs as [| v vs IH]; intro k; [ reflexivity | ].
  cbn [map hscan_id]. unfold version_option at 1, el, txt.
  rewrite hfind_id_elem, Hi.
  match goal with
  | |- context [if ?b then _ else _] => destruct b
  end; cbn [hscan_id]; rewrite ?hfind_id_text; apply IH.
Qed.

Ltac hlookup :=
  unfold app_view, page_with, create_form, el, el_id, txt;
  repeat (rewrite ?hfind_id_text, ?hfind_id_elem, ?no_id_in_options
            by discriminate;
          cbn [String.eqb Ascii.eqb Bool.eqb hscan_id]);
  try reflexivity.

Lemma relabel (w : world) (main : html) (versions : list html)
      (old new : string) :
  visible w = page_with main (create_form versions old) ->
  visible (run (set_textContent create_btn_path (Str new)) w)
  = page_with main (create_form versions new).
Proof.
  intro V. apply app_view_inj. rewrite visible_set_textContent, V.
  unfold create_form, txt. destruct (old =? ""); reflexivity.
Qed.

(** X19.  Submitting the create dialog relabels its button "Creating..." and
    sends one POST to /api/servers.  When that request fails (not by a
    401), the message is alerted and the button gets its label "Create"
    back: the screen is again what it was before the submit. *)
Theorem failed_create_restores_the_form
        (w : world) (main : html) (vs : list value) (i : nat) (n : net) :
  let versions := map version_option vs in
  visible w = page_with main (create_form versions "Create") ->
  dialog_free main ->
  nid_at create_btn_path (root w) = Some i ->
  find_nid i (root w) = Some create_btn_path ->
  fails n = true -> unauthorized n = false ->
  let w1 := run handleCreate w in
  let w2 := run (handleCreate_k (Some i) n) w1 in
  result handleCreate w = Ok (Some i)
  /\ visible w1 = page_with main (create_form versions "Creating...")
  /\ log w1 = (log w ++ [Fetch "/api/servers" "POST"
                           (request_headers (token (st w)))])%list
  /\ visible w2 = visible w
  /\ log w2 = (log w1 ++ [Alert (failure_message n)])%list.
Proof.
  intros versions V D I R F U.
  pose proof (fun j => find_in_dialog w main _ j V D) as L.
  set (wa := run (set_textContent create_btn_path (Str "Creating...")) w).
  pose proof (relabel w main versions _ "Creating..." V) as Va. fold wa in Va.
  pose proof (fun j => find_in_dialog wa main _ j Va D) as La.
  set (wb := run (request "/servers" "POST") wa).
  assert (E : handleCreate w = (wb, Ok (Some i))).
  { unfold handleCreate.
    assert (X : getElementById "create-btn" w = (w, Ok (Some create_btn_path))).
    { unfold getElementById. rewrite L by (cbn; tauto). unfold versions.
      hlookup. }
    rewrite (bind_ok _ _ w w _ X).
    rewrite (bind_ok _ _ w w create_btn_path) by reflexivity.
    rewrite (bind_ok _ _ w w (Some i))
      by (unfold identity; unfold nid_at in I; now rewrite <- I).
    rewrite (bind_ok _ _ w wa tt) by reflexivity.
    rewrite (bind_ok _ _ wa wa (Some [1;0;0;1;0;1]))
      by (unfold getElementById; rewrite La; [ reflexivity | cbn; tauto ]).
    rewrite (bind_ok _ _ wa wa [1;0;0;1;0;1]) by reflexivity.
    rewrite (bind_ok _ _ wa wa (Some [1;0;0;1;1;1]))
      by (unfold getElementById; rewrite La; [ reflexivity | cbn; tauto ]).
    rewrite (bind_ok _ _ wa wa [1;0;0;1;1;1]) by reflexivity.
    rewrite (bind_ok _ _ wa wa (Some version_path))
      by (unfold getElementById; rewrite La; [ reflexivity | cbn; tauto ]).
    rewrite (bind_ok _ _ wa wa version_path) by reflexivity.
    rewrite (bind_ok _ _ wa wb tt) by reflexivity.
    reflexivity. }
  unfold run, result. rewrite E. cbn [fst snd].
  split; [ reflexivity | ]. split; [ exact Va | ]. split; [ reflexivity | ].
  assert (Rb : find_nid i (root wb) = Some create_btn_path).
  { change (root wb) with (root wa).
    apply find_nid_set_textContent; [ exact R | discriminate ]. }
  assert (Vb : visible wb = page_with main (create_form versions "Creating..."))
    by exact Va.
  unfold handleCreate_k, try_catch.
  rewrite (bind_throw _ _ wb wb _ (request_k_fails n wb F U)).
  rewrite (bind_ok _ _ wb (emit (Alert (failure_message n)) wb) tt)
    by reflexivity.
  set (wc := emit (Alert (failure_message n)) wb).
  rewrite (via_found i create_btn_path _ wc Rb).
  split; [ | reflexivity ].
  rewrite V. now apply (relabel wc main versions "Creating...").
Qed.

Lemma failed_create_restores_the_form_witness :
  visible create_open
  = page_with (main_of dashboard_loaded)
      (create_form (map version_option [Str "Loading..."]) "Create")
  /\ dialog_free (main_of dashboard_loaded)
  /\ nid_at create_btn_path (root create_open) = Some 59
  /\ find_nid 59 (root create_open) = Some create_btn_path
  /\ fails (Responds disk_full) = true
  /\ unauthorized (Responds disk_full) = false
  /\ (let w1 := run handleCreate create_open in
      let w2 := run (handleCreate_k (Some 59) (Responds disk_full)) w1 in
      result handleCreate create_open = Ok (Some 59)
      /\ visible w1
         = page_with (main_of dashboard_loaded)
             (create_form (map version_option [Str "Loading..."])
                "Creating...")
      /\ log w1
         = (log create_open
            ++ [Fetch "/api/servers" "POST"
                  (request_headers (token (st create_open)))])%list
      /\ visible w2 = visible create_open
      /\ log w2
         = (log w1 ++ [Alert (failure_message (Responds disk_full))])%list).
Proof.
  split; [ vm_compute; reflexivity | ].
  split; [ repeat constructor | ].
  split; [ vm_compute; reflexivity | ].
  split; [ vm_compute; reflexivity | ].
  split; [ reflexivity | ]. split; [ reflexivity | ].
  apply (failed_create_restores_the_form create_open
           (main_of dashboard_loaded) [Str "Loading..."] 59
           (Responds disk_full));
    [ vm_compute; reflexivity | repeat constructor | vm_compute; reflexivity
    | vm_compute; reflexivity | reflexivity | reflexivity ].
Defined.

(** X20.  When the creation succeeds, the dialog is closed and the dashboard
    data is requested again (servers and stats), whatever dialog content
    was showing; the layout is untouched until that data arrives. *)
Theorem created_server_closes_the_dialog
        (w : world) (main : html) (modal : list html) (r : option nat)
        (n : net) :
  visible w = page_with main modal -> dialog_free main ->
  fails n = false ->
  let w' := run (handleCreate_k r n) w in
  visible w' = page_with main []
  /\ log w' = (log w ++ [Fetch "/api/servers" "GET"
                           (request_headers (token (st w)));
                         Fetch "/api/stats" "GET"
                           (request_headers (token (st w)))])%list
  /\ pending w' = (pending w ++ [AwaitDashboard])%list.
Proof.
  intros V D F w'. pose proof (find_modal w main modal V D) as M.
  destruct (request_k_succeeds n w F) as (v & E).
  unfold w', run, handleCreate_k, try_catch.
  rewrite (bind_ok _ _ w w v E).
  rewrite (bind_ok _ _ w (run (set_innerHTML [1] []) w) tt).
  2:{ unfold closeModal.
      rewrite (bind_ok _ _ w w (Some [1]))
        by (unfold getElementById; now rewrite M).
      rewrite (bind_ok _ _ w w [1]) by reflexivity. reflexivity. }
  pose proof (fill_modal w main modal [] V) as V1.
  set (w1 := run (set_innerHTML [1] []) w) in *.
  split; [ exact V1 | ]. split.
  - cbn. now rewrite <- app_assoc.
  - reflexivity.
Qed.

Lemma created_server_closes_the_dialog_witness :
  visible create_open
  = page_with (main_of dashboard_loaded)
      (create_form [el "option" [] [HText "Loading..."]] "Create")
  /\ dialog_free (main_of dashboard_loaded)
  /\ fails (Responds created) = false
  /\ (let w' := run (handleCreate_k (Some 59) (Responds created))
                   create_open in
      visible w' = page_with (main_of dashboard_loaded) []
      /\ log w'
         = (log create_open
            ++ [Fetch "/api/servers" "GET"
                  (request_headers (token (st create_open)));
                Fetch "/api/stats" "GET"
                  (request_headers (token (st create_open)))])%list
      /\ pending w' = (pending create_open ++ [AwaitDashboard])%list).
Proof.
  split; [ vm_compute; reflexivity | ].
  split; [ repeat constructor | ].
  split; [ reflexivity | ].
  apply (created_server_closes_the_dialog create_open
           (main_of dashboard_loaded)
           (create_form [el "option" [] [HText "Loading..."]] "Create")
           (Some 59) (Responds created));
    [ vm_compute; reflexivity | repeat constructor | reflexivity ].
Defined.

Lemma untouched_refl (w : world) : untouched w w.
Proof. reflexivity. Qed.

Lemma untouched_trans (a b c : world) :
  untouched a b -> untouched b c -> untouched a c.
Proof. unfold untouched. congruence. Qed.

Ltac untouched_frame :=
  frame_with untouched_refl untouched_trans ltac:(fail).

(** X21.  [handleWorldUpload] with no file chosen returns before any
    request: nothing changes, whatever is on screen.  And when the upload
    is answered by a status that is not 2xx, whatever the status (a 401
    too) and whatever the body, the user is alerted "Upload failed" and
    nothing else happens: the dialog stays, and the credential as well. *)
Theorem upload_needs_a_file_and_hides_the_reason (w : world) (r : response) :
  run (handleWorldUpload false) w = w
  /\ (ok r = false ->
      run (handleWorldUpload_k (Responds r)) w
      = emit (Alert "Upload failed") w).
Proof.
  split.
  - assert (K : keeps untouched (handleWorldUpload false)).
    { unfold handleWorldUpload. cbn [negb]. untouched_frame. }
    exact (K w).
  - intro H. unfold run, handleWorldUpload_k, try_catch, uploadWorld_k.
    rewrite H. reflexivity.
Qed.

Lemma close_dialog (w : world) (main : html) (modal : list html) :
  visible w = page_with main modal -> dialog_free main ->
  closeModal w = (run (set_innerHTML [1] []) w, Ok tt)
  /\ visible (run (set_innerHTML [1] []) w) = page_with main [].
Proof.
  intros V D. pose proof (find_modal w main modal V D) as M. split.
  - unfold closeModal.
    rewrite (bind_ok _ _ w w (Some [1]))
      by (unfold getElementById; now rewrite M).
    rewrite (bind_ok _ _ w w [1]) by reflexivity. reflexivity.
  - now apply (fill_modal w main modal).
Qed.

Lemma find_in_main (w : world) (main : html) (modal : list html) (i : string) :
  visible w = page_with main modal -> modal = [] ->
  (i =? "modal-container") = false -> (i =? "app") = false ->
  find_id i (root w) = option_map (cons 0) (hfind_id i main).
Proof.
  intros V -> H H'. rewrite find_id_visible, V.
  unfold app_view, page_with, el_id.
  rewrite hfind_id_elem. rewrite String.eqb_sym, H'. cbn [hscan_id].
  destruct (hfind_id i main); [ reflexivity | ].
  rewrite hfind_id_elem. rewrite String.eqb_sym, H. reflexivity.
Qed.

(** X22.  When the upload succeeds, the dialog is closed and, if the worlds
    list is on the page, the worlds and the configuration of the current
    server are requested again; if it is not, nothing is requested. *)
Theorem finished_upload_reloads_the_worlds
        (w : world) (main : html) (modal : list html) (r : response) :
  visible w = page_with main modal -> dialog_free main -> ok r = true ->
  let w' := run (handleWorldUpload_k (Responds r)) w in
  let id := to_string (currentServer (st w)) in
  let headers := request_headers (token (st w)) in
  visible w' = page_with main []
  /\ log w'
     = (log w ++ match hfind_id "worlds-list" main with
                 | Some _ =>
                     [Fetch ("/api/servers/" ++ id ++ "/worlds") "GET" headers;
                      Fetch ("/api/servers/" ++ id ++ "/config") "GET" headers]
                 | None => []
                 end)%list.
Proof.
  intros V D H w' id headers.
  destruct (close_dialog w main modal V D) as (C & V1).
  set (w1 := run (set_innerHTML [1] []) w) in *.
  pose proof (find_in_main w1 main [] "worlds-list" V1 eq_refl eq_refl eq_refl)
    as L.
  unfold w', run, handleWorldUpload_k, try_catch.
  rewrite (bind_ok _ _ w w (upload_resolved r))
    by (unfold uploadWorld_k, upload_resolved; rewrite H; cbn [negb];
        destruct ((status r =? 204) || (status r =? 201))%Z; reflexivity).
  rewrite (bind_ok _ _ w w1 tt C).
  unfold detached, try_catch, loadWorlds.
  rewrite (bind_ok _ _ w1 w1 _ (eq_refl : getElementById "worlds-list" w1 = _)).
  rewrite L.
  destruct (hfind_id "worlds-list" main); cbn [option_map].
  - split; [ exact V1 | ]. cbn. now rewrite <- app_assoc.
  - split; [ exact V1 | ]. cbn. now rewrite app_nil_r.
Qed.

Lemma finished_upload_reloads_the_worlds_witness :
  visible upload_open = page_with (main_of worlds_tab) upload_dialog
  /\ dialog_free (main_of worlds_tab)
  /\ ok created = true
  /\ (let w' := run (handleWorldUpload_k (Responds created)) upload_open in
      let id := to_string (currentServer (st upload_open)) in
      let headers := request_headers (token (st upload_open)) in
      visible w' = page_with (main_of worlds_tab) []
      /\ log w'
         = (log upload_open
            ++ match hfind_id "worlds-list" (main_of worlds_tab) with
               | Some _ =>
                   [Fetch ("/api/servers/" ++ id ++ "/worlds") "GET" headers;
                    Fetch ("/api/servers/" ++ id ++ "/config") "GET" headers]
               | None => []
               end)%list).
Proof.
  split; [ vm_compute; reflexivity | ].
  split; [ repeat constructor | ].
  split; [ reflexivity | ].
  apply (finished_upload_reloads_the_worlds upload_open (main_of worlds_tab)
           upload_dialog created);
    [ vm_compute; reflexivity | repeat constructor | reflexivity ].
Defined.

(** X23.  When the file opened in the editor cannot be read, because the
    request fails (not by a 401) or because the reply has no usable body,
    the user is alerted and the editor is closed again; the layout is
    untouched. *)
Theorem unreadable_file_closes_the_editor
        (w : world) (main : html) (modal : list html) (n : net) :
  visible w = page_with main modal -> dialog_free main ->
  unauthorized n = false ->
  let w' := run (openFile_k n) w in
  (fails n = true ->
   visible w' = page_with main []
   /\ log w' = (log w ++ [Alert (failure_message n)])%list)
  /\ (forall r, n = Responds r -> ok r = true ->
                readable (resolved r) = false ->
                visible w' = page_with main []
                /\ exists msg, log w' = (log w ++ [Alert msg])%list).
Proof.
  intros V D U w'. split.
  - intro F. unfold w', run, openFile_k, try_catch.
    rewrite (bind_throw _ _ w w _ (request_k_fails n w F U)).
    rewrite (bind_ok _ _ w (emit (Alert (failure_message n)) w) tt)
      by reflexivity.
    destruct (close_dialog (emit (Alert (failure_message n)) w) main modal V D)
      as (C & V1).
    rewrite C. cbn [fst]. split; [ exact V1 | reflexivity ].
  - intros r -> Hok Hr. unfold w', run, openFile_k, try_catch.
    rewrite (bind_ok _ _ w w _ (request_k_2xx r w Hok)).
    rewrite (bind_ok _ _ w w _ (eq_refl : getElementById "editor" w = _)).
    assert (P : prop (resolved r) "content" = None)
      by (destruct (resolved r); try discriminate; reflexivity).
    rewrite (bind_throw _ _ w w (Error ("TypeError: cannot read properties")))
      by (unfold read; rewrite P; reflexivity).
    match goal with
    | |- context [alert ?v] =>
        rewrite (bind_ok _ _ w (run (alert v) w) tt) by reflexivity;
        destruct (close_dialog (run (alert v) w) main modal V D) as (C & V1)
    end.
    rewrite C. cbn [fst]. split; [ exact V1 | ]. eexists. reflexivity.
Qed.

Lemma unreadable_file_closes_the_editor_witness :
  visible editor_open
  = page_with (main_of files_tab) (editor_dialog "server.properties")
  /\ dialog_free (main_of files_tab)
  /\ unauthorized (Responds disk_full) = false
  /\ (let w' := run (openFile_k (Responds disk_full)) editor_open in
      (fails (Responds disk_full) = true ->
       visible w' = page_with (main_of files_tab) []
       /\ log w'
          = (log editor_open
             ++ [Alert (failure_message (Responds disk_full))])%list)
      /\ (forall r, Responds disk_full = Responds r -> ok r = true ->
                    readable (resolved r) = false ->
                    visible w' = page_with (main_of files_tab) []
                    /\ exists msg,
                         log w' = (log editor_open ++ [Alert msg])%list)).
Proof.
  split; [ vm_compute; reflexivity | ].
  split; [ repeat constructor | ].
  split; [ reflexivity | ].
  apply (unreadable_file_closes_the_editor editor_open (main_of files_tab)
           (editor_dialog "server.properties") (Responds disk_full));
    [ vm_compute; reflexivity | repeat constructor | reflexivity ].
Defined.

(** *** The file browser *)

Lemma split_slash_cons (s : string) :
  exists h t, split_slash s = h :: t.
Proof.
  destruct s as [| c r]; cbn; [ now exists "", [] | ].
  destruct (c =? "/")%char; [ now exists "", (split_slash r) | ].
  destruct (split_slash r) as [| h t]; eauto.
Qed.

Lemma split_no_slash (n : string) :
  no_slash n = true -> split_slash n = [n].
Proof.
  induction n as [| c r IH]; cbn; [ reflexivity | ].
  intro H. apply andb_true_iff in H. destruct H as (Hc & Hr).
  apply negb_true_iff in Hc. rewrite Hc, (IH Hr). reflexivity.
Qed.

Lemma split_slash_app (d n : string) :
  split_slash (d ++ "/" ++ n) = (split_slash d ++ split_slash n)%list.
Proof.
  induction d as [| c r IH]; [ reflexivity | ].
  cbn [String.append split_slash].
  change (r ++ String "/" n) with (r ++ "/" ++ n). rewrite IH.
  destruct (c =? "/")%char; [ reflexivity | ].
  destruct (split_slash_cons r) as (h & t & ->). reflexivity.
Qed.

Lemma concat_cons_char (c : ascii) (h : string) (t : list string) :
  String.concat "/" (String c h :: t) = String c (String.concat "/" (h :: t)).
Proof. destruct t; reflexivity. Qed.

(** [s.split('/').join('/')] is [s]. *)
Lemma join_split (s : string) : String.concat "/" (split_slash s) = s.
Proof.
  induction s as [| c r IH]; [ reflexivity | ].
  cbn [split_slash]. destruct (c =? "/")%char eqn:E.
  - apply Ascii.eqb_eq in E. subst c.
    destruct (split_slash_cons r) as (h & t & Hr). rewrite Hr in *.
    change (String.concat "/" ("" :: h :: t))
      with ("" ++ "/" ++ String.concat "/" (h :: t)).
    now rewrite IH.
  - destruct (split_slash_cons r) as (h & t & Hr). rewrite Hr in *.
    rewrite concat_cons_char. now rewrite IH.
Qed.

Lemma parent_of_entry (d n : string) :
  no_slash n = true -> parent (d ++ "/" ++ n) = d.
Proof.
  intro H. unfold parent.
  rewrite split_slash_app, (split_no_slash n H), removelast_last.
  apply join_split.
Qed.

Lemma parent_at_top (p : string) : no_slash p = true -> parent p = "".
Proof. intro H. unfold parent. now rewrite (split_no_slash p H). Qed.

(** X24.  After [loadFiles] has entered the entry [n] of the directory [d],
    that is the path [d/n] with no slash in [n], [goUp] is [loadFiles(d)]:
    [currentPath] is [d] again and the listing of [d] is asked for. *)
Theorem goUp_returns_to_the_directory (b : browser) (d n : string) :
  no_slash n = true ->
  let b' := goUp (loadFiles (d ++ "/" ++ n) b) in
  currentPath b' = d
  /\ page b'
     = run (detached (loadFiles_page d))
         (run (detached (loadFiles_page (d ++ "/" ++ n))) (page b)).
Proof.
  intros H b'. unfold b', goUp, loadFiles. cbn [currentPath page].
  fold (parent (d ++ "/" ++ n)). rewrite (parent_of_entry d n H).
  split; reflexivity.
Qed.

Lemma goUp_returns_to_the_directory_witness :
  no_slash "Essentials" = true
  /\ (let b' := goUp (loadFiles ("plugins" ++ "/" ++ "Essentials")
                        (mkBrowser files_tab "plugins")) in
      currentPath b' = "plugins"
      /\ page b'
         = run (detached (loadFiles_page "plugins"))
             (run (detached (loadFiles_page
                               ("plugins" ++ "/" ++ "Essentials")))
                (page (mkBrowser files_tab "plugins")))).
Proof.
  split; [ reflexivity | ].
  apply (goUp_returns_to_the_directory (mkBrowser files_tab "plugins")
           "plugins" "Essentials").
  reflexivity.
Defined.

Lemma components_no_slash (s : string) :
  Forall (fun x => no_slash x = true) (split_slash s).
Proof.
  induction s as [| c r IH]; cbn; [ repeat constructor | ].
  destruct (c =? "/")%char eqn:E; [ now constructor | ].
  destruct (split_slash r) as [| h t]; [ constructor; [ | constructor ] | ].
  - cbn. now rewrite E.
  - inversion IH as [| ? ? Hh Ht]. constructor; [ | exact Ht ].
    cbn. now rewrite E, Hh.
Qed.

(** [l.join('/').split('/')] is [l], for names without a slash. *)
Lemma split_join (l : list string) :
  l <> [] -> Forall (fun x => no_slash x = true) l ->
  split_slash (String.concat "/" l) = l.
Proof.
  induction l as [| x r IH]; [ contradiction | ]. intros _ H.
  inversion H as [| ? ? Hx Hr]. subst.
  destruct r as [| y r]; [ now apply split_no_slash | ].
  change (String.concat "/" (x :: y :: r))
    with (x ++ "/" ++ String.concat "/" (y :: r)).
  rewrite split_slash_app, (split_no_slash x Hx).
  rewrite IH; [ reflexivity | discriminate | exact Hr ].
Qed.

Lemma Forall_removelast {A} (P : A -> Prop) (l : list A) :
  Forall P l -> Forall P (removelast l).
Proof.
  induction 1 as [| x r Hx Hr IH]; [ constructor | ].
  cbn. destruct r; [ constructor | now constructor ].
Qed.

Lemma length_removelast {A} (l : list A) :
  List.length (removelast l) = List.length l - 1.
Proof.
  induction l as [| x r IH]; [ reflexivity | ].
  cbn [removelast]. destruct r as [| y r]; [ reflexivity | ].
  cbn [List.length] in *. lia.
Qed.

Lemma parents_reach_root (k : nat) :
  forall p, List.length (split_slash p) <= S k -> Nat.iter (S k) parent p = "".
Proof.
  induction k as [| k IH]; intros p H.
  - cbn. destruct (split_slash_cons p) as (h & t & E). unfold parent.
    rewrite E in *. destruct t; [ reflexivity | cbn in H; lia ].
  - rewrite Nat.iter_succ_r. apply IH.
    destruct (split_slash_cons p) as (h & t & E).
    destruct t as [| y t].
    + unfold parent. rewrite E. cbn. lia.
    + unfold parent. rewrite split_join.
      * rewrite length_removelast. lia.
      * rewrite E. cbn. destruct t; discriminate.
      * apply Forall_removelast, components_no_slash.
Qed.

Lemma goUp_iter (k : nat) (b : browser) :
  currentPath (Nat.iter k goUp b) = Nat.iter k parent (currentPath b).
Proof.
  induction k as [| k IH]; [ reflexivity | ].
  cbn [Nat.iter nat_rect].
  change (currentPath (goUp (Nat.iter k goUp b))
          = parent (Nat.iter k parent (currentPath b))).
  now rewrite <- IH.
Qed.

(** X25.  [goUp] from a path without a slash, the root [''] included, is
    [loadFiles('')]: [currentPath] becomes empty, the label shows "/" and
    the root listing is asked for.  From any path, as many calls of [goUp]
    as the path has components end at the root. *)
Theorem goUp_stops_at_the_root (b : browser) :
  (no_slash (currentPath b) = true ->
   goUp b = mkBrowser (run (detached loadFiles_root) (page b)) "")
  /\ currentPath
       (Nat.iter (List.length (split_slash (currentPath b))) goUp b) = "".
Proof.
  split.
  - intro H. unfold goUp, loadFiles. fold (parent (currentPath b)).
    rewrite (parent_at_top _ H). reflexivity.
  - rewrite goUp_iter.
    destruct (split_slash_cons (currentPath b)) as (h & t & E).
    rewrite E. cbn [List.length]. apply parents_reach_root.
    rewrite E. cbn. lia.
Qed.

(** *** The first snapshot of a server *)

Lemma header_markup_readable (server : value) :
  readable server = true -> plain_header server = true ->
  header_markup server = Some (header_shown server).
Proof.
  intros H P. destruct (plain_header_fields server P) as (Pn & Ps & Pi).
  unfold header_markup.
  rewrite (badge_classes_readable _ H), (info_line_readable _ H),
    (header_buttons_readable _ H), !(prop_readable _ _ H).
  rewrite Pn, Ps, Pi. reflexivity.
Qed.

Lemma sidebar_no_id (i : string) (s : state) :
  i <> "" -> hfind_id i (renderSidebar s) = None.
Proof.
  intro H. unfold renderSidebar, nav_item, el.
  destruct i as [| c r]; [ contradiction | ].
  destruct (currentView s =? "server"), (currentView s =? "dashboard"),
    (currentTab s =? "console"), (currentTab s =? "files"),
    (currentTab s =? "plugins"), (currentTab s =? "worlds"),
    (currentTab s =? "settings"); reflexivity.
Qed.

Lemma header_no_id (i : string) (server : value) (k : nat) :
  i <> "" -> hscan_id i (header_shown server) k = None.
Proof.
  intro H. unfold header_shown, buttons_html, txt, el.
  destruct i as [| c r]; [ contradiction | ].
  destruct (runs server), (to_string (field server "state") =? ""),
    (info_text server =? ""); reflexivity.
Qed.

Lemma get_at_erase (p : path) :
  forall n, hget_at p (erase n) = option_map erase (get_at p n).
Proof.
  induction p as [| k p IH]; intro n; [ reflexivity | ].
  destruct n as [s | i t e c ks]; [ reflexivity | ].
  cbn [erase hget_at get_at]. rewrite nth_error_map.
  destruct (nth_error ks k); cbn; [ apply IH | reflexivity ].
Qed.

Lemma update_header_empty (w : world) (server : value) (ph : path) (hid : nat)
      (markup : list html) :
  find_id "server-header" (root w) = Some ph ->
  get_at ph (root w) = Some (Elem hid "div" "server-header" [] []) ->
  header_markup server = Some markup ->
  update_header server w = set_innerHTML ph markup w.
Proof.
  intros Hf Hg Hm. unfold update_header, bind at 1, getElementById.
  rewrite Hf, Hg. cbn [query]. rewrite Hm. reflexivity.
Qed.

Ltac page_lookup :=
  unfold app_view, page_with, server_page, el, el_id;
  repeat (rewrite ?hfind_id_text, ?hfind_id_elem, ?sidebar_no_id,
            ?header_no_id by discriminate;
          cbn [String.eqb Ascii.eqb Bool.eqb hscan_id]).

Lemma find_in_server_page (w : world) (s : state)
      (header content modal : list html) (i : string) :
  visible w = page_with (server_page (renderSidebar s) header content) modal ->
  (header = [] \/ exists server, header = header_shown server) ->
  find_id "server-header" (root w) = Some [0; 1; 0]
  /\ find_id "tab-content" (root w) = Some [0; 1; 1]
  /\ (In i ["console-out"; "file-list"; "dir-path"; "worlds-list";
            "installed-plugins-list"; "settings-area"] ->
      forall k q, hscan_id i content 0 = Some (k :: q) ->
                  find_id i (root w) = Some (0 :: 1 :: 1 :: k :: q)).
Proof.
  intros V H. rewrite !find_id_visible, V.
  split; [ | split ].
  - page_lookup. reflexivity.
  - destruct H as [-> | (server & ->)]; page_lookup; reflexivity.
  - intros Hi k q Hq. cbn [In] in Hi.
    destruct H as [-> | (server & ->)];
      repeat (destruct Hi as [<- | Hi];
              [ page_lookup; rewrite Hq; reflexivity | ]);
      contradiction.
Qed.

Lemma setupConsole_ok (id : value) (w : world) :
  setupConsole id w = (run (setupConsole id) w, Ok tt)
  /\ body (run (setupConsole id) w) = body w
  /\ st (run (setupConsole id) w) = st w.
Proof.
  unfold run, setupConsole, bind. destruct (ws w); cbn; auto.
Qed.

Lemma empty_header_node (w : world) (s : state) (content modal : list html) :
  visible w = page_with (server_page (renderSidebar s) [] content) modal ->
  exists hid, get_at [0; 1; 0] (root w)
              = Some (Elem hid "div" "server-header" [] []).
Proof.
  intro V. pose proof (get_at_erase [0; 1; 0] (root w)) as E.
  rewrite erase_root, V in E. cbn [hget_at app_view page_with server_page el
                                     el_id nth_error] in E.
  destruct (get_at [0; 1; 0] (root w)) as [[x | hid t e c ks] |];
    try discriminate.
  cbn in E. injection E as <- <- <- E. destruct ks; [ | discriminate ].
  now exists hid.
Qed.

Lemma fill_tab (w : world) (sidebar : html) (header old new modal : list html) :
  visible w = page_with (server_page sidebar header old) modal ->
  visible (run (set_innerHTML [0; 1; 1] new) w)
  = page_with (server_page sidebar header new) modal.
Proof.
  intro V. apply app_view_inj. rewrite visible_set_innerHTML, V. reflexivity.
Qed.

Lemma mount_tab_run (w : world) (s : state) (modal : list html)
      (server : value) :
  visible w
  = page_with (server_page (renderSidebar s) (header_shown server) []) modal ->
  readable server = true ->
  exists w', mount_tab server w = (w', Ok tt)
    /\ visible w'
       = page_with (server_page (renderSidebar s) (header_shown server)
                      (tab_markup (currentTab (st w)))) modal
    /\ serverData (st w') = serverData (st w)
    /\ (currentTab (st w) = "console" ->
        ws w' = Some (next_socket w)
        /\ In (mkSocket (next_socket w) (console_url (field server "id")) true)
              (sockets w')).
Proof.
  intros V R.
  assert (H : exists srv, header_shown server = header_shown srv)
    by now exists server.
  destruct (find_in_server_page w s _ [] modal "" V (or_intror H))
    as (_ & Ft & _).
  assert (T : forall new,
             let w1 := run (set_innerHTML [0; 1; 1] new) w in
             visible w1
             = page_with (server_page (renderSidebar s) (header_shown server)
                            new) modal
             /\ st w1 = st w /\ sockets w1 = sockets w /\ ws w1 = ws w
             /\ next_socket w1 = next_socket w
             /\ forall i,
                 In i ["console-out"; "file-list"; "dir-path"; "worlds-list";
                       "installed-plugins-list"; "settings-area"] ->
                 forall k q, hscan_id i new 0 = Some (k :: q) ->
                             find_id i (root w1)
                             = Some (0 :: 1 :: 1 :: k :: q)).
  { intros new w1.
    pose proof (fill_tab w _ _ [] new modal V) as V1. fold w1 in V1.
    split; [ exact V1 | ]. repeat (split; [ reflexivity | ]).
    intro i. now destruct (find_in_server_page w1 s _ new modal i V1
                             (or_intror H)) as (_ & _ & L). }
  unfold mount_tab, tab_markup.
  rewrite (bind_ok _ _ w w (Some [0; 1; 1]))
    by (unfold getElementById; now rewrite Ft).
  rewrite (bind_ok _ _ w w (st w)) by reflexivity.
  destruct (currentTab (st w) =? "console") eqn:Ec;
    [ | destruct (currentTab (st w) =? "files") eqn:Ef;
        [ | destruct (currentTab (st w) =? "worlds") eqn:Ew;
            [ | destruct (currentTab (st w) =? "plugins") eqn:Ep;
                [ | destruct (currentTab (st w) =? "settings") eqn:Es ] ] ] ].
  - destruct (T renderConsole) as (V1 & S1 & K1 & W1 & N1 & _).
    set (w1 := run (set_innerHTML [0; 1; 1] renderConsole) w) in *.
    rewrite (bind_ok _ _ w w [0; 1; 1]) by reflexivity.
    rewrite (bind_ok _ _ w w1 tt) by reflexivity.
    rewrite (bind_ok _ _ w1 w1 (field server "id"))
      by (unfold read; now rewrite (prop_readable _ _ R)).
    destruct (setupConsole_ok (field server "id") w1) as (O & B & S3).
    destruct (setupConsole_run (field server "id") w1) as (K3 & W3 & _).
    eexists. split; [ exact O | ].
    split; [ unfold visible; rewrite B; exact V1 | ].
    split; [ congruence | ].
    intros _. split; [ congruence | ].
    rewrite K3, N1. apply in_or_app. right. now left.
  - destruct (T renderFiles) as (V1 & S1 & _ & _ & _ & L1).
    set (w1 := run (set_innerHTML [0; 1; 1] renderFiles) w) in *.
    rewrite (bind_ok _ _ w w [0; 1; 1]) by reflexivity.
    rewrite (bind_ok _ _ w w1 tt) by reflexivity.
    rewrite detached_ok. eexists. split; [ reflexivity | ].
    split; [ | split; [ | intro E; rewrite E in Ec; discriminate ] ].
    + rewrite run_detached. unfold run, loadFiles_root.
      rewrite (bind_ok _ _ w1 w1 (Some [0; 1; 1; 0; 1]))
        by (unfold getElementById;
            rewrite (L1 "file-list" ltac:(cbn; tauto) 0 [1] eq_refl);
            reflexivity).
      rewrite (bind_ok _ _ w1 w1 (Some [0; 1; 1; 0; 0; 0]))
        by (unfold getElementById;
            rewrite (L1 "dir-path" ltac:(cbn; tauto) 0 [0; 0] eq_refl);
            reflexivity).
      rewrite (bind_ok _ _ w1
                 (run (set_textContent [0; 1; 1; 0; 0; 0] (Str "/")) w1) tt)
        by reflexivity.
      pose proof (visible_set_textContent w1 [0; 1; 1; 0; 0; 0] (Str "/"))
        as V2.
      rewrite V1 in V2. apply app_view_inj.
      etransitivity; [ exact V2 | reflexivity ].
    + rewrite run_detached.
      assert (F : keeps same_login loadFiles_root)
        by (unfold loadFiles_root; login_frame).
      destruct (F w1) as (_ & _ & _ & _ & _ & Sd). unfold run.
      rewrite Sd. now rewrite S1.
  - destruct (T renderWorlds) as (V1 & S1 & _).
    set (w1 := run (set_innerHTML [0; 1; 1] renderWorlds) w) in *.
    rewrite (bind_ok _ _ w w [0; 1; 1]) by reflexivity.
    rewrite (bind_ok _ _ w w1 tt) by reflexivity.
    rewrite detached_ok. eexists. split; [ reflexivity | ].
    rewrite run_detached.
    assert (Fd : keeps same_dom loadWorlds) by (unfold loadWorlds; dom_frame).
    assert (Fl : keeps same_login loadWorlds)
      by (unfold loadWorlds; login_frame).
    destruct (Fd w1) as (B & _). destruct (Fl w1) as (_ & _ & _ & _ & _ & Sd).
    split; [ unfold run, visible; rewrite B; exact V1 | ].
    split; [ unfold run; rewrite Sd; now rewrite S1 | ].
    intro E; rewrite E in Ec; discriminate.
  - destruct (T renderPlugins) as (V1 & S1 & _).
    set (w1 := run (set_innerHTML [0; 1; 1] renderPlugins) w) in *.
    rewrite (bind_ok _ _ w w [0; 1; 1]) by reflexivity.
    rewrite (bind_ok _ _ w w1 tt) by reflexivity.
    rewrite detached_ok. eexists. split; [ reflexivity | ].
    rewrite run_detached.
    assert (Fd : keeps same_dom loadPlugins) by (unfold loadPlugins; dom_frame).
    assert (Fl : keeps same_login loadPlugins)
      by (unfold loadPlugins; login_frame).
    destruct (Fd w1) as (B & _). destruct (Fl w1) as (_ & _ & _ & _ & _ & Sd).
    split; [ unfold run, visible; rewrite B; exact V1 | ].
    split; [ unfold run; rewrite Sd; now rewrite S1 | ].
    intro E; rewrite E in Ec; discriminate.
  - destruct (T renderSettings) as (V1 & S1 & _).
    set (w1 := run (set_innerHTML [0; 1; 1] renderSettings) w) in *.
    rewrite (bind_ok _ _ w w [0; 1; 1]) by reflexivity.
    rewrite (bind_ok _ _ w w1 tt) by reflexivity.
    rewrite detached_ok. eexists. split; [ reflexivity | ].
    rewrite run_detached.
    assert (Fd : keeps same_dom loadSettings)
      by (unfold loadSettings; dom_frame).
    assert (Fl : keeps same_login loadSettings)
      by (unfold loadSettings; login_frame).
    destruct (Fd w1) as (B & _). destruct (Fl w1) as (_ & _ & _ & _ & _ & Sd).
    split; [ unfold run, visible; rewrite B; exact V1 | ].
    split; [ unfold run; rewrite Sd; now rewrite S1 | ].
    intro E; rewrite E in Ec; discriminate.
  - exists w. split; [ reflexivity | ]. split; [ exact V | ].
    split; [ reflexivity | ]. intro E; rewrite E in Ec; discriminate.
Qed.



(** *** The login view, in every reachable world *)

Lemma same_page_refl (w : world) : same_page w w.
Proof. now unfold same_page. Qed.

Lemma same_page_trans (a b c : world) :
  same_page a b -> same_page b c -> same_page a c.
Proof. unfold same_page. intros (? & ?) (? & ?). split; congruence. Qed.

Ltac page_leaf := unfold same_page; cbn; auto.
Ltac page_frame := frame_with same_page_refl same_page_trans page_leaf.

Lemma same_page_login_shown (w w' : world) :
  same_page w w' -> login_shown w -> login_shown w'.
Proof.
  intros (T & B) H. unfold login_shown, visible in *. rewrite T, B. exact H.
Qed.

Lemma render_login_shown (w : world) : login_shown (run render w).
Proof.
  intro H. destruct (render_same_login w) as (T & _).
  fold (run render w) in T. rewrite T in H.
  exists "Login failed.". rewrite render_shows, H. reflexivity.
Qed.

Lemma login_view_lookups (w : world) (err : string) :
  visible w = login_view err ->
  find_id "server-header" (root w) = None
  /\ find_id "tab-content" (root w) = None
  /\ find_id "stat-total" (root w) = None
  /\ find_id "login-error" (root w) = Some [0; 0; 1; 1].
Proof.
  intro V. rewrite !find_id_visible, V. unfold login_view, txt.
  destruct (err =? ""); repeat split; reflexivity.
Qed.

Lemma login_error_written (w : world) (err : string) (v : value) :
  visible w = login_view err ->
  visible (run (set_textContent [0; 0; 1; 1] v) w) = login_view (text_of v).
Proof.
  intro V. apply app_view_inj. rewrite visible_set_textContent, V.
  unfold login_view, txt. destruct (err =? ""); reflexivity.
Qed.

Lemma entry_points_end_in_render (e : event) (w : world) :
  match e with
  | NavigateTo _ _ | SetTab _ | Logout => True
  | _ => False
  end ->
  exists w0, run (handle e) w = run render w0.
Proof.
  destruct e; try contradiction; intros _; cbn [handle].
  - unfold navigateTo, set_currentView, set_currentServer.
    rewrite run_act_then.
    match goal with |- exists w0, run _ ?w1 = _ => generalize w1 end.
    intro w1. unfold run.
    match goal with
    | |- context [if ?b then _ else _] => destruct b
    end.
    + rewrite (bind_ok _ _ w1 _ tt) by reflexivity.
      match goal with |- exists w0, fst (_ ?w2) = _ => generalize w2 end.
      intro w2. rewrite (bind_ok _ _ w2 w2 (st w2)) by reflexivity.
      destruct (pollInterval (st w2)).
      * rewrite (bind_ok _ _ w2 _ tt) by reflexivity.
        rewrite (bind_ok _ _ _ _ tt) by reflexivity. eexists. reflexivity.
      * rewrite (bind_ok _ _ w2 _ tt) by reflexivity.
        rewrite (bind_ok _ _ _ _ tt) by reflexivity. eexists. reflexivity.
    + rewrite (bind_ok _ _ w1 w1 tt) by reflexivity.
      rewrite (bind_ok _ _ w1 w1 (st w1)) by reflexivity.
      destruct (pollInterval (st w1)).
      * rewrite (bind_ok _ _ w1 _ tt) by reflexivity.
        rewrite (bind_ok _ _ _ _ tt) by reflexivity. eexists. reflexivity.
      * rewrite (bind_ok _ _ w1 _ tt) by reflexivity.
        rewrite (bind_ok _ _ _ _ tt) by reflexivity. eexists. reflexivity.
  - unfold setTab, set_currentTab. rewrite run_act_then. eexists. reflexivity.
  - unfold logout, storage_remove_token, set_token. rewrite !run_act_then.
    match goal with |- exists w0, run _ ?w1 = _ => generalize w1 end.
    intro w1. unfold run. rewrite (bind_ok _ _ w1 w1 (st w1)) by reflexivity.
    destruct (pollInterval (st w1)).
    + rewrite (bind_ok _ _ w1 _ tt) by reflexivity. eexists. reflexivity.
    + rewrite (bind_ok _ _ w1 _ tt) by reflexivity. eexists. reflexivity.
Qed.

Lemma same_token_refl (w : world) : same_token w w.
Proof. reflexivity. Qed.

Lemma same_token_trans (a b c : world) :
  same_token a b -> same_token b c -> same_token a c.
Proof. unfold same_token. congruence. Qed.

Ltac token_leaf := unfold same_token; cbn; auto.
Ltac token_frame := frame_with same_token_refl same_token_trans token_leaf.

Lemma render_same_token : keeps same_token render.
Proof. intro w. now destruct (render_same_login w) as (T & _). Qed.

Lemma setupConsole_same_token (id : value) : keeps same_token (setupConsole id).
Proof.
  intro w. destruct (setupConsole_ok id w) as (_ & _ & S).
  unfold same_token. fold (run (setupConsole id) w). now rewrite S.
Qed.

Lemma update_header_same_token (server : value) :
  keeps same_token (update_header server).
Proof.
  unfold update_header.
  apply (keeps_bind _ same_token_trans); [ token_frame | ].
  intros [ph |]; [ | token_frame ].
  intro w. cbv zeta.
  repeat match goal with
         | |- context [match query ?c ?h with _ => _ end] =>
             destruct (query c h)
         end; refocus; token_frame.
Qed.

Lemma optimistic_badge_same_token (label : string) (cls : list string) :
  keeps same_token (optimistic_badge label cls).
Proof.
  unfold optimistic_badge.
  apply (keeps_bind _ same_token_trans);
    [ intro w; apply same_token_refl | intro; token_frame ].
Qed.

Lemma request_k_same_token (n : net) :
  unauthorized n = false -> keeps same_token (request_k n).
Proof. intros U w. now rewrite (request_k_quiet n w U). Qed.

Lemma navigateTo_same_token (view : string) (serverId : value) :
  keeps same_token (navigateTo view serverId).
Proof.
  pose proof render_same_token. unfold navigateTo. token_frame.
Qed.

Lemma resume_same_token (c : call) (n n' : net) :
  c <> AwaitLogin -> unauthorized n = false ->
  (c = AwaitDashboard -> unauthorized n' = false) ->
  keeps same_token (resume c n n').
Proof.
  intros Hc U U'.
  pose proof (request_k_same_token n U) as R.
  pose proof render_same_token. pose proof setupConsole_same_token.
  pose proof update_header_same_token. pose proof optimistic_badge_same_token.
  pose proof navigateTo_same_token.
  destruct c; try congruence; cbn [resume].
  - unfold loadServerData_k, mount_tab, loadFiles_root, loadWorlds,
      loadPlugins, loadSettings. token_frame.
  - pose proof (request_k_same_token n' (U' eq_refl)) as R'.
    unfold loadDashboardData_k. token_frame.
  - unfold handleStart_k, loadServerData. token_frame.
  - unfold handleStop_k, loadServerData. token_frame.
  - unfold handleRestart_k, loadServerData. token_frame.
  - unfold handleDeleteServer_k. token_frame.
  - token_frame.
Qed.

Lemma optimistic_badge_gone (label : string) (cls : list string) (w : world) :
  find_id "server-header" (root w) = None ->
  optimistic_badge label cls w = (w, Ok tt).
Proof.
  intro H. unfold optimistic_badge, bind.
  now rewrite (query_below_none _ _ _ H).
Qed.

Lemma actions_gone (c : call) (n n' : net) (w : world) :
  match c with
  | AwaitStart | AwaitStop | AwaitRestart | AwaitTabData => True
  | _ => False
  end ->
  find_id "server-header" (root w) = None -> unauthorized n = false ->
  body (run (resume c n n') w) = body w.
Proof.
  intros Hc H U.
  assert (L : forall w0 : world, body (run (detached (loadServerData false)) w0)
                                 = body w0).
  { intro w0. rewrite run_detached.
    now destruct (loadServerData_same_dom false w0) as (B & _). }
  destruct (fails n) eqn:F.
  - pose proof (request_k_fails n w F U) as E.
    destruct c; try contradiction; unfold run; cbn [resume];
      unfold handleStart_k, handleStop_k, handleRestart_k, try_catch;
      rewrite (bind_throw _ _ w w _ E); reflexivity.
  - destruct (request_k_succeeds n w F) as (v & E).
    destruct c; try contradiction; unfold run; cbn [resume];
      unfold handleStart_k, handleStop_k, handleRestart_k, try_catch;
      rewrite (bind_ok _ _ w w v E);
      rewrite ?(bind_ok _ _ w w tt (optimistic_badge_gone _ _ w H));
      try reflexivity.
    + rewrite (detached_ok (loadServerData false) w). apply L.
    + rewrite (detached_ok (loadServerData false) w). apply L.
    + rewrite (detached_ok (loadServerData false) w). apply L.
Qed.

Lemma loadDashboardData_k_gone (n n' : net) (w : world) :
  find_id "stat-total" (root w) = None ->
  unauthorized n = false -> unauthorized n' = false ->
  run (loadDashboardData_k n n') w = w.
Proof.
  intros H U U'.
  unfold run, loadDashboardData_k, detached, try_catch.
  rewrite (bind_ok _ _ _ _ _ (settle_run _ _)).
  rewrite (request_k_quiet n w U).
  rewrite (bind_ok _ _ _ _ _ (settle_run _ _)).
  rewrite (request_k_quiet n' w U').
  destruct (snd (request_k n w)), (snd (request_k n' w)); try reflexivity.
  unfold bind, getElementById. rewrite H. reflexivity.
Qed.

Lemma submitLogin_k_login_shown (n : net) (w : world) :
  unauthorized n = false -> login_shown w ->
  login_shown (run (submitLogin_k n) w).
Proof.
  intros U I.
  assert (C : (exists w0, run (submitLogin_k n) w = run render w0)
              \/ (exists m,
                    (res <- request_k n ;;
                     tok <- read res "token" ;;
                     set_token tok ;;;
                     storage_set_token tok ;;;
                     render) w = (w, Throw (Error m)))).
  { destruct (fails n) eqn:F.
    - right. exists (failure_message n).
      now rewrite (bind_throw _ _ w w _ (request_k_fails n w F U)).
    - destruct (request_k_succeeds n w F) as (v & E).
      destruct (prop v "token") as [tok |] eqn:P.
      + left. eexists. unfold run, submitLogin_k, try_catch.
        rewrite (bind_ok _ _ w w v E).
        rewrite (bind_ok _ _ w w tok) by (unfold read; now rewrite P).
        rewrite (bind_ok _ _ w _ tt) by reflexivity.
        rewrite (bind_ok _ _ _ _ tt) by reflexivity.
        rewrite render_ok. reflexivity.
      + right. eexists.
        rewrite (bind_ok _ _ w w v E).
        apply bind_throw. unfold read. rewrite P. reflexivity. }
  destruct C as [(w0 & ->) | (m & E)]; [ apply render_login_shown | ].
  unfold run, submitLogin_k, try_catch. rewrite E.
  rewrite (bind_ok _ _ w w _ (eq_refl : getElementById "login-error" w = _)).
  destruct (find_id "login-error" (root w)) as [p |] eqn:L;
    [ | exact I ].
  intro H. destruct (I H) as (err & V).
  destruct (login_view_lookups w err V) as (_ & _ & _ & L').
  rewrite L' in L. injection L as <-.
  eexists. now apply (login_error_written w err).
Qed.

Lemma resume_token (c : call) (n n' : net) (w : world) :
  c <> AwaitLogin -> unauthorized n = false ->
  (c = AwaitDashboard -> unauthorized n' = false) ->
  token (st (run (resume c n n') w)) = token (st w).
Proof. intros Hc U U'. exact (resume_same_token c n n' Hc U U' w). Qed.

Lemma resume_login_shown (c : call) (n n' : net) (w : world) :
  login_shown w -> login_shown (run (resume c n n') w).
Proof.
  intro Inv.
  destruct (unauthorized n) eqn:U.
  { intros _. pose proof (unauthorized_resume c n n' w (or_introl U)) as X.
    cbv zeta in X. destruct X as (_ & V). eexists. exact V. }
  destruct c.
  - (* loadServerData *)
    intro H.
    rewrite (resume_token (AwaitServerData fullRender) n n' w
               ltac:(discriminate) U ltac:(discriminate)) in H.
    destruct (Inv H) as (err & V). exists err.
    destruct (login_view_lookups w err V) as (Lh & Lt & _).
    destruct (loadServerData_k_gone fullRender n w Lh Lt U) as (B & _).
    cbn [resume]. unfold visible in *. now rewrite B.
  - (* loadDashboardData *)
    destruct (unauthorized n') eqn:U'.
    { intros _.
      pose proof (unauthorized_resume AwaitDashboard n n' w
                    (or_intror (conj eq_refl U'))) as X.
      cbv zeta in X. destruct X as (_ & V). eexists. exact V. }
    intro H.
    rewrite (resume_token AwaitDashboard n n' w ltac:(discriminate) U
               (fun _ => U')) in H.
    destruct (Inv H) as (err & V). exists err.
    destruct (login_view_lookups w err V) as (_ & _ & Ls & _).
    cbn [resume]. now rewrite (loadDashboardData_k_gone n n' w Ls U U').
  - intro H.
    rewrite (resume_token AwaitStart n n' w ltac:(discriminate) U
               ltac:(discriminate)) in H.
    destruct (Inv H) as (err & V). exists err.
    destruct (login_view_lookups w err V) as (Lh & _).
    unfold visible in *. now rewrite (actions_gone AwaitStart n n' w I Lh U).
  - intro H.
    rewrite (resume_token AwaitStop n n' w ltac:(discriminate) U
               ltac:(discriminate)) in H.
    destruct (Inv H) as (err & V). exists err.
    destruct (login_view_lookups w err V) as (Lh & _).
    unfold visible in *. now rewrite (actions_gone AwaitStop n n' w I Lh U).
  - intro H.
    rewrite (resume_token AwaitRestart n n' w ltac:(discriminate) U
               ltac:(discriminate)) in H.
    destruct (Inv H) as (err & V). exists err.
    destruct (login_view_lookups w err V) as (Lh & _).
    unfold visible in *. now rewrite (actions_gone AwaitRestart n n' w I Lh U).
  - (* handleDeleteServer *)
    cbn [resume]. destruct (fails n) eqn:F.
    + apply (same_page_login_shown w); [ | exact Inv ].
      unfold run, handleDeleteServer_k, try_catch.
      rewrite (bind_throw _ _ w w _ (request_k_fails n w F U)).
      split; reflexivity.
    + destruct (request_k_succeeds n w F) as (v & E).
      replace (run (handleDeleteServer_k n) w)
        with (run render (before_render "dashboard" w));
        [ apply render_login_shown | ].
      unfold run, handleDeleteServer_k, try_catch.
      rewrite (bind_ok _ _ w w v E), navigateTo_without_id, render_ok.
      reflexivity.
  - now apply submitLogin_k_login_shown.
  - intro H.
    rewrite (resume_token AwaitTabData n n' w ltac:(discriminate) U
               ltac:(discriminate)) in H.
    destruct (Inv H) as (err & V). exists err.
    destruct (login_view_lookups w err V) as (Lh & _).
    unfold visible in *. now rewrite (actions_gone AwaitTabData n n' w I Lh U).
Qed.

Lemma issue_same_page (e : event) :
  match e with
  | HandleStart | HandleStop | HandleRestart | HandleDeleteServer _
  | SubmitLogin | TimerFires _ => True
  | _ => False
  end ->
  keeps same_page (handle e).
Proof.
  destruct e; try contradiction; intros _; cbn [handle];
    unfold handleStart, handleStop, handleRestart, server_action,
      handleDeleteServer, submitLogin; try page_frame.
  intro w. destruct (find _ (timers w)) as [[h t] |].
  - destruct t; cbn [run_task]; refocus;
      unfold loadDashboardData, loadServerData; page_frame.
  - apply same_page_refl.
Qed.

Lemma step_login_shown (w : world) (e : event) :
  login_shown w -> login_shown (step w e).
Proof.
  intro Inv. unfold step. rewrite run_detached.
  destruct e.
  - destruct (entry_points_end_in_render (NavigateTo view serverId) w I)
      as (w0 & ->). apply render_login_shown.
  - destruct (entry_points_end_in_render (SetTab tab) w I) as (w0 & ->).
    apply render_login_shown.
  - destruct (entry_points_end_in_render Logout w I) as (w0 & ->).
    apply render_login_shown.
  - exact (same_page_login_shown _ _ (issue_same_page HandleStart I w) Inv).
  - exact (same_page_login_shown _ _ (issue_same_page HandleStop I w) Inv).
  - exact (same_page_login_shown _ _ (issue_same_page HandleRestart I w) Inv).
  - exact (same_page_login_shown _ _
             (issue_same_page (HandleDeleteServer confirmed) I w) Inv).
  - exact (same_page_login_shown _ _ (issue_same_page SubmitLogin I w) Inv).
  - exact (same_page_login_shown _ _
             (issue_same_page (TimerFires handle0) I w) Inv).
  - cbn [handle]. unfold run.
    destruct (take_nth k (pending w)) as [[c rest] |]; [ | exact Inv ].
    apply (resume_login_shown c n n' (set_pending rest w)). exact Inv.
Qed.

(** X4.  In every world the program reaches from the page load, by calls
    of its entry points, timer ticks and replies in any order and with any
    content: when there is no credential, the screen is the login view
    (its error line apart).  Every write of [state.token] is followed by
    [render] in the same turn, and nothing that resumes later finds an
    element of the other views to write to. *)
Theorem login_view_whenever_logged_out (stored : option string)
        (es : list event) :
  let w := steps (boot stored) es in
  truthy (token (st w)) = false -> exists err, visible w = login_view err.
Proof.
  intro w. change (login_shown w). unfold w, steps.
  assert (B : login_shown (boot stored))
    by (unfold boot; apply render_login_shown).
  revert B. generalize (boot stored).
  induction es as [| e es IH]; intros w0 H; [ exact H | ].
  cbn [fold_left]. apply IH. now apply step_login_shown.
Qed.

Lemma login_view_whenever_logged_out_witness :
  truthy (token (st (steps (boot None)
                       [SubmitLogin; Delivered 0 (Responds expired) unused])))
  = false
  /\ exists err,
       visible (steps (boot None)
                  [SubmitLogin; Delivered 0 (Responds expired) unused])
       = login_view err.
Proof.
  split; [ reflexivity | ].
  apply (login_view_whenever_logged_out None
           [SubmitLogin; Delivered 0 (Responds expired) unused]).
  reflexivity.
Defined.
